(* ===== verification/_CoqProject ===== *)
-Q . S2P
Prelude.v
Catalog.v
Jsx.v
Cart.v
Handlers.v
Drawer.v
Header.v
Rating.v
CardView.v
Categories.v
Session.v
CartSpec.v
DetailPage.v
Sort.v
JsObject.v
DetailView.v
Listing.v
Contact.v
Updates.v
Pages.v
