(* ===== verification/Prelude.v ===== *)
(** * A verification library for the ShopHub storefront (stylish-studio-kit)

    The repository is a React/TypeScript storefront.  Its stateful logic
    is the shopping cart every page keeps in a [useState] hook, the
    totals the cart drawer and the header display, and the view state of
    three pages: the listing's sort and filter selects
    ([pages/Products.tsx]), the quantity selector and image gallery of
    the product page ([pages/ProductDetail.tsx]) and the contact form
    ([pages/Contact.tsx]).  This library models that logic as a shallow
    embedding: data as records and inductive types, handlers as
    functions, each page as a step relation over its state.

    ** Parts of the program and the files that model them

    - [Catalog.v]: the [Product] record of [components/ProductCard.tsx]
      and of the pages, the discounted price
      [price * (1 - discount / 100)] when [discount] is truthy, the
      mock catalogs of [Store.tsx], [Products.tsx] and
      [ProductDetail.tsx] ([Catalog.Store], [Catalog.Products],
      [Catalog.Detail]).
    - [Jsx.v]: JavaScript values as JSX children: truthiness, and what
      [{cond && <element/>}] renders (a falsy number renders as text).
    - [Cart.v]: cart lines ([interface CartItem extends Product]) and
      the three array idioms every page uses ([prev.find], [prev.map]
      with an id test, [prev.filter] with an id test), the totals
      ([reduce]) and the invariant [wf] (ids distinct, quantities at
      least 1).
    - [Handlers.v]: the cart handlers of each page
      ([handleAddToCart], [handleUpdateQuantity], [handleRemoveItem])
      and the toasts they emit, one Module per page ([Store],
      [Products], [Detail], [Static] for Categories/About/Contact whose
      callbacks are [() => {}]).  The callbacks a page gives
      [CartDrawer] form the interface [CartCallbacks]; the laws the
      drawer relies on are the class [CallbacksLaws], discharged by each
      page.
    - [Drawer.v]: [components/CartDrawer.tsx]: what the drawer renders
      (lines, [toFixed(2)] prices, the disabled [-] button at quantity
      1), the intents its buttons dispatch, and the client theorems
      proved against [CallbacksLaws].
    - [Header.v]: [components/Header.tsx]: the cart badge, the menu
      toggle, the rendered header and its clicks.
    - [Rating.v]: the stars of [ProductDetail.tsx] ([renderStars], with
      [String.prototype.slice]) and of [ProductCard.tsx].
    - [CardView.v]: the whole [ProductCard] view.
    - [Categories.v]: [pages/Categories.tsx]: the categories and their
      cards; the store page's own category sidebar and product count.
    - [Session.v]: a card page (Store, Products, a static page) as a
      step relation: state [cartItems], [isCartOpen] and the emitted
      toasts, clicks enabled as the rendered page allows (cards and the
      cart button when the drawer is closed, the drawer's enabled
      buttons when it is open), reachability and an executable [run].
      Page laws ([PageLaws]) make the theorems hold for every page.
    - [CartSpec.v]: the cart's abstract specification, a finite map
      from id to line ([gmap string CartItem]), and the refinement of
      the list operations and of the sessions by map operations.
    - [DetailPage.v]: the product page as a step relation over its five
      pieces of state (cart, drawer, selected image, selector quantity,
      toasts).
    - [Sort.v]: [Array.prototype.sort] with a consistent comparator,
      modelled as a stable insertion sort and proved to be the unique
      stable sort.
    - [JsObject.v]: object literals and the property order of
      [Object.entries] (array indices first, ascending, then creation
      order).
    - [DetailView.v]: the product page's view: gallery, price block,
      stock line, tabs (features, specifications through
      [Object.entries], reviews).
    - [Listing.v]: the listing of [Products.tsx]: the comparator
      [switch (sortBy)], the filter callback, the two selects, and the
      page with its [sortBy]/[filterBy] state as a step relation that
      refines the products page of [Session.v].
    - [Contact.v]: the contact form: [formData] as a finite map from
      field name to value, [handleInputChange], [handleSubmit], and
      submission guarded by the [required]/[type="email"] validation.
    - [Updates.v]: React's update queue: a handler as the sequence of
      [setCartItems(updater)] and [toast(...)] calls its body makes
      ([StoreQueue], [ProductsQueue], [DetailQueue]), the updaters as
      functions into a writer monad of toasts, and a render that applies
      the queued updaters, each invoked [n + 1] times.
    - [Pages.v]: [components/HeroSection.tsx] ([Module Hero]), the
      content arrays and the whole view of [About.tsx] ([Module About])
      and of [Contact.tsx] ([Module ContactInfo]: methods, FAQ, hours,
      the form's inputs bound to [formData]), the store page's whole
      view ([renderStore]: header, hero, sidebar, grid, drawer).

    ** What the theorems show

    - Cart invariant: every reachable state of every card page, of the
      product page and of the listing has a well-formed cart
      ([Session.reachable_wf], [DetailPage.detail_reachable_bounds],
      [Listing.listing_refines]); the drawer never asks for a quantity
      below 1 ([Drawer.drawer_update_pos], [Drawer.drawer_click_wf]).
    - Functional behaviour of each handler on every branch, line order
      included ([Handlers.Store_add_spec], [Store_update_nonpos],
      [Store_remove_absent], [Detail_add_iter], ...), and of the totals
      the [+] and [-] buttons change ([Drawer.drawer_step_totals]).
    - Equivalence: the store and products pages behave the same through
      the UI although their handlers differ
      ([Session.store_products_same_cart]); each sort option orders the
      listing by its key ([Listing.listing_order]).
    - Refinement: the list handlers implement the map specification and
      every enabled click acts on the abstract cart as specified
      ([CartSpec.cart_ops_refine], [CartSpec.totals_refine],
      [CartSpec.session_refines]).
    - React's update queue: with updaters invoked more than once the
      carts are unchanged but the Store page's toast, called inside its
      updater, repeats ([Updates.updater_reinvocation]).
    - Liveness and termination: from every reachable state the cart can
      be emptied and the contact form sent ([Session.reachable_can_empty],
      [Contact.contact_can_send]); every sequence of remove clicks is
      finite ([Session.remove_clicks_terminate], well-founded by the
      cart's length).
    - Views: the card shows on every branch what its product says
      ([CardView.card_view_spec]); the header through any sequence of
      clicks ([Header.header_session]); views of different components
      agree: a card and the product page show the line the drawer shows
      ([CardView.card_drawer_price], [DetailView.detail_drawer_price]);
      exactly one thumbnail is framed in every reachable state
      ([DetailView.detail_view_thumbs]); the contact form's inputs show
      what is typed and are emptied by "Send Message"
      ([Pages.contact_form_roundtrip]).
    - Formatting: [toFixed(2)] prints the sign, the integer part and
      exactly two decimals of the amount rounded to the nearest cent
      ([Drawer.toFixed2_spec]).
    - Behaviour the spec does not state: a negative quantity survives on
      the products and product pages ([Handlers.Products_update_negative]),
      a cart line can exceed the stock ([DetailPage.detail_cart_exceeds_stock]),
      a negative rating draws filled stars ([Rating.renderStars_negative]),
      a zero discount renders a stray "0" ([CardView.card_zero_discount]).

    ** Modelling choices, bounds and fuel

    - JavaScript numbers used as prices, ratings and discounts are exact
      rationals [Q]; floating-point rounding is not modelled (totals are
      the exact values the code approximates; [toFixed(2)] rounds the
      exact value half up).  Quantities are [Z]: every quantity the code
      builds is an integer.  No integer has a machine width in the code,
      so none is bounded here.
    - Strings are [String.string]; [===] on strings is [String.eqb].
      [localeCompare] is a parameter satisfying [Listing.Collator],
      instantiated by code-unit order; the host's email check is a
      parameter of [Contact.v].
    - A React functional update [setX(prev => f prev)] is the function
      [f]; a handler that calls [toast] returns the toasts it emits.
      [Updates.v] justifies this: run through the hook's queue with one
      invocation per updater, each handler is that function.  The number
      of invocations is a parameter [n] of [Updates.click], left free in
      the theorems since the sources do not show whether the app is
      mounted in [<StrictMode>] (which invokes updaters twice).
      A page's lifetime is a sequence of clicks: a step relation,
      reachability by its reflexive-transitive closure [star], and an
      executable [run] that skips disabled clicks.  No definition uses
      fuel: every recursion is structural on a list.

    ** What is not modelled

    CSS classes, image loading, routing, the toast timer and the UI
    library under [components/ui] and [hooks] (not in the sources) are
    not modelled; toasts are values, and the views keep the text and
    structure of the markup, not its styling.  The tabs component keeps
    its own active value; the product page's view takes it as an
    argument.  The header's search inputs are uncontrolled and have no
    handler.  Number-to-text conversion of non-integers
    ([{product.rating}]) is kept as the number.  Updaters re-run by
    React are invoked on the same previous state; a rebase on a
    different state is not modelled.

    ** This file

    The prelude: the notation scope [shop_scope], the development's
    tactics, the hint database [shop], sums over lists in [Z] and [Q]
    with their permutation invariance, keyed-list and filter lemmas,
    and the reflexive-transitive closure used by the page models. *)

From Stdlib Require Export QArith Lqa String ZArith Lia.
From stdpp Require Export base list strings.
From Stdlib Require Import Sorted.

Declare Scope shop_scope.
Delimit Scope shop_scope with shop.

(** Equality of identifiers, as the code's [===] on strings. *)
Notation "a =s? b" := (String.eqb a b) (at level 70, no associativity) : shop_scope.

(** A quantity used in price arithmetic. *)
Notation "'⌜' z '⌝'" := (inject_Z z) (at level 0, z at level 200, format "⌜ z ⌝") : shop_scope.

Open Scope shop_scope.

Create HintDb shop.
Create Rewrite HintDb shop.

(** Case analysis on every string comparison [a =s? b] of the goal. *)
Ltac string_cases :=
  repeat match goal with
  | |- context [ String.eqb ?a ?b ] =>
      destruct (String.eqb_spec a b); subst
  | H : context [ String.eqb ?a ?b ] |- _ =>
      destruct (String.eqb_spec a b); subst
  end.

Lemma eqb_refl_s (s : string) : (s =s? s) = true.
Proof. by destruct (String.eqb_spec s s). Qed.

Lemma eqb_ne_s (s t : string) : s <> t -> (s =s? t) = false.
Proof. intros Hne. by destruct (String.eqb_spec s t). Qed.

#[export] Hint Rewrite eqb_refl_s : shop.

(** Close a decidable proposition on closed data by evaluation. *)
Ltac decide_prop := apply (bool_decide_unpack _); vm_compute; reflexivity.

(** Percentages: [x / 100] is [x * (1 # 100)], a linear term [lra] and
    [nra] accept. *)
Ltac percent_linear :=
  repeat match goal with
  | |- context [ (?x / 100)%Q ] => change (x / 100)%Q with (x * (1 # 100))%Q
  | H : context [ (?x / 100)%Q ] |- _ => change (x / 100)%Q with (x * (1 # 100))%Q in H
  end.

(** Structural equality of rationals (a price record is compared field by
    field). *)
#[export] Instance Q_eq_dec_struct : EqDecision Q.
Proof. intros [a b] [c d]. unfold Decision. decide equality; apply decide; apply _. Defined.

Lemma inject_Z_sub (x y : Z) : ⌜x - y⌝ = (⌜x⌝ - ⌜y⌝)%Q.
Proof. unfold Z.sub, Qminus. by rewrite inject_Z_plus, inject_Z_opp. Qed.

#[export] Hint Rewrite inject_Z_sub inject_Z_plus : shop.

(** ** Sums over lists *)

Section Sums.
Context {A : Type}.

(** The reference sums: right folds. *)
Definition sumZ (f : A -> Z) (l : list A) : Z :=
  fold_right (fun x s => (f x + s)%Z) 0%Z l.

Definition sumQ (f : A -> Q) (l : list A) : Q :=
  fold_right (fun x s => (f x + s)%Q) 0%Q l.

Lemma fold_left_addZ (f : A -> Z) (l : list A) (a : Z) :
  fold_left (fun s x => (s + f x)%Z) l a = (a + sumZ f l)%Z.
Proof. revert a. induction l as [|x l IH]; intros a; simpl; [lia|]. rewrite IH. lia. Qed.

Lemma fold_left_addQ (f : A -> Q) (l : list A) (a : Q) :
  fold_left (fun s x => (s + f x)%Q) l a == (a + sumQ f l)%Q.
Proof.
  revert a. induction l as [|x l IH]; intros a; simpl; [ring|].
  rewrite IH. ring.
Qed.

Lemma sumZ_app (f : A -> Z) (l k : list A) : sumZ f (l ++ k) = (sumZ f l + sumZ f k)%Z.
Proof. induction l; simpl; lia. Qed.

Lemma sumQ_app (f : A -> Q) (l k : list A) : sumQ f (l ++ k) == (sumQ f l + sumQ f k)%Q.
Proof. induction l as [|x l IH]; simpl; [ring|]. rewrite IH. ring. Qed.

#[export] Instance sumZ_perm (f : A -> Z) : Proper (Permutation ==> eq) (sumZ f).
Proof. induction 1; simpl; lia. Qed.

#[export] Instance sumQ_perm (f : A -> Q) : Proper (Permutation ==> Qeq) (sumQ f).
Proof.
  induction 1 as [| x l l' _ IH | x y l | l l' l'' _ IH1 _ IH2]; simpl.
  - reflexivity.
  - rewrite IH. reflexivity.
  - ring.
  - rewrite IH1, IH2. reflexivity.
Qed.

Lemma sumZ_ext (f g : A -> Z) (l : list A) :
  Forall (fun x => f x = g x) l -> sumZ f l = sumZ g l.
Proof. induction 1; simpl; lia. Qed.

Lemma sumQ_ext (f g : A -> Q) (l : list A) :
  Forall (fun x => f x == g x) l -> sumQ f l == sumQ g l.
Proof. induction 1 as [|x l Hx _ IH]; simpl; [reflexivity|]. rewrite Hx, IH. reflexivity. Qed.

Lemma sumZ_nonneg (f : A -> Z) (l : list A) :
  Forall (fun x => 0 <= f x)%Z l -> (0 <= sumZ f l)%Z.
Proof. induction 1; simpl; lia. Qed.
End Sums.

#[export] Hint Rewrite @sumZ_app : shop.

(** ** Lists keyed by a string identifier *)

Section Keyed.
Context {A : Type} (key : A -> string).

Definition keys (l : list A) : list string := map key l.

Lemma find_key_None (i : string) (l : list A) :
  find (fun x => key x =s? i) l = None <-> i ∉ keys l.
Proof.
  induction l as [|x l IH]; simpl; [split; [intros _; apply not_elem_of_nil|done]|].
  rewrite elem_of_cons. string_cases; [split; [done|tauto]|].
  rewrite IH. naive_solver.
Qed.

Lemma find_key_Some (i : string) (l : list A) (x : A) :
  find (fun y => key y =s? i) l = Some x -> key x = i /\ In x l.
Proof.
  intros Hf. apply find_some in Hf as [Hin Hk].
  by destruct (String.eqb_spec (key x) i).
Qed.

Lemma keys_app (l k : list A) : keys (l ++ k) = keys l ++ keys k.
Proof. apply map_app. Qed.
End Keyed.

Lemma Forall_List_filter {A : Type} (P : A -> Prop) (f : A -> bool) (l : list A) :
  Forall P l -> Forall P (List.filter f l).
Proof.
  rewrite !Forall_forall. intros H x Hx.
  apply list_elem_of_In, filter_In in Hx as [Hx _]. by apply H, list_elem_of_In.
Qed.

(** ** Reflexive-transitive closure of a step relation *)

Lemma List_filter_perm {A : Type} (f : A -> bool) (l1 l2 : list A) :
  l1 ≡ₚ l2 -> List.filter f l1 ≡ₚ List.filter f l2.
Proof.
  induction 1 as [|x l1 l2 _ IH|x y l|l1 l2 l3 _ IH1 _ IH2]; simpl.
  - done.
  - destruct (f x); [by constructor|done].
  - destruct (f x), (f y); [by constructor|done..].
  - by rewrite IH1.
Qed.

Lemma List_filter_comm {A : Type} (f g : A -> bool) (l : list A) :
  List.filter f (List.filter g l) = List.filter g (List.filter f l).
Proof.
  induction l as [|x l IH]; simpl; [done|].
  destruct (g x) eqn:Hg, (f x) eqn:Hf; simpl; by rewrite ?Hg, ?Hf, ?IH.
Qed.

Lemma StronglySorted_List_filter {A : Type} (R : relation A) (f : A -> bool) (l : list A) :
  StronglySorted R l -> StronglySorted R (List.filter f l).
Proof.
  induction 1 as [|x l _ IH Hx]; simpl; [constructor|].
  destruct (f x); [|done]. constructor; [done|]. by apply Forall_List_filter.
Qed.

(** Sortedness under a weaker order. *)
Lemma Sorted_weaken {A : Type} (R R' : A -> A -> Prop) (l : list A) :
  (forall a b, R a b -> R' a b) -> Sorted R l -> Sorted R' l.
Proof.
  intros HR. induction 1 as [|x l _ IH Hhd]; constructor; [done|].
  destruct Hhd; constructor. by apply HR.
Qed.

Section Star.
Context {S : Type} (step : S -> S -> Prop).

Inductive star : S -> S -> Prop :=
| star_refl s : star s s
| star_step s1 s2 s3 : step s1 s2 -> star s2 s3 -> star s1 s3.

Lemma star_one s1 s2 : step s1 s2 -> star s1 s2.
Proof. intros H. eapply star_step; [exact H|constructor]. Qed.

Lemma star_trans s1 s2 s3 : star s1 s2 -> star s2 s3 -> star s1 s3.
Proof. induction 1; [done|]. intros. eapply star_step; eauto. Qed.

(** Invariants are carried along every sequence of steps. *)
Lemma star_inv (P : S -> Prop) :
  (forall s s', P s -> step s s' -> P s') ->
  forall s s', star s s' -> P s -> P s'.
Proof. intros Hpres s s' Hs. induction Hs as [|s1 s2 s3 Hst _ IH]; eauto. Qed.
End Star.

#[export] Hint Constructors star : shop.
