(* ===== verification/Catalog.v ===== *)
(** * Catalog: products, discounted prices and the mock catalogs

    [Product] is the interface of [components/ProductCard.tsx] (the
    pages [Products.tsx] and [Store.tsx] use the same shape);
    [discountedPrice] is the expression every view computes from it.
    [DetailProduct] is the richer record of [pages/ProductDetail.tsx].
    The mock arrays are transcribed value by value. *)

From S2P Require Import Prelude.

Open Scope Q_scope.

(** [export interface Product] of ProductCard.tsx: optional fields are
    [option]. *)
Record Product := mkProduct {
  id : string;
  name : string;
  price : Q;
  image : string;
  rating : Q;
  reviewCount : Z;
  discount : option Q;
  badge : option string
}.

#[export] Instance Product_eq_dec : EqDecision Product.
Proof. solve_decision. Defined.

(** JavaScript truthiness of a number: [0] is falsy ([NaN] does not occur
    among the modelled values). *)
Definition num_truthy (d : Q) : bool := negb (Qeq_bool d 0).

(** [product.discount ? product.price * (1 - product.discount / 100)
    : product.price]: an absent or zero discount leaves the price. *)
Definition discountedPrice (p : Product) : Q :=
  match discount p with
  | Some d => if num_truthy d then price p * (1 - d / 100) else price p
  | None => price p
  end.

(** The discount badge [-{product.discount}%] is rendered exactly when
    the discount is truthy. *)
Definition showsDiscount (p : Product) : bool :=
  match discount p with
  | Some d => num_truthy d
  | None => false
  end.

(** The [interface Product] of ProductDetail.tsx. *)
Record DetailProduct := mkDetailProduct {
  d_id : string;
  d_name : string;
  d_price : Q;
  d_images : list string;
  d_rating : Q;
  d_reviewCount : Z;
  d_discount : option Q;
  d_badge : option string;
  d_description : string;
  d_features : list string;
  d_specifications : list (string * string);
  d_inStock : bool;
  d_stockCount : Z
}.

Module Store.
(** [const mockProducts: Product[]] of Store.tsx. *)
Definition mockProducts : list Product := [
  mkProduct "1" "Wireless Bluetooth Headphones" (7999 # 100)
    "https://images.unsplash.com/photo-1505740420928-5e560c06d30e?auto=format&fit=crop&q=80&w=400&h=300"
    (45 # 10) 128 (Some 20) (Some "Best Seller");
  mkProduct "2" "Smart Watch Series 5" (29999 # 100)
    "https://images.unsplash.com/photo-1523275335684-37898b6baf30?auto=format&fit=crop&q=80&w=400&h=300"
    (48 # 10) 89 (Some 15) None;
  mkProduct "3" "Laptop Backpack" (4999 # 100)
    "https://images.unsplash.com/photo-1553062407-98eeb64c6a62?auto=format&fit=crop&q=80&w=400&h=300"
    (43 # 10) 56 None (Some "New");
  mkProduct "4" "Smartphone Case" (2499 # 100)
    "https://images.unsplash.com/photo-1601593346740-925612772716?auto=format&fit=crop&q=80&w=400&h=300"
    (46 # 10) 234 (Some 30) None;
  mkProduct "5" "Portable Charger" (3499 # 100)
    "https://images.unsplash.com/photo-1609592986755-20cfc2648c40?auto=format&fit=crop&q=80&w=400&h=300"
    (44 # 10) 167 None (Some "Popular");
  mkProduct "6" "Gaming Mouse" (5999 # 100)
    "https://images.unsplash.com/photo-1527864550417-7fd91fc51a46?auto=format&fit=crop&q=80&w=400&h=300"
    (47 # 10) 98 None None
].
End Store.

Module Products.
(** [const mockProducts: Product[]] of Products.tsx. *)
Definition mockProducts : list Product := [
  mkProduct "1" "Wireless Bluetooth Headphones" (7999 # 100)
    "https://images.unsplash.com/photo-1505740420928-5e560c06d30e?w=400&h=400&fit=crop"
    (45 # 10) 128 (Some 20) (Some "Best Seller");
  mkProduct "2" "Smart Fitness Watch" (19999 # 100)
    "https://images.unsplash.com/photo-1523275335684-37898b6baf30?w=400&h=400&fit=crop"
    (48 # 10) 89 None (Some "New");
  mkProduct "3" "Laptop Backpack" (4999 # 100)
    "https://images.unsplash.com/photo-1553062407-98eeb64c6a62?w=400&h=400&fit=crop"
    (43 # 10) 156 (Some 15) None;
  mkProduct "4" "Wireless Mouse" (2999 # 100)
    "https://images.unsplash.com/photo-1527864550417-7fd91fc51a46?w=400&h=400&fit=crop"
    (46 # 10) 203 None None;
  mkProduct "5" "USB-C Cable" (1999 # 100)
    "https://images.unsplash.com/photo-1558618047-3c8c76ca7d13?w=400&h=400&fit=crop"
    (44 # 10) 67 None None;
  mkProduct "6" "Smartphone Stand" (2499 # 100)
    "https://images.unsplash.com/photo-1512499617640-c74ae3a79d37?w=400&h=400&fit=crop"
    (47 # 10) 145 None (Some "Popular")
].
End Products.

Module Detail.
(** [const mockProduct: Product] of ProductDetail.tsx. *)
Definition mockProduct : DetailProduct := {|
  d_id := "1";
  d_name := "Wireless Bluetooth Headphones";
  d_price := 7999 # 100;
  d_images := [
    "https://images.unsplash.com/photo-1505740420928-5e560c06d30e?w=600&h=600&fit=crop";
    "https://images.unsplash.com/photo-1583394838336-acd977736f90?w=600&h=600&fit=crop";
    "https://images.unsplash.com/photo-1484704849700-f032a568e944?w=600&h=600&fit=crop"];
  d_rating := 45 # 10;
  d_reviewCount := 128;
  d_discount := Some 20;
  d_badge := Some "Best Seller";
  d_description := "Experience premium sound quality with these wireless Bluetooth headphones. Featuring advanced noise cancellation technology and up to 30 hours of battery life, these headphones are perfect for music lovers and professionals alike.";
  d_features := [
    "Active Noise Cancellation"; "30-hour battery life";
    "Quick charge: 5 minutes = 3 hours playback"; "Premium comfort design";
    "High-resolution audio support"; "Built-in microphone for calls"];
  d_specifications := [
    ("Driver Size", "40mm"); ("Frequency Response", "20Hz - 20kHz");
    ("Impedance", "32 Ohm"); ("Battery Life", "30 hours");
    ("Charging Time", "2 hours"); ("Bluetooth Version", "5.0");
    ("Weight", "250g")];
  d_inStock := true;
  d_stockCount := 15
|}%string.

(** The detail page's [discountedPrice], same expression on the
    detail record. *)
Definition discountedPrice (p : DetailProduct) : Q :=
  match d_discount p with
  | Some d => if num_truthy d then d_price p * (1 - d / 100) else d_price p
  | None => d_price p
  end.
End Detail.

(** ** Lemmas on prices *)

Lemma discountedPrice_no_discount (p : Product) :
  showsDiscount p = false -> discountedPrice p == price p.
Proof.
  unfold discountedPrice, showsDiscount. destruct (discount p); [|reflexivity].
  intros ->. reflexivity.
Qed.

(** A discount of [d] percent with [0 <= d <= 100] gives a price between
    [0] and the list price. *)
Lemma discountedPrice_bounds (p : Product) :
  0 <= price p ->
  (forall d, discount p = Some d -> 0 <= d <= 100) ->
  0 <= discountedPrice p <= price p.
Proof.
  intros Hp Hd. unfold discountedPrice.
  destruct (discount p) as [d|]; [|lra].
  destruct (Hd d eq_refl) as [Hd0 Hd1].
  destruct (num_truthy d); [|lra].
  percent_linear. split; nra.
Qed.
