(* ===== verification/Jsx.v ===== *)
(** * JavaScript values as JSX children

    The views guard optional parts with [{value && <element/>}].  In
    JavaScript [a && b] is [a] when [a] is falsy, and React renders a
    child by its value: [undefined], [null] and booleans render nothing,
    a string renders as text, a number renders as its decimal text.  So
    a falsy number, [0], renders the text "0" where the element would
    have been.

    [JsVal] holds the values the views test ([undefined], booleans,
    numbers as exact rationals, strings); [truthy] is JavaScript's
    ToBoolean on them ([NaN] is not a value of the model); [Node] is
    what a child renders to, and [jsxAnd] is [{v && el}]. *)

From S2P Require Import Prelude.

Inductive JsVal :=
| JUndefined
| JBool (b : bool)
| JNum (q : Q)
| JStr (s : string).

(** ToBoolean: [undefined], [false], [0] and [''] are falsy. *)
Definition truthy (v : JsVal) : bool :=
  match v with
  | JUndefined => false
  | JBool b => b
  | JNum q => negb (Qeq_bool q 0)
  | JStr s => negb (s =s? "")
  end.

(** A rendered child: nothing, a text, a number's text, or an element. *)
Inductive Node (A : Type) :=
| NEmpty
| NText (s : string)
| NNum (q : Q)
| NEl (a : A).

Arguments NEmpty {A}.
Arguments NText {A} s.
Arguments NNum {A} q.
Arguments NEl {A} a.

(** How React renders a value that is not an element. *)
Definition valueNode {A : Type} (v : JsVal) : Node A :=
  match v with
  | JUndefined | JBool _ => NEmpty
  | JNum q => NNum q
  | JStr s => NText s
  end.

(** [{v && el}] *)
Definition jsxAnd {A : Type} (v : JsVal) (el : A) : Node A :=
  if truthy v then NEl el else valueNode v.

(** An optional field tested by [&&]: [undefined] when absent; the
    element may use the field's value. *)
Definition jsxAndOpt {A X : Type} (inj : X -> JsVal) (o : option X) (el : X -> A) : Node A :=
  match o with
  | Some x => jsxAnd (inj x) (el x)
  | None => valueNode JUndefined
  end.

(** [{c ? a : b}] on a boolean. *)
Definition jsxIf {A : Type} (c : bool) (a b : A) : A := if c then a else b.

(** Whether a child shows anything on screen. *)
Definition visible {A : Type} (n : Node A) : bool :=
  match n with
  | NEmpty => false
  | NText s => negb (s =s? "")
  | NNum _ => true
  | NEl _ => true
  end.

(** ** Lemmas *)

Lemma jsxAnd_truthy {A : Type} (v : JsVal) (el : A) : truthy v = true -> jsxAnd v el = NEl el.
Proof. unfold jsxAnd. by intros ->. Qed.

Lemma jsxAnd_falsy {A : Type} (v : JsVal) (el : A) : truthy v = false -> jsxAnd v el = valueNode v.
Proof. unfold jsxAnd. by intros ->. Qed.

(** A falsy value renders nothing visible unless it is a number. *)
Lemma jsxAnd_falsy_visible {A : Type} (v : JsVal) (el : A) :
  truthy v = false -> visible (jsxAnd v el) = match v with JNum _ => true | _ => false end.
Proof.
  intros Hv. rewrite jsxAnd_falsy by done. destruct v as [|b|q|s]; simpl in *; [done|done|done|].
  by destruct (s =s? "").
Qed.

(** The element shows exactly when the optional field is present and
    truthy. *)
Lemma jsxAndOpt_el {A X : Type} (inj : X -> JsVal) (o : option X) (el : X -> A) (a : A) :
  jsxAndOpt inj o el = NEl a <-> exists x, o = Some x /\ truthy (inj x) = true /\ a = el x.
Proof.
  destruct o as [x|]; simpl; [|split; [done|naive_solver]].
  unfold jsxAnd. destruct (truthy (inj x)) eqn:Ht.
  - split; [intros [= <-]; eauto|intros (y & [= <-] & _ & ->); done].
  - split; [by destruct (inj x)|intros (y & [= <-] & Hy & _); congruence].
Qed.

#[export] Hint Rewrite @jsxAnd_truthy @jsxAnd_falsy using done : shop.
