(* ===== verification/Cart.v ===== *)
(** * Cart lines, the array idioms on them, the invariant and the totals

    [CartItem] is [interface CartItem extends Product { quantity }]
    (CartDrawer.tsx, Store.tsx, Products.tsx; ProductDetail.tsx spells
    the same fields out).  Every page updates its cart with the same
    three idioms, modelled once here:
    - [prev.find(item => item.id === i)]: [findItem];
    - [prev.map(item => item.id === i ? f(item) : item)]: [mapItem];
    - [prev.filter(item => item.id !== i)]: [removeItem].
    The totals of CartDrawer.tsx ([totalPrice], [totalItems]) are
    [reduce] calls, i.e. left folds; they are related to the reference
    right-fold sums of the prelude.  The invariant [wf] (ids pairwise
    distinct, every quantity at least 1) is the one the spec states for a
    cart; its preservation lemmas are shared by all the handlers. *)

From S2P Require Import Prelude Catalog.

Open Scope Z_scope.

Record CartItem := mkCartItem { item : Product; quantity : Z }.

#[export] Instance CartItem_eq_dec : EqDecision CartItem.
Proof. solve_decision. Defined.

(** [item.id] of a line (the spread copies the product's fields). *)
Definition ci_id (it : CartItem) : string := id (item it).

Abbreviation Cart := (list CartItem).

(** [prev.find(item => item.id === i)] *)
Definition findItem (i : string) (c : Cart) : option CartItem :=
  find (fun it => ci_id it =s? i) c.

(** [prev.map(item => item.id === i ? f(item) : item)] *)
Definition mapItem (i : string) (f : CartItem -> CartItem) (c : Cart) : Cart :=
  map (fun it => if ci_id it =s? i then f it else it) c.

(** [{ ...item, quantity: q }] *)
Definition withQuantity (q : Z) (it : CartItem) : CartItem := mkCartItem (item it) q.

(** [prev.filter(item => item.id !== i)] *)
Definition removeItem (i : string) (c : Cart) : Cart :=
  List.filter (fun it => negb (ci_id it =s? i)) c.

(** [{ ...product, quantity: n }] *)
Definition newLine (p : Product) (n : Z) : CartItem := mkCartItem p n.

(** [cartItems.reduce((sum, item) => sum + item.quantity, 0)] *)
Definition totalItems (c : Cart) : Z :=
  fold_left (fun sum it => sum + quantity it) c 0.

(** The price of one unit of a line: the [discountedPrice] of the
    product fields the line carries. *)
Definition linePrice (it : CartItem) : Q := discountedPrice (item it).

(** [cartItems.reduce((sum, item) => { const price = item.discount ?
    item.price * (1 - item.discount / 100) : item.price;
    return sum + (price * item.quantity); }, 0)] *)
Definition totalPrice (c : Cart) : Q :=
  fold_left (fun sum it => (sum + linePrice it * ⌜quantity it⌝)%Q) c 0%Q.

(** The quantity of the line with id [i], [0] when there is none. *)
Definition quantityOf (i : string) (c : Cart) : Z :=
  match findItem i c with Some it => quantity it | None => 0 end.

(** The invariant of a cart. *)
Definition wf (c : Cart) : Prop :=
  NoDup (keys ci_id c) /\ Forall (fun it => 1 <= quantity it) c.

#[export] Instance wf_dec (c : Cart) : Decision (wf c).
Proof. unfold wf. apply _. Defined.

(** ** The idioms *)

Lemma findItem_None (i : string) (c : Cart) :
  findItem i c = None <-> i ∉ keys ci_id c.
Proof. apply find_key_None. Qed.

Lemma findItem_Some (i : string) (c : Cart) (it : CartItem) :
  findItem i c = Some it -> ci_id it = i /\ In it c.
Proof. apply find_key_Some. Qed.

Lemma findItem_Some_elem (i : string) (c : Cart) (it : CartItem) :
  findItem i c = Some it -> i ∈ keys ci_id c.
Proof.
  intros [<- Hin]%findItem_Some. apply list_elem_of_In, in_map, Hin.
Qed.

Lemma findItem_app_l (i : string) (c d : Cart) :
  i ∈ keys ci_id c -> findItem i (c ++ d) = findItem i c.
Proof.
  induction c as [|x c IH]; simpl; [by intros ?%not_elem_of_nil|].
  rewrite elem_of_cons. string_cases; [done|]. intros [->|Hi]; [done|]. auto.
Qed.

Lemma findItem_app_r (i : string) (c d : Cart) :
  i ∉ keys ci_id c -> findItem i (c ++ d) = findItem i d.
Proof.
  induction c as [|x c IH]; simpl; [done|]. rewrite elem_of_cons.
  intros Hi. string_cases; [naive_solver|]. naive_solver.
Qed.

Lemma keys_mapItem (i : string) (f : CartItem -> CartItem) (c : Cart) :
  (forall it, ci_id (f it) = ci_id it) -> keys ci_id (mapItem i f c) = keys ci_id c.
Proof.
  intros Hf. unfold keys, mapItem. rewrite map_map. apply map_ext.
  intros it. by destruct (ci_id it =s? i).
Qed.

Lemma mapItem_notin (i : string) (f : CartItem -> CartItem) (c : Cart) :
  i ∉ keys ci_id c -> mapItem i f c = c.
Proof.
  induction c as [|x c IH]; simpl; [done|]. rewrite elem_of_cons.
  intros Hi. string_cases; [naive_solver|]. f_equal. naive_solver.
Qed.

Lemma removeItem_notin (i : string) (c : Cart) :
  i ∉ keys ci_id c -> removeItem i c = c.
Proof.
  induction c as [|x c IH]; simpl; [done|]. rewrite elem_of_cons.
  intros Hi. destruct (String.eqb_spec (ci_id x) i) as [<-|Hne]; simpl;
    [naive_solver | f_equal; naive_solver].
Qed.

Lemma keys_removeItem (i : string) (c : Cart) :
  keys ci_id (removeItem i c) = filter (fun j => j <> i) (keys ci_id c).
Proof.
  induction c as [|x c IH]; simpl; [done|]. unfold keys in *. rewrite filter_cons.
  destruct (String.eqb_spec (ci_id x) i); simpl; case_decide; try done; by f_equal.
Qed.

Lemma removeItem_not_elem (i : string) (c : Cart) : i ∉ keys ci_id (removeItem i c).
Proof.
  rewrite keys_removeItem, list_elem_of_filter. naive_solver.
Qed.

Lemma removeItem_sublist (i : string) (c : Cart) : sublist (removeItem i c) c.
Proof.
  induction c as [|x c IH]; simpl; [done|].
  destruct (negb (ci_id x =s? i)); by constructor.
Qed.

Lemma removeItem_idem (i : string) (c : Cart) : removeItem i (removeItem i c) = removeItem i c.
Proof. apply removeItem_notin, removeItem_not_elem. Qed.

Lemma removeItem_app (i : string) (c d : Cart) :
  removeItem i (c ++ d) = removeItem i c ++ removeItem i d.
Proof. apply List.filter_app. Qed.

#[export] Hint Rewrite removeItem_app : shop.

(** Removing a line after changing it, keeping its id, removes it. *)
Lemma removeItem_mapItem (i : string) (f : CartItem -> CartItem) (c : Cart) :
  (forall it, ci_id (f it) = ci_id it) -> removeItem i (mapItem i f c) = removeItem i c.
Proof.
  intros Hf. induction c as [|x c IH]; [done|]. cbn [mapItem map removeItem List.filter] in *.
  destruct (String.eqb_spec (ci_id x) i) as [Hx|Hx]; simpl.
  - rewrite Hf, Hx, eqb_refl_s. simpl. apply IH.
  - rewrite (proj2 (String.eqb_neq _ _) Hx). simpl. by f_equal.
Qed.

(** ** The invariant *)

Lemma wf_nil : wf [].
Proof. split; constructor. Qed.

Lemma wf_removeItem (i : string) (c : Cart) : wf c -> wf (removeItem i c).
Proof.
  intros [Hnd Hq]. split.
  - rewrite keys_removeItem. by apply NoDup_filter.
  - unfold removeItem. by apply Forall_List_filter.
Qed.

Lemma wf_mapItem (i : string) (f : CartItem -> CartItem) (c : Cart) :
  (forall it, ci_id (f it) = ci_id it) ->
  (forall it, 1 <= quantity it -> 1 <= quantity (f it)) ->
  wf c -> wf (mapItem i f c).
Proof.
  intros Hid Hq [Hnd Hall]. split; [by rewrite keys_mapItem|].
  unfold mapItem. apply Forall_map. eapply Forall_impl; [exact Hall|].
  intros it Hit. simpl. destruct (ci_id it =s? i); auto.
Qed.

Lemma wf_snoc (c : Cart) (it : CartItem) :
  wf c -> ci_id it ∉ keys ci_id c -> 1 <= quantity it -> wf (c ++ [it]).
Proof.
  intros [Hnd Hall] Hi Hq. split.
  - rewrite keys_app. simpl. apply NoDup_app. split; [done|].
    split; [|by apply NoDup_singleton].
    intros j Hj ->%list_elem_of_singleton. done.
  - apply Forall_app. split; [done|]. by constructor.
Qed.

Lemma wf_quantity (c : Cart) (it : CartItem) : wf c -> it ∈ c -> 1 <= quantity it.
Proof. intros [_ Hall] Hin. rewrite Forall_forall in Hall. auto. Qed.

#[export] Hint Resolve wf_nil wf_removeItem wf_snoc : shop.

(** ** Totals *)

Lemma totalItems_sum (c : Cart) : totalItems c = sumZ quantity c.
Proof. unfold totalItems. rewrite fold_left_addZ. lia. Qed.

Lemma totalPrice_sum (c : Cart) : (totalPrice c == sumQ (fun it => linePrice it * ⌜quantity it⌝) c)%Q.
Proof. unfold totalPrice. rewrite fold_left_addQ. ring. Qed.

(** The totals do not depend on the order of the lines. *)
#[export] Instance totalItems_perm : Proper (Permutation ==> eq) totalItems.
Proof. intros c d Hcd. rewrite !totalItems_sum. by rewrite Hcd. Qed.

#[export] Instance totalPrice_perm : Proper (Permutation ==> Qeq) totalPrice.
Proof. intros c d Hcd. rewrite !totalPrice_sum. by rewrite Hcd. Qed.

Lemma totalItems_app (c d : Cart) : totalItems (c ++ d) = totalItems c + totalItems d.
Proof. rewrite !totalItems_sum. apply sumZ_app. Qed.

Lemma totalPrice_app (c d : Cart) : (totalPrice (c ++ d) == totalPrice c + totalPrice d)%Q.
Proof. rewrite !totalPrice_sum. apply sumQ_app. Qed.

Lemma totalItems_pos (c : Cart) : wf c -> c <> [] -> 0 < totalItems c.
Proof.
  intros Hwf Hne. rewrite totalItems_sum. destruct c as [|it c]; [done|]. simpl.
  assert (1 <= quantity it) by (apply (wf_quantity (it :: c)); [done|left]).
  assert (0 <= sumZ quantity c).
  { apply sumZ_nonneg. destruct Hwf as [_ Hall]. inversion Hall; subst.
    eapply Forall_impl; [eassumption|]. simpl. lia. }
  lia.
Qed.

(** ** Sums over updated carts

    With ids pairwise distinct, [mapItem i f] changes exactly the line
    [findItem i] returns and [removeItem i] drops exactly that line; any
    additive measure of the cart changes accordingly. *)

Lemma NoDup_keys_cons (it : CartItem) (c : Cart) :
  NoDup (keys ci_id (it :: c)) -> (ci_id it ∉ keys ci_id c) /\ NoDup (keys ci_id c).
Proof. intros H. by apply NoDup_cons in H. Qed.

Lemma mapItem_found (i : string) (f : CartItem -> CartItem) (c : Cart) (it : CartItem) :
  NoDup (keys ci_id c) -> findItem i c = Some it ->
  exists c1 c2, c = c1 ++ it :: c2 /\ mapItem i f c = c1 ++ f it :: c2 /\
                removeItem i c = c1 ++ c2.
Proof.
  induction c as [|x c IH]; simpl; [done|]. intros [Hx Hnd]%NoDup_keys_cons.
  destruct (String.eqb_spec (ci_id x) i) as [<-|Hne]; intros Hf.
  - injection Hf as <-. exists [], c. simpl.
    rewrite mapItem_notin, removeItem_notin by done. done.
  - destruct (IH Hnd Hf) as (c1 & c2 & -> & Hm & Hr). exists (x :: c1), c2.
    simpl. by rewrite Hm, Hr.
Qed.

Lemma sumZ_mapItem (g : CartItem -> Z) (i : string) (f : CartItem -> CartItem) (c : Cart) (it : CartItem) :
  NoDup (keys ci_id c) -> findItem i c = Some it ->
  sumZ g (mapItem i f c) = sumZ g c - g it + g (f it).
Proof.
  intros Hnd Hf. destruct (mapItem_found i f c it Hnd Hf) as (c1 & c2 & -> & -> & _).
  rewrite !sumZ_app. simpl. lia.
Qed.

Lemma sumQ_mapItem (g : CartItem -> Q) (i : string) (f : CartItem -> CartItem) (c : Cart) (it : CartItem) :
  NoDup (keys ci_id c) -> findItem i c = Some it ->
  (sumQ g (mapItem i f c) == sumQ g c - g it + g (f it))%Q.
Proof.
  intros Hnd Hf. destruct (mapItem_found i f c it Hnd Hf) as (c1 & c2 & -> & -> & _).
  rewrite !sumQ_app. simpl. ring.
Qed.

Lemma sumZ_removeItem (g : CartItem -> Z) (i : string) (c : Cart) (it : CartItem) :
  NoDup (keys ci_id c) -> findItem i c = Some it ->
  sumZ g (removeItem i c) = sumZ g c - g it.
Proof.
  intros Hnd Hf. destruct (mapItem_found i (fun x => x) c it Hnd Hf) as (c1 & c2 & -> & _ & ->).
  rewrite !sumZ_app. simpl. lia.
Qed.

(** [mapItem] on the same id composes. *)
Lemma mapItem_mapItem (i : string) (f g : CartItem -> CartItem) (c : Cart) :
  (forall it, ci_id (g it) = ci_id it) ->
  mapItem i f (mapItem i g c) = mapItem i (fun it => f (g it)) c.
Proof.
  intros Hg. unfold mapItem. rewrite map_map. apply map_ext. intros it.
  destruct (String.eqb_spec (ci_id it) i) as [Hi|Hi].
  - by rewrite Hg, Hi, eqb_refl_s.
  - by rewrite (eqb_ne_s _ _ Hi).
Qed.

Lemma findItem_mapItem (i : string) (f : CartItem -> CartItem) (c : Cart) (it : CartItem) :
  (forall x, ci_id (f x) = ci_id x) ->
  findItem i c = Some it -> findItem i (mapItem i f c) = Some (f it).
Proof.
  intros Hf. induction c as [|x c IH]; simpl; [done|].
  destruct (String.eqb_spec (ci_id x) i) as [Hi|Hi]; simpl.
  - intros [= <-]. by rewrite Hf, Hi, eqb_refl_s.
  - rewrite (eqb_ne_s _ _ Hi). auto.
Qed.

(** ** Adding a product

    The three pages' add updaters share one shape: find the line of the
    product; if there is one, add [n] to its quantity with [mapItem],
    else append [{ ...product, quantity: n }].  [addLine] is that shape;
    each page's handler is proved equal to it in [Handlers.v]. *)

(** [item => ({ ...item, quantity: item.quantity + n })] *)
Definition bump (n : Z) (item : CartItem) : CartItem := withQuantity (quantity item + n) item.

Definition addLine (p : Product) (n : Z) (prev : Cart) : Cart :=
  match findItem (id p) prev with
  | Some _ => mapItem (id p) (bump n) prev
  | None => prev ++ [newLine p n]
  end.

Lemma bump_id (n : Z) (it : CartItem) : ci_id (bump n it) = ci_id it.
Proof. reflexivity. Qed.

Lemma withQuantity_id (q : Z) (it : CartItem) : ci_id (withQuantity q it) = ci_id it.
Proof. reflexivity. Qed.

#[export] Hint Resolve bump_id withQuantity_id : shop.

Lemma bump_bump (n m : Z) (it : CartItem) : bump m (bump n it) = bump (n + m) it.
Proof. unfold bump, withQuantity. simpl. f_equal. lia. Qed.

Lemma findItem_mapItem_ne (i j : string) (f : CartItem -> CartItem) (c : Cart) :
  (forall x, ci_id (f x) = ci_id x) -> j <> i -> findItem j (mapItem i f c) = findItem j c.
Proof.
  intros Hf Hne. induction c as [|x c IH]; simpl; [done|].
  destruct (String.eqb_spec (ci_id x) i) as [Hi|Hi]; simpl; rewrite ?Hf, ?IH; [|done].
  rewrite Hi, (eqb_ne_s i j) by congruence.
  destruct (String.eqb_spec (ci_id x) j); [congruence|done].
Qed.

Lemma findItem_snoc_ne (j : string) (c : Cart) (l : CartItem) :
  j <> ci_id l -> findItem j (c ++ [l]) = findItem j c.
Proof.
  intros Hne. induction c as [|x c IH]; simpl.
  - by rewrite (eqb_ne_s (ci_id l) j) by congruence.
  - by destruct (ci_id x =s? j).
Qed.

Lemma mapItem_snoc_new (i : string) (f : CartItem -> CartItem) (c : Cart) (l : CartItem) :
  i ∉ keys ci_id c -> ci_id l = i -> mapItem i f (c ++ [l]) = c ++ [f l].
Proof.
  intros Hi Hl. unfold mapItem. rewrite map_app. simpl. rewrite Hl, eqb_refl_s.
  fold (mapItem i f c). by rewrite mapItem_notin.
Qed.

(** The line of the product after the addition. *)
Lemma addLine_find_self (p : Product) (n : Z) (c : Cart) :
  findItem (id p) (addLine p n c) =
  Some (match findItem (id p) c with Some it => bump n it | None => newLine p n end).
Proof.
  unfold addLine. destruct (findItem (id p) c) as [it|] eqn:Hf.
  - by apply findItem_mapItem.
  - apply findItem_None in Hf. rewrite findItem_app_r by done. simpl.
    by rewrite eqb_refl_s.
Qed.

(** The other lines are untouched. *)
Lemma addLine_find_other (p : Product) (n : Z) (c : Cart) (j : string) :
  j <> id p -> findItem j (addLine p n c) = findItem j c.
Proof.
  intros Hne. unfold addLine. destruct (findItem (id p) c).
  - by apply findItem_mapItem_ne.
  - by apply findItem_snoc_ne.
Qed.

(** The lines keep their order; a new line is appended. *)
Lemma addLine_keys (p : Product) (n : Z) (c : Cart) :
  keys ci_id (addLine p n c) = keys ci_id c ++ (if bool_decide (id p ∈ keys ci_id c) then [] else [id p]).
Proof.
  unfold addLine. destruct (findItem (id p) c) as [it|] eqn:Hf.
  - rewrite bool_decide_true by (by eapply findItem_Some_elem). rewrite app_nil_r.
    apply keys_mapItem. intros; apply bump_id.
  - rewrite bool_decide_false by (by apply findItem_None). unfold keys. by rewrite map_app.
Qed.

Lemma addLine_wf (p : Product) (n : Z) (c : Cart) : 1 <= n -> wf c -> wf (addLine p n c).
Proof.
  intros Hn Hwf. unfold addLine. destruct (findItem (id p) c) eqn:Hf.
  - apply wf_mapItem; [done| |done]. intros it. simpl. lia.
  - apply findItem_None in Hf. by apply wf_snoc.
Qed.

#[export] Hint Resolve addLine_wf : shop.

Lemma addLine_totalItems (p : Product) (n : Z) (c : Cart) :
  NoDup (keys ci_id c) -> totalItems (addLine p n c) = totalItems c + n.
Proof.
  intros Hnd. rewrite !totalItems_sum. unfold addLine.
  destruct (findItem (id p) c) as [it|] eqn:Hf.
  - rewrite (sumZ_mapItem _ _ _ _ it) by done. simpl. lia.
  - rewrite sumZ_app. simpl. lia.
Qed.

(** Merging: adding [n] then [m] units is adding [n + m] units. *)
Lemma addLine_addLine (p : Product) (n m : Z) (c : Cart) :
  addLine p m (addLine p n c) = addLine p (n + m) c.
Proof.
  unfold addLine at 1. rewrite addLine_find_self. unfold addLine.
  destruct (findItem (id p) c) as [it|] eqn:Hf.
  - rewrite mapItem_mapItem by apply bump_id. unfold mapItem. apply map_ext.
    intros x. destruct (ci_id x =s? id p); [apply bump_bump|done].
  - apply findItem_None in Hf. rewrite mapItem_snoc_new by done.
    unfold bump, withQuantity, newLine. simpl. done.
Qed.

(** With distinct ids, the line found for the id of a line is that line. *)
Lemma findItem_elem (c : Cart) (it : CartItem) :
  NoDup (keys ci_id c) -> it ∈ c -> findItem (ci_id it) c = Some it.
Proof.
  induction c as [|x c IH]; [by intros ? ?%not_elem_of_nil|].
  intros [Hx Hnd]%NoDup_keys_cons [->|Hin]%elem_of_cons; simpl.
  - by rewrite eqb_refl_s.
  - destruct (String.eqb_spec (ci_id x) (ci_id it)) as [Heq|]; [|auto].
    exfalso. apply Hx. rewrite Heq. apply list_elem_of_In, in_map, list_elem_of_In, Hin.
Qed.

Lemma removeItem_length_lt (i : string) (c : Cart) :
  i ∈ keys ci_id c -> (length (removeItem i c) < length c)%nat.
Proof.
  induction c as [|x c IH]; [by intros ?%not_elem_of_nil|].
  intros [->|Hi]%elem_of_cons; simpl.
  - rewrite eqb_refl_s. simpl. pose proof (removeItem_sublist (ci_id x) c) as Hs.
    apply sublist_length in Hs. lia.
  - destruct (ci_id x =s? i); simpl.
    + pose proof (removeItem_sublist i c) as Hs. apply sublist_length in Hs. lia.
    + specialize (IH Hi). lia.
Qed.
