(* ===== verification/Handlers.v ===== *)
(** * The cart handlers of each page

    Each page keeps [const [cartItems, setCartItems] = useState([])] and
    defines [handleAddToCart], [handleUpdateQuantity] and
    [handleRemoveItem].  A handler is modelled as the function its
    [setCartItems] updater applies to the previous list, paired with the
    toasts the handler emits (in emission order).  The pages differ:
    - Store.tsx: adding toasts from inside the updater, a quantity
      [<= 0] removes the line and the removal toasts;
    - Products.tsx: only a quantity [=== 0] removes, no removal toast;
    - ProductDetail.tsx: adds the selector's quantity, the line is built
      from the detail record, same update rule as Products.tsx;
    - Categories.tsx, About.tsx, Contact.tsx: the callbacks are
      [() => {}] and the cart is the constant [[]].
    [CartCallbacks] is [CartDrawerProps]' pair of callbacks;
    [CallbacksLaws] is what the drawer's client theorems need of them. *)

From stdpp Require Import pretty.
From S2P Require Import Prelude Catalog Cart.

Open Scope Z_scope.

(** The argument of [toast({ title, description })]. *)
Record Toast := mkToast { title : string; description : string }.

(** [onUpdateQuantity] and [onRemoveItem] of [CartDrawerProps], each as
    its effect on the page's cart and the toasts it emits. *)
Record CartCallbacks := mkCallbacks {
  onUpdateQuantity : string -> Z -> Cart -> Cart * list Toast;
  onRemoveItem : string -> Cart -> Cart * list Toast
}.

(** The laws a page's callbacks satisfy: a positive quantity overwrites
    the line's quantity, a removal filters the line out. *)
Class CallbacksLaws (cb : CartCallbacks) := {
  law_update_pos i q c : 0 < q -> fst (onUpdateQuantity cb i q c) = mapItem i (withQuantity q) c;
  law_remove i c : fst (onRemoveItem cb i c) = removeItem i c
}.

Module Store.
Definition addedToast (product : Product) (existing : bool) : Toast :=
  if existing
  then mkToast "Added to cart" (name product ++ " quantity updated")%string
  else mkToast "Added to cart" (name product ++ " has been added to your cart")%string.

(** [handleAddToCart]: the toast is emitted from inside the updater. *)
Definition handleAddToCart (product : Product) (prev : Cart) : Cart * list Toast :=
  match findItem (id product) prev with
  | Some _ => (mapItem (id product) (bump 1) prev, [addedToast product true])
  | None => (prev ++ [newLine product 1], [addedToast product false])
  end.

(** [handleRemoveItem] *)
Definition handleRemoveItem (i : string) (prev : Cart) : Cart * list Toast :=
  (removeItem i prev,
   [mkToast "Removed from cart" "Item has been removed from your cart"%string]).

(** [handleUpdateQuantity]: [if (quantity <= 0) { handleRemoveItem(id);
    return; }] *)
Definition handleUpdateQuantity (i : string) (quantity : Z) (prev : Cart) : Cart * list Toast :=
  if quantity <=? 0 then handleRemoveItem i prev
  else (mapItem i (withQuantity quantity) prev, []).

(** [const totalCartItems = cartItems.reduce(...)], passed to [Header]. *)
Definition totalCartItems (c : Cart) : Z := fold_left (fun sum item => sum + quantity item) c 0.

Definition callbacks : CartCallbacks := mkCallbacks handleUpdateQuantity handleRemoveItem.
End Store.

Module Products.
(** [handleAddToCart]: the toast is emitted after [setCartItems]. *)
Definition handleAddToCart (product : Product) (prevItems : Cart) : Cart * list Toast :=
  (match findItem (id product) prevItems with
   | Some _ => mapItem (id product) (bump 1) prevItems
   | None => prevItems ++ [newLine product 1]
   end,
   [mkToast "Added to cart" (name product ++ " has been added to your cart.")%string]).

(** [handleUpdateQuantity]: only [quantity === 0] removes. *)
Definition handleUpdateQuantity (i : string) (quantity : Z) (prevItems : Cart) : Cart * list Toast :=
  (if quantity =? 0 then removeItem i prevItems
   else mapItem i (withQuantity quantity) prevItems, []).

Definition handleRemoveItem (i : string) (prevItems : Cart) : Cart * list Toast :=
  (removeItem i prevItems, []).

Definition cartItemsCount (c : Cart) : Z := fold_left (fun total item => total + quantity item) c 0.

Definition callbacks : CartCallbacks := mkCallbacks handleUpdateQuantity handleRemoveItem.
End Products.

Module Detail.
(** [product.images[0]]; the empty list (for which the code reads
    [undefined]) gives the empty string. *)
Definition firstImage (product : DetailProduct) : string :=
  match d_images product with img :: _ => img | [] => ""%string end.

(** The product fields the new cart line copies. *)
Definition toProduct (product : DetailProduct) : Product :=
  mkProduct (d_id product) (d_name product) (d_price product) (firstImage product)
    (d_rating product) (d_reviewCount product) (d_discount product) (d_badge product).

(** [handleAddToCart] with [quantity] the selector's state [q]. *)
Definition handleAddToCart (product : DetailProduct) (q : Z) (prevItems : Cart) : Cart * list Toast :=
  (match findItem (d_id product) prevItems with
   | Some _ => mapItem (d_id product) (bump q) prevItems
   | None => prevItems ++ [newLine (toProduct product) q]
   end,
   [mkToast "Added to cart" (pretty q ++ " " ++ d_name product ++ " added to your cart.")%string]).

Definition handleUpdateQuantity (i : string) (newQuantity : Z) (prevItems : Cart) : Cart * list Toast :=
  (if newQuantity =? 0 then removeItem i prevItems
   else mapItem i (withQuantity newQuantity) prevItems, []).

Definition handleRemoveItem (i : string) (prevItems : Cart) : Cart * list Toast :=
  (removeItem i prevItems, []).

Definition cartItemsCount (c : Cart) : Z := fold_left (fun total item => total + quantity item) c 0.

Definition callbacks : CartCallbacks := mkCallbacks handleUpdateQuantity handleRemoveItem.
End Detail.

Module Static.
(** [onUpdateQuantity={() => {}}] and [onRemoveItem={() => {}}] of
    Categories.tsx, About.tsx and Contact.tsx. *)
Definition callbacks : CartCallbacks :=
  mkCallbacks (fun _ _ c => (c, [])) (fun _ c => (c, [])).
End Static.

(** ** The laws hold for the three pages with a cart *)

#[export] Instance Store_laws : CallbacksLaws Store.callbacks.
Proof.
  split; [|done]. intros i q c Hq. simpl. unfold Store.handleUpdateQuantity.
  destruct (Z.leb_spec q 0); [lia|done].
Qed.

#[export] Instance Products_laws : CallbacksLaws Products.callbacks.
Proof.
  split; [|done]. intros i q c Hq. simpl. unfold Products.handleUpdateQuantity.
  destruct (Z.eqb_spec q 0); [lia|done].
Qed.

#[export] Instance Detail_laws : CallbacksLaws Detail.callbacks.
Proof.
  split; [|done]. intros i q c Hq. simpl. unfold Detail.handleUpdateQuantity.
  destruct (Z.eqb_spec q 0); [lia|done].
Qed.

(** ** Each page's add updater is [addLine] *)

Lemma Store_add_cart (p : Product) (c : Cart) : fst (Store.handleAddToCart p c) = addLine p 1 c.
Proof. unfold Store.handleAddToCart, addLine. by destruct (findItem (id p) c). Qed.

Lemma Products_add_cart (p : Product) (c : Cart) : fst (Products.handleAddToCart p c) = addLine p 1 c.
Proof. reflexivity. Qed.

Lemma Detail_add_cart (prod : DetailProduct) (q : Z) (c : Cart) :
  fst (Detail.handleAddToCart prod q c) = addLine (Detail.toProduct prod) q c.
Proof. reflexivity. Qed.

#[export] Hint Rewrite Store_add_cart Products_add_cart Detail_add_cart : shop.

Lemma Store_add_toasts (p : Product) (c : Cart) :
  snd (Store.handleAddToCart p c) = [Store.addedToast p (bool_decide (id p ∈ keys ci_id c))].
Proof.
  unfold Store.handleAddToCart. destruct (findItem (id p) c) eqn:Hf; simpl.
  - rewrite bool_decide_true; [done|]. by eapply findItem_Some_elem.
  - by rewrite bool_decide_false by by apply findItem_None.
Qed.

(** ** Store.tsx *)

(** C8: adding a product on the store page keeps the cart
    well formed: ids stay distinct and quantities stay at least 1. *)
Theorem Store_add_wf (p : Product) (c : Cart) :
  wf c -> wf (fst (Store.handleAddToCart p c)).
Proof. intros Hwf. rewrite Store_add_cart. by apply addLine_wf. Qed.

(** C2: adding product [p] on the store page, when the ids of the cart
    are distinct: the line of [p] has its quantity raised by one, or is a
    new line of quantity 1; every other line is unchanged; the lines keep
    their order, and a new line is appended after them; the item count
    grows by one; and exactly one toast is emitted, saying "quantity
    updated" exactly when a line of [p] existed. *)
Theorem Store_add_spec (p : Product) (c : Cart) :
  NoDup (keys ci_id c) ->
  findItem (id p) (fst (Store.handleAddToCart p c)) =
    Some (match findItem (id p) c with Some it => bump 1 it | None => newLine p 1 end) /\
  (forall j, j <> id p -> findItem j (fst (Store.handleAddToCart p c)) = findItem j c) /\
  keys ci_id (fst (Store.handleAddToCart p c)) =
    keys ci_id c ++ (if bool_decide (id p ∈ keys ci_id c) then [] else [id p]) /\
  totalItems (fst (Store.handleAddToCart p c)) = totalItems c + 1 /\
  snd (Store.handleAddToCart p c) = [Store.addedToast p (bool_decide (id p ∈ keys ci_id c))].
Proof.
  intros Hnd. rewrite Store_add_cart, Store_add_toasts.
  split; [apply addLine_find_self|].
  split; [intros; by apply addLine_find_other|].
  split; [apply addLine_keys|].
  split; [by apply addLine_totalItems|done].
Qed.

(** Adding the same product twice to a cart that has no line for it
    appends one line, of quantity 2. *)
Theorem Store_add_twice (p : Product) (c : Cart) :
  id p ∉ keys ci_id c ->
  fst (Store.handleAddToCart p (fst (Store.handleAddToCart p c))) = c ++ [newLine p 2].
Proof.
  intros Hi. rewrite !Store_add_cart, addLine_addLine. unfold addLine.
  by rewrite (proj2 (findItem_None _ _) Hi).
Qed.

(** C27: on the store page, setting a quantity of zero or less removes the
    line and emits the removal toast; afterwards no line has that id. *)
Theorem Store_update_nonpos (i : string) (q : Z) (c : Cart) :
  q <= 0 ->
  Store.handleUpdateQuantity i q c =
    (removeItem i c, [mkToast "Removed from cart" "Item has been removed from your cart"%string]) /\
  i ∉ keys ci_id (fst (Store.handleUpdateQuantity i q c)).
Proof.
  intros Hq. unfold Store.handleUpdateQuantity.
  destruct (Z.leb_spec q 0); [|lia]. split; [done|]. apply removeItem_not_elem.
Qed.

(** C28: removing an id that has no line leaves the cart unchanged; the
    store page still emits its "Removed from cart" toast. *)
Theorem Store_remove_absent (i : string) (c : Cart) :
  i ∉ keys ci_id c ->
  Store.handleRemoveItem i c =
    (c, [mkToast "Removed from cart" "Item has been removed from your cart"%string]).
Proof. intros Hi. unfold Store.handleRemoveItem. by rewrite removeItem_notin. Qed.


(** ** Products.tsx and ProductDetail.tsx *)

(** C9: the products page removes a line only for a quantity [=== 0]: a
    negative quantity on an existing line is stored as the line's
    quantity, and the cart is no longer well formed. *)
Theorem Products_update_negative (i : string) (q : Z) (c : Cart) :
  wf c -> i ∈ keys ci_id c -> q < 0 ->
  quantityOf i (fst (Products.handleUpdateQuantity i q c)) = q /\
  ~ wf (fst (Products.handleUpdateQuantity i q c)).
Proof.
  intros Hwf Hi Hq. unfold Products.handleUpdateQuantity. simpl.
  destruct (Z.eqb_spec q 0); [lia|].
  destruct (findItem i c) as [it|] eqn:Hf; [|by apply findItem_None in Hf].
  pose proof (findItem_mapItem i (withQuantity q) c it (withQuantity_id q) Hf) as Hf'.
  unfold quantityOf. rewrite Hf'. split; [done|]. intros Hwf'.
  apply findItem_Some in Hf' as [_ Hin].
  pose proof (wf_quantity _ _ Hwf' (proj2 (list_elem_of_In _ _) Hin)). simpl in *. lia.
Qed.

(** C30: on the product page, adding [n >= 1] units at once gives the
    same cart as [n] successive single-unit additions of the store page,
    for the product fields the detail page copies into the line. *)
Theorem Detail_add_iter (prod : DetailProduct) (n : nat) (c : Cart) :
  (1 <= n)%nat ->
  fst (Detail.handleAddToCart prod (Z.of_nat n) c) =
  Nat.iter n (fun c => fst (Store.handleAddToCart (Detail.toProduct prod) c)) c.
Proof.
  intros Hn. rewrite Detail_add_cart. induction n as [|n IH]; [lia|].
  destruct n as [|n].
  - simpl. by rewrite Store_add_cart.
  - rewrite Nat.iter_succ, <- IH by lia. rewrite Store_add_cart, addLine_addLine.
    f_equal. lia.
Qed.

(** ** Witnesses on the store catalog *)

Definition headphones : Product := nth 0 Catalog.Store.mockProducts (mkProduct "" "" 0 "" 0 0 None None).
Definition backpack : Product := nth 2 Catalog.Store.mockProducts (mkProduct "" "" 0 "" 0 0 None None).

(** A cart with a backpack line of quantity 2. *)
Definition sampleCart : Cart := [newLine backpack 2].

Lemma Store_add_wf_witness : wf sampleCart /\ wf (fst (Store.handleAddToCart headphones sampleCart)).
Proof. split; [decide_prop|apply Store_add_wf; decide_prop]. Defined.

Lemma Store_add_spec_witness :
  NoDup (keys ci_id sampleCart) /\
  totalItems (fst (Store.handleAddToCart backpack sampleCart)) = totalItems sampleCart + 1.
Proof.
  split; [decide_prop|].
  apply (Store_add_spec backpack sampleCart); decide_prop.
Defined.

Lemma Store_add_twice_witness :
  (id headphones ∉ keys ci_id sampleCart) /\
  fst (Store.handleAddToCart headphones (fst (Store.handleAddToCart headphones sampleCart))) =
    sampleCart ++ [newLine headphones 2].
Proof. split; [decide_prop|apply Store_add_twice; decide_prop]. Defined.

Lemma Store_update_nonpos_witness :
  (-1 <= 0) /\ "3"%string ∉ keys ci_id (fst (Store.handleUpdateQuantity "3" (-1) sampleCart)).
Proof. split; [lia|apply (Store_update_nonpos "3" (-1) sampleCart); lia]. Defined.

Lemma Store_remove_absent_witness :
  ("1"%string ∉ keys ci_id sampleCart) /\
  Store.handleRemoveItem "1" sampleCart =
    (sampleCart, [mkToast "Removed from cart" "Item has been removed from your cart"%string]).
Proof. split; [decide_prop|apply Store_remove_absent; decide_prop]. Defined.

Lemma Products_update_negative_witness :
  wf sampleCart /\ "3"%string ∈ keys ci_id sampleCart /\ -1 < 0 /\
  quantityOf "3" (fst (Products.handleUpdateQuantity "3" (-1) sampleCart)) = -1.
Proof.
  split; [decide_prop|]. split; [decide_prop|]. split; [lia|].
  apply (Products_update_negative "3" (-1) sampleCart); [decide_prop|decide_prop|lia].
Defined.

Lemma Detail_add_iter_witness :
  (1 <= 3)%nat /\
  fst (Detail.handleAddToCart Catalog.Detail.mockProduct 3 sampleCart) =
  Nat.iter 3 (fun c => fst (Store.handleAddToCart (Detail.toProduct Catalog.Detail.mockProduct) c)) sampleCart.
Proof. split; [lia|apply (Detail_add_iter Catalog.Detail.mockProduct 3 sampleCart); lia]. Defined.

