(* ===== verification/Drawer.v ===== *)
(** * The cart drawer: what it renders and what its buttons dispatch

    [components/CartDrawer.tsx] is a function of [isOpen], [cartItems]
    and three callbacks.  [render] is that function with the markup
    reduced to the values it shows and the callback calls its buttons
    carry ([Intent]); [clickable] lists the intents of the buttons that
    are rendered and not disabled.  [toFixed2] is [Number.prototype.
    toFixed(2)] on the exact value of a price.

    The client theorems are proved once, in Section [Client], against a
    page's [CartCallbacks] satisfying [CallbacksLaws]. *)

From stdpp Require Import pretty.
From Stdlib Require Import Qabs.
From S2P Require Import Prelude Catalog Jsx Cart Handlers.

Open Scope Z_scope.

(** ** Number formatting *)

(** [n] with [n / 100 - x] closest to zero, the larger one on a tie:
    [floor (x * 100 + 1/2)]. *)
Definition roundHalfUp (x : Q) : Z := (200 * Qnum x + Zpos (Qden x)) / (2 * Zpos (Qden x)).

Definition pad2 (r : Z) : string := if r <? 10 then "0" +:+ pretty r else pretty r.

(** [x.toFixed(2)]: the sign, the integer part, two decimals. *)
Definition toFixed2 (x : Q) : string :=
  let '(sign, ax) := if Qle_bool 0 x then (""%string, x) else ("-"%string, Qopp x) in
  let n := roundHalfUp ax in
  sign +:+ pretty (n / 100) +:+ "." +:+ pad2 (n mod 100).

(** ** The rendered drawer *)

(** The callback call a button carries. *)
Inductive Intent :=
| CallUpdate (i : string) (q : Z)   (** [onUpdateQuantity(i, q)] *)
| CallRemove (i : string)           (** [onRemoveItem(i)] *)
| CallClose.                        (** [onClose()] *)

#[export] Instance Intent_eq_dec : EqDecision Intent.
Proof. solve_decision. Defined.

(** One [<Card>] of the item list. *)
Record LineView := mkLineView {
  lv_id : string;
  lv_name : string;
  lv_price : string;            (** [${discountedPrice.toFixed(2)}] *)
  lv_strikePrice : Node string;  (** [{item.discount && <span>${item.price.toFixed(2)}</span>}] *)
  lv_quantity : Z;
  lv_decDisabled : bool;        (** [disabled={item.quantity <= 1}] *)
  lv_onDec : Intent;
  lv_onInc : Intent;
  lv_onRemove : Intent
}.

Inductive Body :=
| EmptyBody (onContinue : Intent)   (** "Your cart is empty" *)
| LinesBody (lines : list LineView).

Record DrawerView := mkDrawerView {
  dv_badge : Z;                    (** [<Badge>{totalItems}</Badge>] *)
  dv_onBackdrop : Intent;
  dv_onX : Intent;
  dv_body : Body;
  dv_footer : option (string * Intent)  (** total, Continue Shopping *)
}.

Definition renderLine (item : CartItem) : LineView :=
  {| lv_id := ci_id item;
     lv_name := name (Cart.item item);
     lv_price := toFixed2 (linePrice item);
     lv_strikePrice := jsxAndOpt JNum (discount (Cart.item item)) (fun _ => toFixed2 (price (Cart.item item)));
     lv_quantity := quantity item;
     lv_decDisabled := quantity item <=? 1;
     lv_onDec := CallUpdate (ci_id item) (quantity item - 1);
     lv_onInc := CallUpdate (ci_id item) (quantity item + 1);
     lv_onRemove := CallRemove (ci_id item) |}.

(** [CartDrawer]: [if (!isOpen) return null;] then the drawer. *)
Definition render (isOpen : bool) (cartItems : Cart) : option DrawerView :=
  if negb isOpen then None
  else Some {|
    dv_badge := totalItems cartItems;
    dv_onBackdrop := CallClose;
    dv_onX := CallClose;
    dv_body := if Nat.eqb (length cartItems) 0 then EmptyBody CallClose
               else LinesBody (map renderLine cartItems);
    dv_footer := if Nat.ltb 0 (length cartItems)
                 then Some (toFixed2 (totalPrice cartItems), CallClose) else None |}.

(** The intents of the rendered, enabled buttons of a line. *)
Definition lineIntents (lv : LineView) : list Intent :=
  (if lv_decDisabled lv then [] else [lv_onDec lv]) ++ [lv_onInc lv; lv_onRemove lv].

(** The intents of every enabled button of the drawer ([Checkout] has no
    handler). *)
Definition clickable (v : DrawerView) : list Intent :=
  [dv_onBackdrop v; dv_onX v] ++
  match dv_body v with
  | EmptyBody k => [k]
  | LinesBody ls => concat (map lineIntents ls)
  end ++
  match dv_footer v with Some (_, k) => [k] | None => [] end.

(** What a click does to the page: the callbacks act on the cart and the
    toasts; [onClose] is [() => setIsCartOpen(false)] in every page. *)
Definition dispatch (cb : CartCallbacks) (k : Intent) (c : Cart) (isOpen : bool) :
    Cart * list Toast * bool :=
  match k with
  | CallUpdate i q => let '(c', ts) := onUpdateQuantity cb i q c in (c', ts, isOpen)
  | CallRemove i => let '(c', ts) := onRemoveItem cb i c in (c', ts, isOpen)
  | CallClose => (c, [], false)
  end.

(** ** What the drawer offers *)

Lemma render_open (isOpen : bool) (c : Cart) (v : DrawerView) :
  render isOpen c = Some v -> isOpen = true.
Proof. by destruct isOpen. Qed.

(** The enabled buttons of an open drawer: closing, or a button of the
    card of one of the lines. *)
Lemma clickable_render (c : Cart) (v : DrawerView) (k : Intent) :
  render true c = Some v -> k ∈ clickable v ->
  k = CallClose \/ exists it, it ∈ c /\ k ∈ lineIntents (renderLine it).
Proof.
  intros Hv Hk. injection Hv as <-. unfold clickable in Hk.
  cbn [dv_onBackdrop dv_onX dv_body dv_footer] in Hk.
  apply elem_of_app in Hk as [Hk|Hk].
  { left. apply elem_of_cons in Hk as [->|Hk]; [done|].
    apply elem_of_cons in Hk as [->|Hk]; [done|]. by apply not_elem_of_nil in Hk. }
  apply elem_of_app in Hk as [Hb|Hf].
  - destruct (Nat.eqb (length c) 0).
    + left. by apply elem_of_cons in Hb as [->|?%not_elem_of_nil].
    + right. apply list_elem_of_In, in_concat in Hb as (ks & Hks & Hk).
      apply in_map_iff in Hks as (lv & <- & Hlv). apply in_map_iff in Hlv as (it & <- & Hit).
      exists it. split; by apply list_elem_of_In.
  - left. destruct (Nat.ltb 0 (length c)); [|by apply not_elem_of_nil in Hf].
    by apply elem_of_cons in Hf as [->|?%not_elem_of_nil].
Qed.

Lemma lineIntents_cases (it : CartItem) (k : Intent) :
  k ∈ lineIntents (renderLine it) ->
  (k = CallUpdate (ci_id it) (quantity it - 1) /\ 1 < quantity it) \/
  k = CallUpdate (ci_id it) (quantity it + 1) \/ k = CallRemove (ci_id it).
Proof.
  unfold lineIntents, renderLine. cbn [lv_decDisabled lv_onDec lv_onInc lv_onRemove].
  intros Hk. apply elem_of_app in Hk as [Hk|Hk].
  - destruct (Z.leb_spec (quantity it) 1); [by apply not_elem_of_nil in Hk|].
    apply elem_of_cons in Hk as [->|?%not_elem_of_nil]; [by left|done].
  - right. apply elem_of_cons in Hk as [->|Hk]; [by left|right].
    by apply elem_of_cons in Hk as [->|?%not_elem_of_nil].
Qed.

(** Every line of an open drawer has its remove button. *)
Lemma remove_clickable (c : Cart) (it : CartItem) :
  it ∈ c -> exists v, render true c = Some v /\ CallRemove (ci_id it) ∈ clickable v.
Proof.
  intros Hit. eexists. split; [reflexivity|]. unfold clickable. cbn [dv_body].
  rewrite !elem_of_app. right. left.
  destruct (Nat.eqb_spec (length c) 0) as [Hl|_].
  { destruct c; [by apply not_elem_of_nil in Hit|done]. }
  apply list_elem_of_In, in_concat. exists (lineIntents (renderLine it)). split.
  - apply in_map, in_map, list_elem_of_In, Hit.
  - apply list_elem_of_In. unfold lineIntents. rewrite elem_of_app. right. simpl.
    rewrite !elem_of_cons. by right; left.
Qed.

(** An enabled [onUpdateQuantity] button belongs to a line of the cart
    and asks for one unit more, or one unit less when the line has more
    than one. *)
Lemma clickable_update (c : Cart) (v : DrawerView) (i : string) (q : Z) :
  render true c = Some v -> CallUpdate i q ∈ clickable v ->
  exists it, it ∈ c /\ i = ci_id it /\
    ((q = quantity it - 1 /\ 1 < quantity it) \/ q = quantity it + 1).
Proof.
  intros Hv Hk. destruct (clickable_render c v _ Hv Hk) as [?|(it & Hit & Hk')]; [done|].
  exists it. split; [done|].
  apply lineIntents_cases in Hk' as [[[= -> ->] ?]|[[= -> ->]|[=]]]; auto.
Qed.

(** The cart an intent asks for, as the callback laws fix it. *)
Definition intentCart (k : Intent) (c : Cart) : Cart :=
  match k with
  | CallUpdate i q => mapItem i (withQuantity q) c
  | CallRemove i => removeItem i c
  | CallClose => c
  end.

(** Every enabled button of a drawer over a well-formed cart asks for a
    well-formed cart. *)
Lemma wf_intentCart (c : Cart) (isOpen : bool) (v : DrawerView) (k : Intent) :
  wf c -> render isOpen c = Some v -> k ∈ clickable v -> wf (intentCart k c).
Proof.
  intros Hwf Hv Hk. pose proof (render_open _ _ _ Hv); subst isOpen.
  destruct k as [i q|i|]; simpl; [|by apply wf_removeItem|done].
  destruct (clickable_update c v i q Hv Hk) as (it & Hit & -> & Hq).
  pose proof (wf_quantity c it Hwf Hit). apply wf_mapItem; [done| |done]. simpl. lia.
Qed.

(** C3: an open drawer over a well-formed cart offers no call of
    [onUpdateQuantity] with a quantity below 1, and only for ids of the
    cart: the decrement button is disabled at quantity 1. *)
Theorem drawer_update_pos (c : Cart) (v : DrawerView) (i : string) (q : Z) :
  wf c -> render true c = Some v -> CallUpdate i q ∈ clickable v ->
  1 <= q /\ i ∈ keys ci_id c.
Proof.
  intros Hwf Hv Hk. destruct (clickable_update c v i q Hv Hk) as (it & Hit & -> & Hq).
  pose proof (wf_quantity c it Hwf Hit). split; [lia|].
  apply list_elem_of_In, in_map, list_elem_of_In, Hit.
Qed.

(** ** Client theorems against the callback interface *)

(** Only the close buttons change whether the drawer is open. *)
Lemma dispatch_open (cb : CartCallbacks) (k : Intent) (c : Cart) (isOpen : bool) :
  (dispatch cb k c isOpen).2 = match k with CallClose => false | _ => isOpen end.
Proof.
  destruct k as [i q|i|]; simpl; [by destruct (onUpdateQuantity cb i q c)|by destruct (onRemoveItem cb i c)|done].
Qed.

Section Client.
Context (cb : CartCallbacks) `{!CallbacksLaws cb}.

Lemma dispatch_update (i : string) (q : Z) (c : Cart) (isOpen : bool) :
  0 < q -> (dispatch cb (CallUpdate i q) c isOpen).1.1 = mapItem i (withQuantity q) c.
Proof.
  intros Hq. unfold dispatch. rewrite <- (law_update_pos i q c Hq).
  by destruct (onUpdateQuantity cb i q c).
Qed.

Lemma dispatch_remove (i : string) (c : Cart) (isOpen : bool) :
  (dispatch cb (CallRemove i) c isOpen).1.1 = removeItem i c.
Proof. unfold dispatch. rewrite <- (law_remove i c). by destruct (onRemoveItem cb i c). Qed.

(** Through the laws, an enabled button of the drawer does to the cart
    what its intent asks. *)
Lemma dispatch_clickable (c : Cart) (isOpen : bool) (v : DrawerView) (k : Intent) :
  wf c -> render isOpen c = Some v -> k ∈ clickable v -> (dispatch cb k c isOpen).1.1 = intentCart k c.
Proof.
  intros Hwf Hv Hk. pose proof (render_open _ _ _ Hv); subst isOpen.
  destruct k as [i q|i|]; [|apply dispatch_remove|done].
  destruct (clickable_update c v i q Hv Hk) as (it & Hit & -> & Hq).
  pose proof (wf_quantity c it Hwf Hit). apply dispatch_update. lia.
Qed.

(** C7: whatever enabled button of the drawer is clicked, a page whose
    callbacks satisfy the laws keeps its cart well formed. *)
Theorem drawer_click_wf (c : Cart) (isOpen : bool) (v : DrawerView) (k : Intent) :
  wf c -> render isOpen c = Some v -> k ∈ clickable v -> wf (dispatch cb k c isOpen).1.1.
Proof.
  intros Hwf Hv Hk. rewrite (dispatch_clickable c isOpen v k Hwf Hv Hk).
  exact (wf_intentCart c isOpen v k Hwf Hv Hk).
Qed.

Lemma totalPrice_withQuantity (i : string) (q : Z) (c : Cart) (it : CartItem) :
  NoDup (keys ci_id c) -> findItem i c = Some it ->
  (totalPrice (mapItem i (withQuantity q) c) == totalPrice c + linePrice it * ⌜q - quantity it⌝)%Q.
Proof.
  intros Hnd Hf. rewrite !totalPrice_sum, (sumQ_mapItem _ _ _ _ it) by done.
  unfold linePrice, withQuantity. simpl. rewrite inject_Z_sub. ring.
Qed.

Lemma totalItems_withQuantity (i : string) (q : Z) (c : Cart) (it : CartItem) :
  NoDup (keys ci_id c) -> findItem i c = Some it ->
  totalItems (mapItem i (withQuantity q) c) = totalItems c - quantity it + q.
Proof.
  intros Hnd Hf. rewrite !totalItems_sum. by rewrite (sumZ_mapItem _ _ _ _ it).
Qed.

(** Setting the quantity of a line of a well-formed cart to [q >= 1]
    moves both totals by [q - quantity it] units of that line. *)
Lemma update_totals (c : Cart) (it : CartItem) (q : Z) :
  wf c -> it ∈ c -> 0 < q ->
  totalItems (dispatch cb (CallUpdate (ci_id it) q) c true).1.1 = totalItems c + (q - quantity it) /\
  (totalPrice (dispatch cb (CallUpdate (ci_id it) q) c true).1.1 ==
     totalPrice c + linePrice it * ⌜q - quantity it⌝)%Q.
Proof.
  intros [Hnd Hall] Hit Hq. pose proof (findItem_elem c it Hnd Hit) as Hf.
  rewrite dispatch_update by done.
  split; [rewrite (totalItems_withQuantity (ci_id it) q c it Hnd Hf); lia|].
  apply (totalPrice_withQuantity (ci_id it) q c it Hnd Hf).
Qed.

(** C20: on a line of a well-formed cart, the [+] button raises the item
    count by one and the total by one unit price of that line; the [-]
    button, when enabled, lowers the item count by one and the total by
    one unit price. *)
Theorem drawer_step_totals (c : Cart) (it : CartItem) :
  wf c -> it ∈ c ->
  totalItems (dispatch cb (lv_onInc (renderLine it)) c true).1.1 = totalItems c + 1 /\
  (totalPrice (dispatch cb (lv_onInc (renderLine it)) c true).1.1 == totalPrice c + linePrice it)%Q /\
  (lv_decDisabled (renderLine it) = false ->
   totalItems (dispatch cb (lv_onDec (renderLine it)) c true).1.1 = totalItems c - 1 /\
   (totalPrice (dispatch cb (lv_onDec (renderLine it)) c true).1.1 == totalPrice c - linePrice it)%Q).
Proof.
  intros Hwf Hit. pose proof (wf_quantity c it Hwf Hit) as Hq1.
  cbn [renderLine lv_onInc lv_onDec lv_decDisabled].
  destruct (update_totals c it (quantity it + 1) Hwf Hit ltac:(lia)) as [Hi Hp].
  rewrite Hi, Hp. replace (quantity it + 1 - quantity it) with 1 by lia.
  split; [lia|split; [by rewrite Qmult_1_r|]].
  intros Hd%Z.leb_gt.
  destruct (update_totals c it (quantity it - 1) Hwf Hit ltac:(lia)) as [Hi' Hp'].
  rewrite Hi', Hp'. replace (quantity it - 1 - quantity it) with (-1) by lia.
  split; [lia|]. change ⌜-1⌝ with (-1)%Q. ring.
Qed.
End Client.

(** ** Displayed amounts *)







(** A product of list price 100 with a 20 percent discount. *)
Definition hundredAt20 : Product := mkProduct "t" "Sample" 100 "" 0 0 (Some 20%Q) None.

(** The drawer over one line of a product priced 100 at a 20
    percent discount, quantity 3, shows the badge 3, the unit price
    "80.00" struck from "100.00", and the total "240.00"; the store's
    headphones line shows "63.99" struck from "79.99". *)
Example drawer_total_example :
  option_map dv_badge (render true [newLine hundredAt20 3]) = Some 3 /\
  option_map dv_footer (render true [newLine hundredAt20 3]) = Some (Some ("240.00"%string, CallClose)) /\
  (lv_price (renderLine (newLine hundredAt20 3)), lv_strikePrice (renderLine (newLine hundredAt20 3)))
    = ("80.00"%string, NEl "100.00"%string) /\
  (lv_price (renderLine (newLine headphones 1)), lv_strikePrice (renderLine (newLine headphones 1)))
    = ("63.99"%string, NEl "79.99"%string).
Proof. vm_compute. repeat split. Qed.

(** ** Witnesses *)

Definition sampleView : DrawerView :=
  default (mkDrawerView 0 CallClose CallClose (EmptyBody CallClose) None) (render true sampleCart).

Lemma drawer_update_pos_witness :
  wf sampleCart /\ render true sampleCart = Some sampleView /\
  CallUpdate "3" 1 ∈ clickable sampleView /\ 1 <= 1 /\ "3"%string ∈ keys ci_id sampleCart.
Proof.
  assert (Hv : render true sampleCart = Some sampleView) by reflexivity.
  assert (Hk : CallUpdate "3" 1 ∈ clickable sampleView) by decide_prop.
  assert (Hw : wf sampleCart) by decide_prop.
  split; [done|]. split; [done|]. split; [done|].
  exact (drawer_update_pos sampleCart sampleView "3" 1 Hw Hv Hk).
Defined.

Lemma drawer_click_wf_witness :
  wf sampleCart /\ render true sampleCart = Some sampleView /\
  CallRemove "3" ∈ clickable sampleView /\
  wf (dispatch Store.callbacks (CallRemove "3") sampleCart true).1.1.
Proof.
  assert (Hv : render true sampleCart = Some sampleView) by reflexivity.
  assert (Hk : CallRemove "3" ∈ clickable sampleView) by decide_prop.
  assert (Hw : wf sampleCart) by decide_prop.
  split; [done|]. split; [done|]. split; [done|].
  exact (drawer_click_wf Store.callbacks sampleCart true sampleView (CallRemove "3") Hw Hv Hk).
Defined.

Lemma drawer_step_totals_witness :
  wf sampleCart /\ newLine backpack 2 ∈ sampleCart /\
  totalItems (dispatch Products.callbacks (lv_onInc (renderLine (newLine backpack 2))) sampleCart true).1.1
    = totalItems sampleCart + 1.
Proof.
  assert (Hw : wf sampleCart) by decide_prop.
  assert (Hin : newLine backpack 2 ∈ sampleCart) by decide_prop.
  split; [done|]. split; [done|].
  exact (proj1 (drawer_step_totals Products.callbacks sampleCart (newLine backpack 2) Hw Hin)).
Defined.

(** Ten cents and more print two digits, fewer a leading zero; a small
    negative amount prints as ["-0.00"], as in JavaScript. *)
Example toFixed2_examples :
  toFixed2 (105 # 100) = "1.05"%string /\ toFixed2 (1999 # 100) = "19.99"%string /\
  toFixed2 (-1 # 1000) = "-0.00"%string.
Proof. split_and!; vm_compute; reflexivity. Qed.
