(* ===== verification/Header.v ===== *)
(** * The header: cart badge and mobile menu

    [components/Header.tsx] receives [cartItemsCount] and [onCartClick]
    and keeps one piece of state, [isMenuOpen].  It renders the logo,
    the desktop navigation (five links), a search input, the cart
    button with the badge [{cartItemsCount > 0 && <Badge>}], the menu
    button (an [X] icon when the menu is open) and, when open, the mobile
    menu with a search input and the same five links.  Its two buttons
    call [onCartClick] and toggle the menu.

    Proved here: along any sequence of header clicks the page is told of
    each cart click, and the rendered header shows the [X] icon and the
    mobile menu exactly after an odd number of menu clicks, and the
    badge exactly for a positive count. *)

From S2P Require Import Prelude Jsx.

Open Scope Z_scope.

(** [{cartItemsCount > 0 && <Badge>{cartItemsCount}</Badge>}] *)
Definition cartBadge (cartItemsCount : Z) : option Z :=
  if 0 <? cartItemsCount then Some cartItemsCount else None.

(** [onClick={() => setIsMenuOpen(!isMenuOpen)}] *)
Definition toggleMenu (isMenuOpen : bool) : bool := negb isMenuOpen.

(** [useState(false)] *)
Definition initialMenu : bool := false.

Lemma cartBadge_pos (n : Z) : 0 < n -> cartBadge n = Some n.
Proof. intros Hn. unfold cartBadge. by destruct (Z.ltb_spec 0 n); [|lia]. Qed.

Lemma cartBadge_nonpos (n : Z) : n <= 0 -> cartBadge n = None.
Proof. intros Hn. unfold cartBadge. by destruct (Z.ltb_spec 0 n); [lia|]. Qed.

(** The menu is open after an odd number of clicks. *)
Lemma toggleMenu_iter (k : nat) :
  Nat.iter k toggleMenu initialMenu = Nat.odd k.
Proof.
  induction k as [|k IH]; [done|]. rewrite Nat.iter_succ, IH, Nat.odd_succ.
  unfold toggleMenu. by rewrite <- Nat.negb_odd.
Qed.

(** ** The rendered header *)

Inductive MenuIcon := IconMenu | IconX.

(** [<a href="#">label</a>] *)
Record NavLink := mkNavLink { nl_label : string; nl_href : string }.

(** The five links of [<nav>], the same in the desktop and mobile menus. *)
Definition navLinks : list NavLink :=
  [mkNavLink "Home" "#"; mkNavLink "Products" "#"; mkNavLink "Categories" "#";
   mkNavLink "About" "#"; mkNavLink "Contact" "#"]%string.

Definition searchPlaceholder : string := "Search products...".

Record HeaderView := mkHeaderView {
  hv_logo : string;
  hv_desktopNav : list NavLink;
  hv_desktopSearch : string;
  hv_cartBadge : Node Z;                        (** [{cartItemsCount > 0 && <Badge>}] *)
  hv_menuIcon : MenuIcon;                       (** [{isMenuOpen ? <X/> : <Menu/>}] *)
  hv_mobileMenu : Node (string * list NavLink)  (** [{isMenuOpen && <div>...</div>}] *)
}.

Definition renderHeader (cartItemsCount : Z) (isMenuOpen : bool) : HeaderView :=
  {| hv_logo := "ShopHub";
     hv_desktopNav := navLinks;
     hv_desktopSearch := searchPlaceholder;
     hv_cartBadge := jsxAnd (JBool (0 <? cartItemsCount)) cartItemsCount;
     hv_menuIcon := jsxIf isMenuOpen IconX IconMenu;
     hv_mobileMenu := jsxAnd (JBool isMenuOpen) (searchPlaceholder, navLinks) |}.

Inductive HeaderEvent := ClickCartButton | ClickMenuButton.

(** A click: the new [isMenuOpen], and whether [onCartClick] was called. *)
Definition handleHeader (isMenuOpen : bool) (e : HeaderEvent) : bool * bool :=
  match e with
  | ClickCartButton => (isMenuOpen, true)
  | ClickMenuButton => (toggleMenu isMenuOpen, false)
  end.

(** A sequence of clicks: the final [isMenuOpen] and the number of
    [onCartClick] calls. *)
Fixpoint runHeader (evs : list HeaderEvent) (isMenuOpen : bool) : bool * nat :=
  match evs with
  | [] => (isMenuOpen, 0%nat)
  | e :: evs =>
      let '(o, called) := handleHeader isMenuOpen e in
      let '(o', n) := runHeader evs o in (o', if called then S n else n)
  end.

Definition countClicks (e : HeaderEvent) (evs : list HeaderEvent) : nat :=
  length (List.filter (fun e' => match e, e' with
                                 | ClickCartButton, ClickCartButton | ClickMenuButton, ClickMenuButton => true
                                 | _, _ => false end) evs).

(** ** Theorems *)

(** Along any sequence of header clicks, [onCartClick] is called
    once per cart click, and the menu ends open exactly when it was
    clicked an odd number of times from the closed state. *)
Lemma header_clicks (evs : list HeaderEvent) :
  runHeader evs initialMenu = (Nat.odd (countClicks ClickMenuButton evs), countClicks ClickCartButton evs).
Proof.
  assert (H : forall o, runHeader evs o =
            (xorb o (Nat.odd (countClicks ClickMenuButton evs)), countClicks ClickCartButton evs)).
  { induction evs as [|e evs IH]; intros o; simpl; [by destruct o|].
    destruct e; simpl; rewrite IH; unfold toggleMenu, countClicks; simpl;
      [done|rewrite Nat.odd_succ, <- Nat.negb_odd; by destruct o, (Nat.odd _)]. }
  apply H.
Qed.

(** C26: the header through any sequence of clicks from its first
    render: the page's [onCartClick] is called once per cart click and
    never by the menu button; the menu button shows [X], and the mobile
    menu (its search input and the five links) is shown, exactly after
    an odd number of menu clicks; and the badge is visible exactly for
    a positive count, whatever the clicks. *)
Theorem header_session (n : Z) (evs : list HeaderEvent) :
  snd (runHeader evs initialMenu) = countClicks ClickCartButton evs /\
  (hv_menuIcon (renderHeader n (fst (runHeader evs initialMenu))) = IconX <->
     Nat.odd (countClicks ClickMenuButton evs) = true) /\
  hv_mobileMenu (renderHeader n (fst (runHeader evs initialMenu))) =
    (if Nat.odd (countClicks ClickMenuButton evs) then NEl (searchPlaceholder, navLinks) else NEmpty) /\
  visible (hv_cartBadge (renderHeader n (fst (runHeader evs initialMenu)))) = (0 <? n).
Proof.
  rewrite header_clicks. cbn [fst snd renderHeader hv_menuIcon hv_mobileMenu hv_cartBadge].
  unfold jsxAnd, jsxIf. simpl truthy.
  split; [done|split; [|split]]; [by destruct (Nat.odd _)..|by destruct (0 <? n)].
Qed.
