(* ===== verification/Rating.v ===== *)
(** * Star ratings

    Two views draw a rating as five stars:
    - [ProductDetail.tsx], [renderStars]: ['★★★★★'.slice(0, Math.floor(
      rating)) + '☆☆☆☆☆'.slice(Math.floor(rating))];
    - [ProductCard.tsx]: five [<Star>] icons, the [i]-th filled when
      [i < Math.floor(product.rating)].
    A string of stars is a list of glyphs (each of [★] and [☆] is one
    UTF-16 code unit, so [slice] indexes glyphs).  [js_slice] is
    [String.prototype.slice] with its negative-index and clamping rules.
    [Math.floor] is [Qfloor]. *)

From Stdlib Require Import Qround.
From S2P Require Import Prelude.

Open Scope Z_scope.

Inductive Glyph := Filled | Hollow.

#[export] Instance Glyph_eq_dec : EqDecision Glyph.
Proof. solve_decision. Defined.

(** The position an argument of [slice] denotes in a string of length
    [len]: negative arguments count from the end; the result is clamped
    to [0 .. len]. *)
Definition sliceIndex (len k : Z) : Z :=
  if k <? 0 then Z.max (len + k) 0 else Z.min k len.

(** [s.slice(start, end)], [end] omitted is [None]. *)
Definition js_slice {A : Type} (s : list A) (start : Z) (end_ : option Z) : list A :=
  let len := Z.of_nat (length s) in
  let from := sliceIndex len start in
  let to := match end_ with Some e => sliceIndex len e | None => len end in
  take (Z.to_nat (to - from)) (drop (Z.to_nat from) s).

(** ['★★★★★'] and ['☆☆☆☆☆'] *)
Definition fullStars : list Glyph := replicate 5 Filled.
Definition emptyStars : list Glyph := replicate 5 Hollow.

(** The body of [renderStars] once [Math.floor(rating)] is [k]. *)
Definition starsFromFloor (k : Z) : list Glyph :=
  js_slice fullStars 0 (Some k) ++ js_slice emptyStars k None.

(** [renderStars] of ProductDetail.tsx. *)
Definition renderStars (rating : Q) : list Glyph := starsFromFloor (Qfloor rating).

(** The icons of ProductCard.tsx once [Math.floor(product.rating)] is [k]. *)
Definition cardFromFloor (k : Z) : list Glyph :=
  map (fun i => if Z.of_nat i <? k then Filled else Hollow) (seq 0 5).

(** [[...Array(5)].map((_, i) => <Star ... i < Math.floor(product.rating) ...>)] *)
Definition cardStars (rating : Q) : list Glyph := cardFromFloor (Qfloor rating).

(** ** Lemmas on [slice] *)

Lemma sliceIndex_range (len k : Z) : 0 <= len -> 0 <= sliceIndex len k <= len.
Proof. intros Hl. unfold sliceIndex. destruct (Z.ltb_spec k 0); lia. Qed.

Lemma length_js_slice {A : Type} (s : list A) (start : Z) (end_ : option Z) :
  Z.of_nat (length (js_slice s start end_)) =
  Z.max 0 ((match end_ with Some e => sliceIndex (Z.of_nat (length s)) e
            | None => Z.of_nat (length s) end) - sliceIndex (Z.of_nat (length s)) start).
Proof.
  unfold js_slice. rewrite length_take, length_drop.
  pose proof (sliceIndex_range (Z.of_nat (length s)) start ltac:(lia)).
  destruct end_ as [e|];
    [pose proof (sliceIndex_range (Z.of_nat (length s)) e ltac:(lia))|]; lia.
Qed.

Lemma js_slice_replicate {A : Type} (x : A) (n : nat) (start : Z) (end_ : option Z) :
  js_slice (replicate n x) start end_ = replicate (length (js_slice (replicate n x) start end_)) x.
Proof.
  unfold js_slice. cbv zeta. rewrite !drop_replicate, !take_replicate. by rewrite !length_replicate.
Qed.

Lemma length_renderStars_Z (r : Q) : Z.of_nat (length (renderStars r)) = 5.
Proof.
  unfold renderStars, starsFromFloor. rewrite length_app, Nat2Z.inj_add, !length_js_slice.
  unfold fullStars, emptyStars. rewrite !length_replicate. simpl.
  unfold sliceIndex. destruct (Z.ltb_spec (Qfloor r) 0); simpl; lia.
Qed.

(** ** Theorems *)

(** Whatever the rating, including negative or above five,
    [renderStars] draws exactly five glyphs. *)
Theorem renderStars_length (r : Q) : length (renderStars r) = 5%nat.
Proof. pose proof (length_renderStars_Z r). lia. Qed.

(** Five glyphs: [m] filled then [5 - m] hollow. *)
Definition stars (m : nat) : list Glyph := replicate m Filled ++ replicate (5 - m) Hollow.

Lemma starsFromFloor_nonneg (k : Z) :
  0 <= k -> starsFromFloor k = stars (Z.to_nat (Z.min k 5)).
Proof.
  intros Hk. unfold starsFromFloor, js_slice, fullStars, emptyStars, stars. cbv zeta.
  rewrite !length_replicate, !drop_replicate, !take_replicate. unfold sliceIndex.
  destruct (Z.ltb_spec k 0); [lia|]. simpl. f_equal; f_equal; lia.
Qed.

Lemma starsFromFloor_neg (k : Z) :
  -5 < k < 0 -> starsFromFloor k = replicate (Z.to_nat (5 + k)) Filled ++ replicate (Z.to_nat (- k)) Hollow.
Proof.
  intros Hk. unfold starsFromFloor, js_slice, fullStars, emptyStars. cbv zeta.
  rewrite !length_replicate, !drop_replicate, !take_replicate. unfold sliceIndex.
  destruct (Z.ltb_spec k 0); [|lia]. simpl. f_equal; f_equal; lia.
Qed.

Lemma cardFromFloor_stars (k : Z) : cardFromFloor k = stars (Z.to_nat (Z.min k 5)).
Proof.
  assert (k <= 0 \/ k = 1 \/ k = 2 \/ k = 3 \/ k = 4 \/ 5 <= k) as Hk by lia.
  destruct Hk as [Hk|[->|[->|[->|[->|Hk]]]]]; try reflexivity;
    unfold cardFromFloor; simpl;
    repeat match goal with |- context [?a <? k] => destruct (Z.ltb_spec a k); try lia end.
  - by replace (Z.to_nat (Z.min k 5)) with 0%nat by lia.
  - by replace (Z.to_nat (Z.min k 5)) with 5%nat by lia.
Qed.

(** For every non-negative rating, the product page's
    [renderStars] and the product card's icons show the same stars:
    [min(floor(rating), 5)] filled, the rest hollow. *)
Theorem renderStars_cardStars (r : Q) :
  (0 <= r)%Q -> renderStars r = cardStars r /\ renderStars r = stars (Z.to_nat (Z.min (Qfloor r) 5)).
Proof.
  intros Hr. assert (0 <= Qfloor r) by (change 0 with (Qfloor 0); by apply Qfloor_resp_le).
  unfold renderStars, cardStars. rewrite cardFromFloor_stars. split; by apply starsFromFloor_nonneg.
Qed.

(** C34: for a rating with [-5 < floor(rating) < 0], [slice] reads the
    negative index from the end: [renderStars] shows [5 + floor(rating)]
    filled stars (four for a rating of [-1]), while the product card
    shows none. *)
Theorem renderStars_negative (r : Q) :
  -5 < Qfloor r < 0 ->
  renderStars r = replicate (Z.to_nat (5 + Qfloor r)) Filled ++ replicate (Z.to_nat (- Qfloor r)) Hollow /\
  cardStars r = replicate 5 Hollow.
Proof.
  intros Hk. unfold renderStars, cardStars. rewrite cardFromFloor_stars. split.
  - by apply starsFromFloor_neg.
  - by replace (Z.to_nat (Z.min (Qfloor r) 5)) with 0%nat by lia.
Qed.

(** ** Witnesses *)

Lemma renderStars_cardStars_witness :
  (0 <= 45 # 10)%Q /\ renderStars (45 # 10) = cardStars (45 # 10) /\ renderStars (45 # 10) = stars 4.
Proof.
  split; [vm_compute; discriminate|].
  destruct (renderStars_cardStars (45 # 10) ltac:(vm_compute; discriminate)) as [H1 H2].
  split; [exact H1|exact H2].
Defined.

Lemma renderStars_negative_witness :
  -5 < Qfloor (-1) < 0 /\ renderStars (-1) = [Filled; Filled; Filled; Filled; Hollow] /\
  cardStars (-1) = replicate 5 Hollow.
Proof.
  assert (H : -5 < Qfloor (-1) < 0) by (vm_compute; split; reflexivity).
  split; [exact H|]. exact (renderStars_negative (-1) H).
Defined.
