(* ===== verification/CardView.v ===== *)
(** * The product card

    [components/ProductCard.tsx] renders one product of a catalog: the
    image, the badge [{product.badge && <Badge>}], the discount badge
    [{product.discount && <Badge>-{product.discount}%</Badge>}], the name,
    five stars ([Rating.cardStars]), the review count, the price
    [${discountedPrice.toFixed(2)}], the struck list price
    [{product.discount && <span>${product.price.toFixed(2)}</span>}] and
    the "Add to Cart" button calling [onAddToCart(product)].  The [$]
    signs are literal text of the markup; the view keeps the formatted
    numbers.  The Store and Products pages render a card per product of
    their (sorted, filtered) list.

    Proved here: what each part of the card shows on every branch; that
    a card and the drawer line of the same product show the same prices;
    and that a discount of [0], allowed by the data model, renders a
    stray "0" in the image corner and the price row of the card and in
    the drawer line. *)

From S2P Require Import Prelude Catalog Jsx Cart Drawer Rating.

Open Scope Z_scope.

(** The elements the card guards with [&&]. *)
Inductive CardEl :=
| BadgeEl (label : string)          (** [<Badge className="... bg-accent">{product.badge}</Badge>] *)
| DiscountBadgeEl (percent : Q)     (** [<Badge variant="destructive">-{product.discount}%</Badge>] *)
| StrikePriceEl (text : string).    (** [<span className="... line-through">${product.price.toFixed(2)}</span>] *)

Record CardView := mkCardView {
  cv_image : string;                (** [<img src={product.image} alt={product.name}>] *)
  cv_badge : Node CardEl;
  cv_discountBadge : Node CardEl;
  cv_name : string;
  cv_stars : list Glyph;
  cv_reviewCount : Z;               (** [({product.reviewCount})] *)
  cv_price : string;
  cv_strike : Node CardEl;
  cv_onAdd : Product                (** [onClick={() => onAddToCart(product)}] *)
}.

(** [ProductCard({ product, onAddToCart })] *)
Definition renderCard (product : Product) : CardView :=
  {| cv_image := image product;
     cv_badge := jsxAndOpt JStr (badge product) BadgeEl;
     cv_discountBadge := jsxAndOpt JNum (discount product) DiscountBadgeEl;
     cv_name := name product;
     cv_stars := cardStars (rating product);
     cv_reviewCount := reviewCount product;
     cv_price := toFixed2 (discountedPrice product);
     cv_strike := jsxAndOpt JNum (discount product) (fun _ => StrikePriceEl (toFixed2 (price product)));
     cv_onAdd := product |}.

(** [{filteredProducts.map((product) => <ProductCard ... />)}] *)
Definition renderGrid (products : list Product) : list CardView := map renderCard products.

(** ** Lemmas *)

Lemma truthy_discount (p : Product) (d : Q) :
  discount p = Some d -> truthy (JNum d) = showsDiscount p.
Proof. unfold showsDiscount. by intros ->. Qed.

Lemma renderGrid_onAdd (products : list Product) :
  map cv_onAdd (renderGrid products) = products.
Proof. unfold renderGrid. rewrite map_map. apply map_id. Qed.

(** ** Theorems *)

(** C25: the card on every branch: the badge shows exactly for a
    non-empty badge text; the discount badge and the struck price show
    exactly when the discount is truthy, with the discount and the
    formatted list price; the price is the formatted discounted price
    [price * (1 - discount / 100)] when the discount is truthy, the list
    price when it is absent or zero; the button adds this product. *)
Theorem card_view_spec (p : Product) :
  (forall l, cv_badge (renderCard p) = NEl (BadgeEl l) <-> badge p = Some l /\ l <> ""%string) /\
  (forall d, cv_discountBadge (renderCard p) = NEl (DiscountBadgeEl d) <->
             discount p = Some d /\ showsDiscount p = true) /\
  (cv_strike (renderCard p) = NEl (StrikePriceEl (toFixed2 (price p))) <-> showsDiscount p = true) /\
  (forall d, discount p = Some d -> showsDiscount p = true ->
             cv_price (renderCard p) = toFixed2 (price p * (1 - d / 100))) /\
  (showsDiscount p = false -> cv_price (renderCard p) = toFixed2 (price p)) /\
  cv_onAdd (renderCard p) = p.
Proof.
  cbn [renderCard cv_badge cv_discountBadge cv_strike cv_price cv_onAdd].
  split; [|split; [|split; [|split; [|split; [|done]]]]].
  - intros l. rewrite jsxAndOpt_el. simpl. split.
    + intros (x & -> & Hx & [= ->]). split; [done|]. intros ->. done.
    + intros [-> Hl]. exists l. split; [done|]. split; [|done]. by rewrite eqb_ne_s.
  - intros d. rewrite jsxAndOpt_el. split.
    + intros (x & Hx & Ht & [= ->]). split; [done|]. by rewrite <- (truthy_discount p x Hx).
    + intros [Hd Hs]. exists d. split; [done|]. split; [|done]. by rewrite (truthy_discount p d Hd).
  - rewrite jsxAndOpt_el. split.
    + intros (x & Hx & Ht & _). by rewrite <- (truthy_discount p x Hx).
    + unfold showsDiscount. destruct (discount p) as [d|] eqn:Hd; [|done].
      intros Hs. exists d. by split.
  - intros d Hd Hs. f_equal. unfold discountedPrice, showsDiscount in *. rewrite Hd in *. by rewrite Hs.
  - intros Hs. f_equal. unfold discountedPrice, showsDiscount in *.
    destruct (discount p); [by rewrite Hs|done].
Qed.

(** C17: the card of a product and the drawer line of that product show
    the same price and the same struck list price, whatever the
    quantity. *)
Theorem card_drawer_price (p : Product) (n : Z) :
  cv_price (renderCard p) = lv_price (renderLine (newLine p n)) /\
  (cv_strike (renderCard p) = NEl (StrikePriceEl (toFixed2 (price p))) <->
   lv_strikePrice (renderLine (newLine p n)) = NEl (toFixed2 (price p))).
Proof.
  split; [done|]. cbn [renderCard renderLine cv_strike lv_strikePrice newLine Cart.item].
  rewrite !jsxAndOpt_el. split; intros (x & Hx & Ht & _); exists x; done.
Qed.

(** A product with a discount of [0]: within the data model's range
    (0-100), and shown at its list price. *)
Definition zeroDiscount : Product :=
  {| id := "7"; name := "Gift Card"; price := 25%Q; image := "";
     rating := 5%Q; reviewCount := 0; discount := Some 0%Q; badge := None |}.

(** C12: for a discount of [0] the card shows no discount badge and no
    struck price but the number [0] in their place, once in the image
    corner and once in the price row; the drawer line shows it too. *)
Theorem card_zero_discount (p : Product) :
  discount p = Some 0%Q ->
  cv_discountBadge (renderCard p) = NNum 0%Q /\ cv_strike (renderCard p) = NNum 0%Q /\
  visible (cv_discountBadge (renderCard p)) = true /\
  lv_strikePrice (renderLine (newLine p 1)) = NNum 0%Q /\
  cv_price (renderCard p) = toFixed2 (price p).
Proof.
  intros Hd. cbn [renderCard renderLine cv_discountBadge cv_strike lv_strikePrice cv_price newLine Cart.item].
  unfold jsxAndOpt. rewrite Hd. unfold discountedPrice. rewrite Hd. done.
Qed.

(** ** Witnesses *)

Lemma card_zero_discount_witness :
  discount zeroDiscount = Some 0%Q /\ cv_strike (renderCard zeroDiscount) = NNum 0%Q /\
  cv_price (renderCard zeroDiscount) = "25.00"%string.
Proof.
  assert (H : discount zeroDiscount = Some 0%Q) by reflexivity.
  destruct (card_zero_discount zeroDiscount H) as (_ & Hs & _ & _ & Hp).
  split; [exact H|split; [exact Hs|]]. rewrite Hp. vm_compute. reflexivity.
Defined.
