(* ===== verification/Categories.v ===== *)
(** * The categories page

    [pages/Categories.tsx] renders the array [categories] as cards: the
    image, a "Trending" badge under [{category.trending && ...}], the
    name, [{category.productCount} items], the description,
    [{category.productCount} products available] and a "Browse →"
    button without [onClick].  Its cart is that of a static page
    ([Session.StaticPage]).

    [trending] is an optional boolean: [undefined] and [false] both
    render nothing.  The examples evaluate the page on its array: the
    badge shows for the trending categories (Electronics, Home &
    Garden), both counts show the category's [productCount], and no
    card's button does anything.

    The store page ([pages/Store.tsx]) has its own [categories] array of
    names and counts, shown as sidebar buttons without [onClick], and
    the line [Showing {mockProducts.length} products]; its counts are
    not those of the categories page. *)

From stdpp Require Import pretty.
From S2P Require Import Prelude Catalog Jsx.

Open Scope Z_scope.

(** [interface Category] *)
Record Category := mkCategory {
  cat_id : string;
  cat_name : string;
  cat_description : string;
  cat_image : string;
  productCount : Z;
  trending : option bool
}.

(** [const categories: Category[]] *)
Definition categories : list Category := [
  mkCategory "1" "Electronics" "Latest gadgets and electronic devices"
    "https://images.unsplash.com/photo-1498049794561-7780e7231661?w=400&h=300&fit=crop" 156 (Some true);
  mkCategory "2" "Clothing & Fashion" "Trendy apparel and accessories"
    "https://images.unsplash.com/photo-1441986300917-64674bd600d8?w=400&h=300&fit=crop" 234 None;
  mkCategory "3" "Home & Garden" "Everything for your home and outdoor space"
    "https://images.unsplash.com/photo-1586023492125-27b2c045efd7?w=400&h=300&fit=crop" 189 (Some true);
  mkCategory "4" "Sports & Outdoors" "Gear for active lifestyle and adventures"
    "https://images.unsplash.com/photo-1571019613454-1cb2f99b2d8b?w=400&h=300&fit=crop" 98 None;
  mkCategory "5" "Books & Media" "Books, movies, music and educational content"
    "https://images.unsplash.com/photo-1481627834876-b7833e8f5570?w=400&h=300&fit=crop" 67 None;
  mkCategory "6" "Beauty & Health" "Personal care and wellness products"
    "https://images.unsplash.com/photo-1556228453-efd6c1ff04f6?w=400&h=300&fit=crop" 145 None
]%string.

Record CategoryCard := mkCategoryCard {
  cc_image : string;
  cc_trending : Node string;        (** [{category.trending && <Badge>Trending</Badge>}] *)
  cc_name : string;
  cc_items : string;                (** [{category.productCount} items] *)
  cc_description : string;
  cc_available : string;            (** [{category.productCount} products available] *)
  cc_onBrowse : option unit         (** the "Browse →" button's handler: none *)
}.

Definition renderCategory (category : Category) : CategoryCard :=
  {| cc_image := cat_image category;
     cc_trending := jsxAndOpt JBool (trending category) (fun _ => "Trending"%string);
     cc_name := cat_name category;
     cc_items := (pretty (productCount category) ++ " items")%string;
     cc_description := cat_description category;
     cc_available := (pretty (productCount category) ++ " products available")%string;
     cc_onBrowse := None |}.

(** [{categories.map((category) => <Card key={category.id}> ...)}] *)
Definition renderCategories : list CategoryCard := map renderCategory categories.

(** ** Theorems *)

(** On the categories page the trending badge shows on Electronics
    and Home & Garden only, and the item counts read 156, 234, 189, 98,
    67 and 145. *)
Example categories_page :
  map cc_name (List.filter (fun cc => visible (cc_trending cc)) renderCategories) =
    ["Electronics"; "Home & Garden"]%string /\
  map cc_items renderCategories =
    ["156 items"; "234 items"; "189 items"; "98 items"; "67 items"; "145 items"]%string.
Proof. vm_compute. split; reflexivity. Qed.

(** ** The store page's sidebar *)

(** [const categories] of Store.tsx: name and count. *)
Definition storeCategories : list (string * Z) :=
  [("Electronics", 120); ("Fashion", 89); ("Home & Garden", 156); ("Sports", 78);
   ("Books", 234); ("Beauty", 67)]%string.

(** A sidebar button: [{category.name}] and [<Badge>{category.count}</Badge>],
    without [onClick]. *)
Record SidebarButton := mkSidebarButton { sb_name : string; sb_count : Z; sb_onClick : option unit }.

Definition renderSidebar : list SidebarButton :=
  map (fun '(n, c) => mkSidebarButton n c None) storeCategories.

(** [Showing {mockProducts.length} products] *)
Definition showingText : string :=
  ("Showing " ++ pretty (Z.of_nat (length Catalog.Store.mockProducts)) ++ " products")%string.

(** The count a page shows for a category name, if it lists it. *)
Definition sidebarCount (n : string) : option Z := (fun b => sb_count b) <$> List.find (fun b => sb_name b =s? n) renderSidebar.
Definition pageCount (n : string) : option Z := productCount <$> List.find (fun c => cat_name c =s? n) categories.

(** The two category lists disagree: of the names both list,
    Electronics shows 120 in the store's sidebar and 156 on the
    categories page, Home & Garden 156 and 189; the sidebar's buttons
    do nothing; the store shows "Showing 6 products". *)
Example store_sidebar_counts :
  sidebarCount "Electronics" = Some 120 /\ pageCount "Electronics" = Some 156 /\
  sidebarCount "Home & Garden" = Some 156 /\ pageCount "Home & Garden" = Some 189 /\
  Forall (fun b => sb_onClick b = None) renderSidebar /\
  showingText = "Showing 6 products"%string.
Proof. repeat match goal with |- _ /\ _ => split end; [vm_compute; reflexivity..| |vm_compute; reflexivity].
  repeat constructor. Qed.
