(* ===== verification/Session.v ===== *)
(** * Page sessions: the cart pages as state machines

    A page that shows product cards ([Store.tsx], [Products.tsx]) keeps
    [cartItems] and [isCartOpen]; its clicks are a card's "Add to Cart"
    button, the header's cart button ([onCartClick={() =>
    setIsCartOpen(true)}]) and the enabled buttons of the drawer.  While
    the drawer is open its backdrop covers the page, so only the drawer's
    buttons can be clicked.  The toasts emitted so far are part of the
    state.  [step] is the transition relation, [reachable] its closure
    from the initial state, [run] the executable semantics of a sequence
    of clicks (a click on a button that is not rendered or is disabled
    does nothing).

    The invariant [wf] is proved for every page whose handlers satisfy
    [PageLaws]; the store and products pages are shown to have the same
    cart along every sequence of clicks; the cart can always be emptied;
    the static pages' cart stays empty. *)

From S2P Require Import Prelude Catalog Cart Handlers Drawer Header.

Open Scope Z_scope.

Record PageState := mkPageState {
  cartItems : Cart;
  isCartOpen : bool;
  toasts : list Toast
}.

(** [useState<CartItem[]>([])], [useState(false)], no toast yet. *)
Definition initState : PageState := mkPageState [] false [].

(** What distinguishes the card pages: the products shown, the card
    callback [onAddToCart], the drawer callbacks. *)
Record CardPage := mkCardPage {
  catalog : list Product;
  addToCart : Product -> Cart -> Cart * list Toast;
  pageCallbacks : CartCallbacks
}.

(** [Store]: the grid shows [mockProducts]. *)
Definition StorePage : CardPage :=
  mkCardPage Catalog.Store.mockProducts Store.handleAddToCart Store.callbacks.

(** [Products]: the grid shows a sorted, filtered copy of [mockProducts];
    every product can be shown (filter "all"). *)
Definition ProductsPage : CardPage :=
  mkCardPage Catalog.Products.mockProducts Products.handleAddToCart Products.callbacks.

(** [Categories], [About], [Contact]: no product card, no-op callbacks. *)
Definition StaticPage : CardPage :=
  mkCardPage [] (fun _ c => (c, [])) Static.callbacks.

Inductive Event :=
| ClickAdd (p : Product)       (** a card's "Add to Cart" *)
| ClickCart                    (** the header's cart button *)
| ClickDrawer (k : Intent).    (** an enabled button of the drawer *)

(** Whether the clicked button is rendered, enabled and not covered. *)
Definition enabledb (pg : CardPage) (s : PageState) (e : Event) : bool :=
  match e with
  | ClickAdd p => negb (isCartOpen s) && bool_decide (p ∈ catalog pg)
  | ClickCart => negb (isCartOpen s)
  | ClickDrawer k =>
      match render (isCartOpen s) (cartItems s) with
      | Some v => bool_decide (k ∈ clickable v)
      | None => false
      end
  end.

(** The handler the click runs. *)
Definition handle (pg : CardPage) (s : PageState) (e : Event) : PageState :=
  match e with
  | ClickAdd p =>
      let '(c, ts) := addToCart pg p (cartItems s) in mkPageState c (isCartOpen s) (toasts s ++ ts)
  | ClickCart => mkPageState (cartItems s) true (toasts s)
  | ClickDrawer k =>
      let '(c, ts, o) := dispatch (pageCallbacks pg) k (cartItems s) (isCartOpen s) in
      mkPageState c o (toasts s ++ ts)
  end.

Inductive step (pg : CardPage) : PageState -> PageState -> Prop :=
| step_click s e : enabledb pg s e = true -> step pg s (handle pg s e).

Definition reachable (pg : CardPage) (s : PageState) : Prop := star (step pg) initState s.

Fixpoint run (pg : CardPage) (evs : list Event) (s : PageState) : PageState :=
  match evs with
  | [] => s
  | e :: evs => run pg evs (if enabledb pg s e then handle pg s e else s)
  end.

(** The count the page passes to [Header]: [cartItems.reduce(...)]. *)
Definition headerBadge (s : PageState) : option Z := cartBadge (totalItems (cartItems s)).

(** ** What a page's handlers must satisfy *)

Class PageLaws (pg : CardPage) := {
  page_callbacks_laws :: CallbacksLaws (pageCallbacks pg);
  page_add p c : fst (addToCart pg p c) = addLine p 1 c
}.

#[export] Instance StorePage_laws : PageLaws StorePage.
Proof. split; [apply _|apply Store_add_cart]. Qed.

#[export] Instance ProductsPage_laws : PageLaws ProductsPage.
Proof. split; [apply _|apply Products_add_cart]. Qed.

(** ** Runs are paths of the step relation *)

Lemma run_reachable (pg : CardPage) (evs : list Event) (s : PageState) :
  star (step pg) s (run pg evs s).
Proof.
  revert s. induction evs as [|e evs IH]; intros s; simpl; [constructor|].
  destruct (enabledb pg s e) eqn:He; [|apply IH].
  eapply star_step; [by constructor|apply IH].
Qed.

Section Invariant.
Context (pg : CardPage) `{!PageLaws pg}.

Lemma step_wf (s s' : PageState) : wf (cartItems s) -> step pg s s' -> wf (cartItems s').
Proof.
  intros Hwf Hs. inversion Hs as [s1 e He]; subst. destruct e as [p| |k]; simpl in *.
  - pose proof (page_add p (cartItems s)) as Ha.
    destruct (addToCart pg p (cartItems s)) as [c ts]. simpl in *. subst c. simpl.
    apply addLine_wf; [lia|done].
  - done.
  - destruct (render (isCartOpen s) (cartItems s)) as [v|] eqn:Hv; [|done].
    apply bool_decide_eq_true in He.
    pose proof (dispatch_clickable (pageCallbacks pg) _ _ v k Hwf Hv He) as Hd.
    pose proof (wf_intentCart _ _ v k Hwf Hv He) as Hw.
    destruct (dispatch (pageCallbacks pg) k (cartItems s) (isCartOpen s)) as [[c ts] o].
    simpl in *. by subst c.
Qed.

(** Every run of clicks from a well-formed cart keeps it well formed. *)
Lemma star_wf (s s' : PageState) : star (step pg) s s' -> wf (cartItems s) -> wf (cartItems s').
Proof. intros Hr. apply (star_inv _ (fun s => wf (cartItems s)) step_wf _ _ Hr). Qed.

(** C1: in every state a card page can reach by clicks, the cart's ids
    are distinct and every quantity is at least 1. *)
Theorem reachable_wf (s : PageState) : reachable pg s -> wf (cartItems s).
Proof. intros Hr. exact (star_wf initState s Hr wf_nil). Qed.
End Invariant.

(** ** The effect of a click, as the laws determine it *)

(** The cart after an enabled click, for any page satisfying the laws. *)
Definition cartEffect (e : Event) (c : Cart) : Cart :=
  match e with
  | ClickAdd p => addLine p 1 c
  | ClickCart => c
  | ClickDrawer k => intentCart k c
  end.

Definition openEffect (e : Event) (o : bool) : bool :=
  match e with
  | ClickCart => true
  | ClickDrawer CallClose => false
  | _ => o
  end.

Lemma enabledb_ext (pg1 pg2 : CardPage) (s1 s2 : PageState) (e : Event) :
  catalog pg1 = catalog pg2 -> cartItems s1 = cartItems s2 -> isCartOpen s1 = isCartOpen s2 ->
  enabledb pg1 s1 e = enabledb pg2 s2 e.
Proof. intros Hc Hi Ho. destruct e; simpl; by rewrite ?Hc, ?Hi, ?Ho. Qed.

Section Effect.
Context (pg : CardPage) `{!PageLaws pg}.

Lemma handle_effect (s : PageState) (e : Event) :
  wf (cartItems s) -> enabledb pg s e = true ->
  cartItems (handle pg s e) = cartEffect e (cartItems s) /\
  isCartOpen (handle pg s e) = openEffect e (isCartOpen s).
Proof.
  intros Hwf He. destruct e as [p| |k]; simpl in *.
  - pose proof (page_add p (cartItems s)) as Ha.
    by destruct (addToCart pg p (cartItems s)) as [c ts]; simpl in *; subst c.
  - done.
  - destruct (render (isCartOpen s) (cartItems s)) as [v|] eqn:Hv; [|done].
    apply bool_decide_eq_true in He.
    pose proof (dispatch_clickable (pageCallbacks pg) _ _ v k Hwf Hv He) as Hd.
    pose proof (dispatch_open (pageCallbacks pg) k (cartItems s) (isCartOpen s)) as Ho.
    destruct (dispatch (pageCallbacks pg) k (cartItems s) (isCartOpen s)) as [[c ts] o].
    simpl in *. subst. split; [done|]. by destruct k.
Qed.
End Effect.

(** Two pages satisfying the laws over the same catalog keep the same
    cart and drawer state along every sequence of clicks. *)
Lemma laws_same_run (pg1 pg2 : CardPage) `{!PageLaws pg1} `{!PageLaws pg2} (evs : list Event) :
  catalog pg1 = catalog pg2 ->
  forall s1 s2, wf (cartItems s1) -> cartItems s1 = cartItems s2 -> isCartOpen s1 = isCartOpen s2 ->
  cartItems (run pg1 evs s1) = cartItems (run pg2 evs s2) /\
  isCartOpen (run pg1 evs s1) = isCartOpen (run pg2 evs s2).
Proof.
  intros Hcat. induction evs as [|e evs IH]; intros s1 s2 Hwf Hc Ho; simpl; [done|].
  rewrite <- (enabledb_ext pg1 pg2 s1 s2 e Hcat Hc Ho).
  destruct (enabledb pg1 s1 e) eqn:He1; [|by apply IH].
  assert (He2 : enabledb pg2 s2 e = true) by by rewrite <- (enabledb_ext pg1 pg2 s1 s2 e Hcat Hc Ho).
  destruct (handle_effect pg1 s1 e Hwf He1) as [Hc1 Ho1].
  destruct (handle_effect pg2 s2 e ltac:(by rewrite <- Hc) He2) as [Hc2 Ho2].
  apply IH.
  - exact (step_wf pg1 s1 _ Hwf (step_click pg1 s1 e He1)).
  - by rewrite Hc1, Hc2, Hc.
  - by rewrite Ho1, Ho2, Ho.
Qed.

Definition storeOn (cat : list Product) : CardPage := mkCardPage cat Store.handleAddToCart Store.callbacks.
Definition productsOn (cat : list Product) : CardPage := mkCardPage cat Products.handleAddToCart Products.callbacks.

#[export] Instance storeOn_laws cat : PageLaws (storeOn cat).
Proof. split; [apply _|apply Store_add_cart]. Qed.

#[export] Instance productsOn_laws cat : PageLaws (productsOn cat).
Proof. split; [apply _|apply Products_add_cart]. Qed.

(** C6: the store page's handlers and the products page's handlers,
    over the same catalog, give the same cart and drawer state after
    every sequence of clicks: the products page's [=== 0] test never
    differs from the store's [<= 0] test through the UI. *)
Theorem store_products_same_cart (cat : list Product) (evs : list Event) :
  cartItems (run (storeOn cat) evs initState) = cartItems (run (productsOn cat) evs initState) /\
  isCartOpen (run (storeOn cat) evs initState) = isCartOpen (run (productsOn cat) evs initState).
Proof. apply (laws_same_run (storeOn cat) (productsOn cat) evs eq_refl); [apply wf_nil|done|done]. Qed.

(** ** The cart can always be emptied *)

Section Liveness.
Context (pg : CardPage) `{!PageLaws pg}.

Lemma empty_from_open (n : nat) (s : PageState) :
  isCartOpen s = true -> wf (cartItems s) -> (length (cartItems s) <= n)%nat ->
  exists s', star (step pg) s s' /\ cartItems s' = [].
Proof.
  revert s. induction n as [|n IH]; intros s Ho Hwf Hl.
  { exists s. split; [constructor|]. by destruct (cartItems s); [|simpl in Hl; lia]. }
  destruct (cartItems s) as [|it rest] eqn:Hc; [exists s; split; [constructor|done]|].
  rewrite <- Hc in Hwf.
  destruct (remove_clickable (it :: rest) it ltac:(left)) as (v & Hv & Hk).
  set (e := ClickDrawer (CallRemove (ci_id it))).
  assert (He : enabledb pg s e = true).
  { unfold e. simpl. rewrite Ho, Hc, Hv. by apply bool_decide_eq_true. }
  destruct (handle_effect pg s e Hwf He) as [Hc' Ho'].
  assert (Hwf' : wf (cartItems (handle pg s e))) by exact (step_wf pg s _ Hwf (step_click pg s e He)).
  destruct (IH (handle pg s e)) as (s' & Hs' & Hemp).
  - by rewrite Ho'.
  - done.
  - rewrite Hc', Hc. simpl in Hl |- *.
    pose proof (removeItem_length_lt (ci_id it) (it :: rest) ltac:(left)). simpl in *. lia.
  - exists s'. split; [eapply star_step; [by constructor|exact Hs']|done].
Qed.

(** C31: from every reachable state of a card page, some sequence of
    enabled clicks (open the cart, remove each line) reaches an empty
    cart. *)
Theorem reachable_can_empty (s : PageState) :
  reachable pg s -> exists s', star (step pg) s s' /\ cartItems s' = [] /\ totalItems (cartItems s') = 0.
Proof.
  intros Hr. pose proof (star_wf pg initState s Hr wf_nil) as Hwf.
  destruct (isCartOpen s) eqn:Ho.
  - destruct (empty_from_open (length (cartItems s)) s Ho Hwf (le_n _)) as (s' & Hs & He).
    exists s'. by rewrite He.
  - assert (He : enabledb pg s ClickCart = true) by (simpl; by rewrite Ho).
    destruct (empty_from_open (length (cartItems s)) (handle pg s ClickCart) eq_refl Hwf (le_n _))
      as (s' & Hs & Hemp).
    exists s'. split; [eapply star_step; [by constructor|exact Hs]|]. by rewrite Hemp.
Qed.

(** C32: in every reachable state of a card page the header shows its
    badge exactly when the cart is not empty, and the badge shows the
    same count as the drawer. *)
Theorem reachable_badge (s : PageState) :
  reachable pg s ->
  (headerBadge s = None <-> cartItems s = []) /\
  (forall n, headerBadge s = Some n -> n = totalItems (cartItems s) /\
     option_map dv_badge (render true (cartItems s)) = Some n).
Proof.
  intros Hr. pose proof (star_wf pg initState s Hr wf_nil) as Hwf. unfold headerBadge.
  split.
  - destruct (cartItems s) as [|it c] eqn:Hc; [done|].
    rewrite cartBadge_pos by (apply totalItems_pos; [done|discriminate]). done.
  - intros n. unfold cartBadge. destruct (Z.ltb_spec 0 (totalItems (cartItems s))); [|done].
    by intros [= <-].
Qed.
End Liveness.

(** ** Remove clicks terminate *)

(** [s'] follows [s] by an enabled click on a line's remove button. *)
Definition removeClick (pg : CardPage) (s' s : PageState) : Prop :=
  exists i, enabledb pg s (ClickDrawer (CallRemove i)) = true /\ s' = handle pg s (ClickDrawer (CallRemove i)).

(** An enabled remove button belongs to a line of the cart. *)
Lemma clickable_remove (c : Cart) (v : DrawerView) (i : string) :
  render true c = Some v -> CallRemove i ∈ clickable v -> i ∈ keys ci_id c.
Proof.
  intros Hv Hk. destruct (clickable_render c v _ Hv Hk) as [?|(it & Hit & Hk')]; [done|].
  apply lineIntents_cases in Hk' as [[[=] _]|[[=]|[= ->]]].
  apply list_elem_of_In, in_map, list_elem_of_In, Hit.
Qed.

Lemma removeClick_length (pg : CardPage) `{!PageLaws pg} (s' s : PageState) :
  removeClick pg s' s -> (length (cartItems s') < length (cartItems s))%nat.
Proof.
  intros (i & He & ->). simpl in He.
  destruct (render (isCartOpen s) (cartItems s)) as [v|] eqn:Hv; [|done].
  apply bool_decide_eq_true in He. pose proof (render_open _ _ _ Hv) as Ho. rewrite Ho in Hv.
  pose proof (dispatch_remove (pageCallbacks pg) i (cartItems s) (isCartOpen s)) as Hd.
  cbn [handle]. destruct (dispatch (pageCallbacks pg) _ _ _) as [[c ts] o]. simpl in *. subst c.
  by apply removeItem_length_lt, (clickable_remove _ v).
Qed.

(** C18: on every card page, remove clicks terminate: there is no
    infinite sequence of enabled clicks on remove buttons, each of which
    removes a line. *)
Theorem remove_clicks_terminate (pg : CardPage) `{!PageLaws pg} : well_founded (removeClick pg).
Proof.
  intros s. remember (length (cartItems s)) as n eqn:Hn. revert s Hn.
  induction n as [n IH] using lt_wf_ind. intros s ->. constructor.
  intros s' Hs'. exact (IH _ (removeClick_length pg s' s Hs') s' eq_refl).
Qed.

(** On the static pages the cart stays empty and the header never
    shows a badge ([cartItemsCount={0}]), whatever is clicked. *)
Theorem static_cart_empty (s : PageState) :
  reachable StaticPage s -> cartItems s = [] /\ cartBadge 0 = None.
Proof.
  intros Hr. split; [|done].
  refine (star_inv (step StaticPage) (fun s => cartItems s = []) _ initState s Hr eq_refl).
  intros s0 s1 Hc Hs. inversion Hs as [s2 e He]; subst. destruct e as [p| |[i q|i|]]; simpl in *.
  - by rewrite andb_false_r in He.
  - done.
  - by rewrite Hc.
  - by rewrite Hc.
  - done.
Qed.

(** ** Witnesses *)

(** Add the headphones twice, the backpack once, open the cart, and click
    the headphones line's [-] button. *)
Definition sampleClicks : list Event :=
  [ClickAdd headphones; ClickAdd headphones; ClickAdd backpack; ClickCart;
   ClickDrawer (CallUpdate "1" 1)].

Definition sampleRun : PageState := run StorePage sampleClicks initState.


Lemma reachable_wf_witness : reachable StorePage sampleRun /\ wf (cartItems sampleRun).
Proof. split; [apply run_reachable|apply (reachable_wf StorePage sampleRun); apply run_reachable]. Defined.

Lemma reachable_can_empty_witness :
  reachable StorePage sampleRun /\
  exists s', star (step StorePage) sampleRun s' /\ cartItems s' = [] /\ totalItems (cartItems s') = 0.
Proof. split; [apply run_reachable|apply (reachable_can_empty StorePage sampleRun); apply run_reachable]. Defined.

Lemma reachable_badge_witness :
  reachable StorePage sampleRun /\ headerBadge sampleRun = Some 2 /\
  (headerBadge sampleRun = None <-> cartItems sampleRun = []).
Proof.
  split; [apply run_reachable|]. split; [vm_compute; reflexivity|].
  apply (reachable_badge StorePage sampleRun); apply run_reachable.
Defined.

Lemma static_cart_empty_witness :
  reachable StaticPage (run StaticPage [ClickCart; ClickDrawer CallClose; ClickAdd headphones] initState) /\
  cartItems (run StaticPage [ClickCart; ClickDrawer CallClose; ClickAdd headphones] initState) = [].
Proof.
  split; [apply run_reachable|].
  apply (static_cart_empty (run StaticPage [ClickCart; ClickDrawer CallClose; ClickAdd headphones] initState)).
  apply run_reachable.
Defined.

Lemma remove_clicks_terminate_witness : well_founded (removeClick StorePage).
Proof. exact (remove_clicks_terminate StorePage). Defined.
