(* ===== verification/CartSpec.v ===== *)
(** * Abstract specification of the cart and refinement

    What the cart promises, independently of the array the pages keep:
    a finite map from product id to its line ([gmap string CartItem]),
    with adding, setting a quantity and removing as map operations, and
    the totals as sums over the map.  [toMap] abstracts a page's list;
    the first line with an id is the one [prev.find] sees, and the one
    [list_to_map] keeps.

    Proved: each list operation implements its map operation (for every
    list, duplicates included); the totals are the map's sums when ids
    are distinct; and every enabled click of a card page acts on the
    abstract cart as [absEffect] says (a simulation of the session by
    map operations). *)

From stdpp Require Import gmap fin_maps.
From S2P Require Import Prelude Catalog Cart Handlers Drawer Session.

Open Scope Z_scope.

Abbreviation CartMap := (gmap string CartItem).

(** The abstraction: id to line. *)
Definition toMap (c : Cart) : CartMap := list_to_map ((fun it => (ci_id it, it)) <$> c).

(** Adding [n] units of [p]. *)
Definition absAdd (p : Product) (n : Z) (m : CartMap) : CartMap :=
  match m !! id p with
  | Some it => <[id p := bump n it]> m
  | None => <[id p := newLine p n]> m
  end.

(** Setting the quantity of the line [i], if any. *)
Definition absSet (i : string) (q : Z) (m : CartMap) : CartMap := alter (withQuantity q) i m.

Definition absRemove (i : string) (m : CartMap) : CartMap := delete i m.

Definition absCount (m : CartMap) : Z := sumZ (fun kv => quantity kv.2) (map_to_list m).

Definition absTotal (m : CartMap) : Q :=
  sumQ (fun kv => linePrice kv.2 * ⌜quantity kv.2⌝)%Q (map_to_list m).

(** The abstract effect of a click. *)
Definition absEffect (e : Event) (m : CartMap) : CartMap :=
  match e with
  | ClickAdd p => absAdd p 1 m
  | ClickDrawer (CallUpdate i q) => absSet i q m
  | ClickDrawer (CallRemove i) => absRemove i m
  | _ => m
  end.

(** ** Lookups *)

Lemma toMap_lookup (c : Cart) (i : string) : toMap c !! i = findItem i c.
Proof.
  induction c as [|it c IH]; [done|]. unfold toMap in *. simpl.
  destruct (String.eqb_spec (ci_id it) i) as [<-|Hne].
  - by rewrite lookup_insert_eq.
  - rewrite lookup_insert_ne by done. exact IH.
Qed.

Lemma findItem_mapItem_self (i : string) (f : CartItem -> CartItem) (c : Cart) :
  (forall x, ci_id (f x) = ci_id x) -> findItem i (mapItem i f c) = f <$> findItem i c.
Proof.
  intros Hf. destruct (findItem i c) as [it|] eqn:Hi.
  - by apply findItem_mapItem.
  - apply findItem_None in Hi. by rewrite mapItem_notin, (proj2 (findItem_None _ _) Hi).
Qed.

Lemma findItem_removeItem (i j : string) (c : Cart) :
  findItem j (removeItem i c) = if bool_decide (j = i) then None else findItem j c.
Proof.
  case_bool_decide as Hji.
  - subst. apply findItem_None, removeItem_not_elem.
  - induction c as [|x c IH]; [done|]. simpl.
    destruct (String.eqb_spec (ci_id x) i) as [Hx|Hx]; simpl.
    + rewrite IH. destruct (String.eqb_spec (ci_id x) j); [congruence|done].
    + by destruct (ci_id x =s? j).
Qed.

Lemma fmap_map_list {A B : Type} (f : A -> B) (l : list A) : f <$> l = map f l.
Proof. induction l as [|x l IH]; simpl; by f_equal. Qed.

Lemma toMap_to_list (c : Cart) :
  NoDup (keys ci_id c) -> map_to_list (toMap c) ≡ₚ (fun it => (ci_id it, it)) <$> c.
Proof.
  intros Hnd. apply map_to_list_to_map. rewrite <- list_fmap_compose.
  rewrite fmap_map_list. exact Hnd.
Qed.

Lemma sumZ_fmap {A B : Type} (g : B -> Z) (f : A -> B) (l : list A) :
  sumZ g (f <$> l) = sumZ (fun x => g (f x)) l.
Proof.
  rewrite fmap_map_list. induction l as [|x l IH]; [done|].
  unfold sumZ in *. cbn [map fold_right]. by rewrite IH.
Qed.

Lemma sumQ_fmap {A B : Type} (g : B -> Q) (f : A -> B) (l : list A) :
  sumQ g (f <$> l) = sumQ (fun x => g (f x)) l.
Proof.
  rewrite fmap_map_list. induction l as [|x l IH]; [done|].
  unfold sumQ in *. cbn [map fold_right]. by rewrite IH.
Qed.

(** ** Refinement *)

Lemma toMap_addLine (p : Product) (n : Z) (c : Cart) : toMap (addLine p n c) = absAdd p n (toMap c).
Proof.
  apply map_eq; intros j. unfold absAdd. rewrite !toMap_lookup.
  destruct (decide (j = id p)) as [->|Hne].
  - rewrite addLine_find_self. by destruct (findItem (id p) c); rewrite lookup_insert_eq.
  - rewrite addLine_find_other by done.
    destruct (findItem (id p) c); rewrite lookup_insert_ne, toMap_lookup by congruence; done.
Qed.

Lemma toMap_setQuantity (i : string) (q : Z) (c : Cart) :
  toMap (mapItem i (withQuantity q) c) = absSet i q (toMap c).
Proof.
  apply map_eq; intros j. unfold absSet. rewrite toMap_lookup, lookup_alter.
  case_decide as Hij; rewrite !toMap_lookup.
  - subst. apply findItem_mapItem_self, withQuantity_id.
  - apply findItem_mapItem_ne; [apply withQuantity_id|congruence].
Qed.

Lemma toMap_removeItem (i : string) (c : Cart) : toMap (removeItem i c) = absRemove i (toMap c).
Proof.
  apply map_eq; intros j. unfold absRemove. rewrite toMap_lookup, lookup_delete, findItem_removeItem.
  case_decide; case_bool_decide; rewrite ?toMap_lookup; congruence.
Qed.

(** C5: the three array idioms implement the map operations, for every
    list of lines: adding is [absAdd], [{ ...item, quantity }] on the
    line is [alter], filtering the id out is [delete]. *)
Theorem cart_ops_refine (p : Product) (n q : Z) (i : string) (c : Cart) :
  toMap (addLine p n c) = absAdd p n (toMap c) /\
  toMap (mapItem i (withQuantity q) c) = absSet i q (toMap c) /\
  toMap (removeItem i c) = absRemove i (toMap c).
Proof. split; [apply toMap_addLine|split; [apply toMap_setQuantity|apply toMap_removeItem]]. Qed.

(** C21: with distinct ids, the drawer's [reduce] totals are the sums
    over the abstract map: the item count and the total price do not
    depend on the order of the lines. *)
Theorem totals_refine (c : Cart) :
  NoDup (keys ci_id c) ->
  totalItems c = absCount (toMap c) /\ (totalPrice c == absTotal (toMap c))%Q.
Proof.
  intros Hnd. unfold absCount, absTotal. rewrite (toMap_to_list c Hnd).
  rewrite sumZ_fmap, sumQ_fmap. split; [apply totalItems_sum|apply totalPrice_sum].
Qed.

Section Simulation.
Context (pg : CardPage) `{!PageLaws pg}.

(** C4: in every reachable state of a card page, an enabled click
    changes the abstract cart exactly by [absEffect]: adding is
    [absAdd p 1], the [+]/[-] buttons are [alter], removal is [delete],
    the other clicks leave the map alone. *)
Theorem session_refines (s : PageState) (e : Event) :
  reachable pg s -> enabledb pg s e = true ->
  toMap (cartItems (handle pg s e)) = absEffect e (toMap (cartItems s)).
Proof.
  intros Hr He. pose proof (star_wf pg initState s Hr wf_nil) as Hwf.
  destruct (handle_effect pg s e Hwf He) as [Hc _]. rewrite Hc.
  destruct e as [p| |[i q|i|]]; simpl; try done.
  - apply toMap_addLine.
  - apply toMap_setQuantity.
  - apply toMap_removeItem.
Qed.
End Simulation.

(** ** Witnesses *)

Lemma totals_refine_witness :
  NoDup (keys ci_id sampleCart) /\ totalItems sampleCart = absCount (toMap sampleCart).
Proof.
  assert (H : NoDup (keys ci_id sampleCart)) by decide_prop.
  split; [exact H|exact (proj1 (totals_refine sampleCart H))].
Defined.

Lemma session_refines_witness :
  reachable StorePage sampleRun /\ enabledb StorePage sampleRun (ClickDrawer (CallRemove "3")) = true /\
  toMap (cartItems (handle StorePage sampleRun (ClickDrawer (CallRemove "3")))) =
    absRemove "3" (toMap (cartItems sampleRun)).
Proof.
  assert (Hr : reachable StorePage sampleRun) by apply run_reachable.
  assert (He : enabledb StorePage sampleRun (ClickDrawer (CallRemove "3")) = true) by (vm_compute; reflexivity).
  split; [exact Hr|]. split; [exact He|].
  exact (session_refines StorePage sampleRun (ClickDrawer (CallRemove "3")) Hr He).
Defined.
