(* ===== verification/DetailPage.v ===== *)
(** * The product detail page as a state machine

    [pages/ProductDetail.tsx] keeps five pieces of state: [cartItems],
    [isCartOpen], [selectedImage], [quantity] (the selector) and the
    toasts it has emitted.  Its clicks: a thumbnail
    ([setSelectedImage(index)]), the selector's [-]
    ([setQuantity(Math.max(1, quantity - 1))]) and [+]
    ([setQuantity(Math.min(product.stockCount, quantity + 1))]),
    "Add to Cart" (disabled when [!product.inStock]), the header's cart
    button and the drawer's buttons.  The page shows one product; the
    model takes it as a parameter ([mockProduct] in the code).

    Proved here: the selector stays in [1 .. stockCount] and the selected
    image exists, for any product with stock and images; the cart is well
    formed; and the cart can hold more units than [stockCount], because
    the selector bounds each addition, not the line. *)

From S2P Require Import Prelude Catalog Cart Handlers Drawer.

Open Scope Z_scope.

Record DetailState := mkDetailState {
  dp_cartItems : Cart;
  dp_isCartOpen : bool;
  dp_selectedImage : nat;
  dp_quantity : Z;          (** the selector's [quantity] *)
  dp_toasts : list Toast
}.

(** [useState([])], [useState(false)], [useState(0)], [useState(1)]. *)
Definition initDetail : DetailState := mkDetailState [] false 0 1 [].

Inductive DetailEvent :=
| ClickThumb (index : nat)
| ClickMinus
| ClickPlus
| ClickAddToCart
| ClickCartButton
| ClickDrawerButton (k : Intent).

Definition enabledDetail (product : DetailProduct) (s : DetailState) (e : DetailEvent) : bool :=
  match e with
  | ClickThumb index => negb (dp_isCartOpen s) && Nat.ltb index (length (d_images product))
  | ClickMinus | ClickPlus | ClickCartButton => negb (dp_isCartOpen s)
  | ClickAddToCart => negb (dp_isCartOpen s) && d_inStock product
  | ClickDrawerButton k =>
      match render (dp_isCartOpen s) (dp_cartItems s) with
      | Some v => bool_decide (k ∈ clickable v)
      | None => false
      end
  end.

Definition handleDetail (product : DetailProduct) (s : DetailState) (e : DetailEvent) : DetailState :=
  match e with
  | ClickThumb index =>
      mkDetailState (dp_cartItems s) (dp_isCartOpen s) index (dp_quantity s) (dp_toasts s)
  | ClickMinus =>
      mkDetailState (dp_cartItems s) (dp_isCartOpen s) (dp_selectedImage s)
        (Z.max 1 (dp_quantity s - 1)) (dp_toasts s)
  | ClickPlus =>
      mkDetailState (dp_cartItems s) (dp_isCartOpen s) (dp_selectedImage s)
        (Z.min (d_stockCount product) (dp_quantity s + 1)) (dp_toasts s)
  | ClickAddToCart =>
      let '(c, ts) := Detail.handleAddToCart product (dp_quantity s) (dp_cartItems s) in
      mkDetailState c (dp_isCartOpen s) (dp_selectedImage s) (dp_quantity s) (dp_toasts s ++ ts)
  | ClickCartButton =>
      mkDetailState (dp_cartItems s) true (dp_selectedImage s) (dp_quantity s) (dp_toasts s)
  | ClickDrawerButton k =>
      let '(c, ts, o) := dispatch Detail.callbacks k (dp_cartItems s) (dp_isCartOpen s) in
      mkDetailState c o (dp_selectedImage s) (dp_quantity s) (dp_toasts s ++ ts)
  end.

Inductive detail_step (product : DetailProduct) : DetailState -> DetailState -> Prop :=
| detail_click s e : enabledDetail product s e = true -> detail_step product s (handleDetail product s e).

Definition reachableDetail (product : DetailProduct) (s : DetailState) : Prop :=
  star (detail_step product) initDetail s.

Fixpoint runDetail (product : DetailProduct) (evs : list DetailEvent) (s : DetailState) : DetailState :=
  match evs with
  | [] => s
  | e :: evs => runDetail product evs (if enabledDetail product s e then handleDetail product s e else s)
  end.

(** [product.images[selectedImage]], the main image. *)
Definition mainImage (product : DetailProduct) (s : DetailState) : option string :=
  d_images product !! dp_selectedImage s.

Lemma runDetail_reachable (product : DetailProduct) (evs : list DetailEvent) (s : DetailState) :
  star (detail_step product) s (runDetail product evs s).
Proof.
  revert s. induction evs as [|e evs IH]; intros s; simpl; [constructor|].
  destruct (enabledDetail product s e) eqn:He; [|apply IH].
  eapply star_step; [by constructor|apply IH].
Qed.

(** ** The page invariant *)

Definition detailInv (product : DetailProduct) (s : DetailState) : Prop :=
  1 <= dp_quantity s <= d_stockCount product /\
  (dp_selectedImage s < length (d_images product))%nat /\
  wf (dp_cartItems s).

Section Bounds.
Context (product : DetailProduct).
Hypothesis Hstock : 1 <= d_stockCount product.
Hypothesis Himages : d_images product <> [].

Lemma detailInv_init : detailInv product initDetail.
Proof.
  split; [simpl; lia|]. split; [|apply wf_nil].
  simpl. destruct (d_images product); [done|simpl; lia].
Qed.

Lemma detailInv_step (s s' : DetailState) :
  detailInv product s -> detail_step product s s' -> detailInv product s'.
Proof.
  intros (Hq & Hi & Hwf) Hs. inversion Hs as [s1 e He]; subst.
  destruct e as [index| | | | |k]; simpl in *.
  - apply andb_prop in He as [_ He%Nat.ltb_lt]. split; [|split]; simpl; try lia; done.
  - split; [|split]; simpl; try lia; done.
  - split; [|split]; simpl; try lia; done.
  - pose proof (addLine_wf (Detail.toProduct product) (dp_quantity s) (dp_cartItems s)
                  ltac:(lia) Hwf) as Hw.
    split; [|split]; simpl; [lia|lia|exact Hw].
  - split; [|split]; simpl; try lia; done.
  - destruct (render (dp_isCartOpen s) (dp_cartItems s)) as [v|] eqn:Hv; [|done].
    apply bool_decide_eq_true in He.
    pose proof (dispatch_clickable Detail.callbacks _ _ v k Hwf Hv He) as Hd.
    pose proof (wf_intentCart _ _ v k Hwf Hv He) as Hw.
    destruct (dispatch Detail.callbacks k (dp_cartItems s) (dp_isCartOpen s)) as [[c ts] o].
    simpl in Hd. subst c. split; [|split]; simpl; try lia; done.
Qed.

(** C10: for a product with at least one unit in stock and at least one
    image, every reachable state of the product page has the selector
    between 1 and [stockCount], a selected image that exists, and a
    well-formed cart. *)
Theorem detail_reachable_bounds (s : DetailState) :
  reachableDetail product s ->
  1 <= dp_quantity s <= d_stockCount product /\
  (exists img, mainImage product s = Some img) /\
  wf (dp_cartItems s).
Proof.
  intros Hr. destruct (star_inv _ (detailInv product) detailInv_step _ _ Hr detailInv_init)
    as (Hq & Hi & Hwf).
  split; [done|]. split; [|done].
  unfold mainImage. apply lookup_lt_is_Some_2 in Hi as [img Himg]. by exists img.
Qed.
End Bounds.

(** ** The line can exceed the stock *)

(** Fourteen clicks on [+] bring the selector to the stock of 15; two
    additions put 30 units in the cart. *)
Definition overStockClicks : list DetailEvent :=
  repeat ClickPlus 14 ++ [ClickAddToCart; ClickAddToCart].

(** C11: on the product page with [mockProduct] (15 in stock) a reachable
    state holds 30 units of it in the cart: the selector bounds each
    addition by [stockCount], not the quantity already in the cart. *)
Theorem detail_cart_exceeds_stock :
  exists s, reachableDetail Catalog.Detail.mockProduct s /\
    d_stockCount Catalog.Detail.mockProduct < quantityOf "1" (dp_cartItems s).
Proof.
  exists (runDetail Catalog.Detail.mockProduct overStockClicks initDetail).
  split; [apply runDetail_reachable|]. vm_compute. reflexivity.
Qed.

(** ** Witness *)

Lemma detail_reachable_bounds_witness :
  1 <= d_stockCount Catalog.Detail.mockProduct /\ d_images Catalog.Detail.mockProduct <> [] /\
  reachableDetail Catalog.Detail.mockProduct (runDetail Catalog.Detail.mockProduct overStockClicks initDetail) /\
  1 <= dp_quantity (runDetail Catalog.Detail.mockProduct overStockClicks initDetail)
    <= d_stockCount Catalog.Detail.mockProduct.
Proof.
  assert (H1 : 1 <= d_stockCount Catalog.Detail.mockProduct) by (vm_compute; discriminate).
  assert (H2 : d_images Catalog.Detail.mockProduct <> []) by (vm_compute; discriminate).
  assert (H3 : reachableDetail Catalog.Detail.mockProduct
                 (runDetail Catalog.Detail.mockProduct overStockClicks initDetail))
    by apply runDetail_reachable.
  split; [exact H1|]. split; [exact H2|]. split; [exact H3|].
  exact (proj1 (detail_reachable_bounds Catalog.Detail.mockProduct H1 H2 _ H3)).
Defined.
