(* ===== verification/Sort.v ===== *)
(** * [Array.prototype.sort] with a comparator

    [pages/Products.tsx] sorts a copy of its catalog with
    [[...mockProducts].sort((a, b) => ...)].  ECMA-262 (since 2019)
    requires the sort to be stable when the comparator is consistent:
    the result is the permutation of the input that is sorted by the
    comparator and keeps elements that compare equal in their original
    order.  [sort] models it as an insertion sort that places each
    element before the first one it does not exceed; [sort_unique] shows
    that it is the only stable sort, so the model does not depend on the
    algorithm an engine uses, and [filter_sort] that filtering a sorted
    list sorts the filtered list, which [Listing.v] uses.

    A comparator returns a number; [a] may precede [b] when
    [cmp a b <= 0].  The class [Consistent] holds the two facts of
    ECMA-262's consistency requirement the proofs use. *)

From Stdlib Require Import Sorted.
From S2P Require Import Prelude.

(** A consistent comparator: if [a] comes strictly after [b], then [b]
    may come before [a]; and "may come before" is transitive. *)
Class Consistent {A : Type} (cmp : A -> A -> Q) := {
  cmp_flip : forall a b, (0 < cmp a b)%Q -> (cmp b a <= 0)%Q;
  cmp_trans : forall a b c, (cmp a b <= 0)%Q -> (cmp b c <= 0)%Q -> (cmp a c <= 0)%Q
}.

Section Sort.
Context {A : Type} (cmp : A -> A -> Q).

(** [a] may precede [b]: [cmp(a, b) <= 0]. *)
Definition sle (a b : A) : bool := Qle_bool (cmp a b) 0.

(** [a] and [b] compare equal. *)
Definition equivb (a b : A) : bool := sle a b && sle b a.

Fixpoint insert (x : A) (l : list A) : list A :=
  match l with
  | [] => [x]
  | y :: l' => if sle x y then x :: y :: l' else y :: insert x l'
  end.

(** The result of [arr.sort(cmp)]. *)
Definition sort (l : list A) : list A := fold_right insert [] l.

(** The stable sorts of [l]: sorted permutations of [l] in which the
    elements of each class of equal elements keep their order. *)
Definition stableSorted (l l' : list A) : Prop :=
  l' ≡ₚ l /\ Sorted (fun a b => sle a b = true) l' /\
  forall z, List.filter (equivb z) l' = List.filter (equivb z) l.

Context `{!Consistent cmp}.

Lemma sle_total (a b : A) : sle a b = true \/ sle b a = true.
Proof.
  unfold sle. destruct (Qle_bool (cmp a b) 0) eqn:H; [by left|right].
  apply Qle_bool_iff, cmp_flip, Qnot_le_lt. intros Hle. by apply Qle_bool_iff in Hle; rewrite Hle in H.
Qed.

Lemma sle_refl (a : A) : sle a a = true.
Proof. by destruct (sle_total a a). Qed.

Lemma sle_trans (a b c : A) : sle a b = true -> sle b c = true -> sle a c = true.
Proof. unfold sle. rewrite !Qle_bool_iff. apply cmp_trans. Qed.

Lemma sle_false (a b : A) : sle a b = false -> sle b a = true.
Proof. intros H. by destruct (sle_total a b) as [H'|H']; [rewrite H' in H|]. Qed.

(** Two elements equal to a third may precede each other. *)
Lemma equivb_sle (z x y : A) : equivb z x = true -> equivb z y = true -> sle x y = true.
Proof.
  unfold equivb. rewrite !andb_true_iff. intros [_ Hxz] [Hzy _]. by apply (sle_trans _ z).
Qed.

Lemma insert_perm (x : A) (l : list A) : insert x l ≡ₚ x :: l.
Proof.
  induction l as [|y l IH]; simpl; [done|].
  destruct (sle x y); [done|]. rewrite IH. by constructor.
Qed.

Lemma sort_perm (l : list A) : sort l ≡ₚ l.
Proof. induction l as [|x l IH]; simpl; [done|]. by rewrite insert_perm, IH. Qed.

Lemma insert_sorted (x : A) (l : list A) :
  Sorted (fun a b => sle a b = true) l -> Sorted (fun a b => sle a b = true) (insert x l).
Proof.
  induction 1 as [|y l Hl IH Hhd]; simpl; [by repeat constructor|].
  destruct (sle x y) eqn:Hxy; [by repeat constructor|].
  constructor; [exact IH|]. apply sle_false in Hxy.
  destruct l as [|z l]; simpl; [by constructor|]. inversion Hhd; subst.
  destruct (sle x z); by constructor.
Qed.

Lemma sort_sorted (l : list A) : Sorted (fun a b => sle a b = true) (sort l).
Proof. induction l as [|x l IH]; simpl; [constructor|by apply insert_sorted]. Qed.

(** An element is inserted after the elements strictly below it, none of
    which is equal to it. *)
Lemma filter_equivb_insert (z x : A) (l : list A) :
  List.filter (equivb z) (insert x l) = List.filter (equivb z) (x :: l).
Proof.
  induction l as [|y l IH]; [done|]. cbn [insert].
  destruct (sle x y) eqn:Hxy; [done|]. cbn [List.filter] in IH |- *. rewrite IH.
  destruct (equivb z x) eqn:Hzx, (equivb z y) eqn:Hzy; try done.
  by rewrite (equivb_sle z x y Hzx Hzy) in Hxy.
Qed.

Lemma sort_stable (z : A) (l : list A) : List.filter (equivb z) (sort l) = List.filter (equivb z) l.
Proof.
  induction l as [|x l IH]; [done|]. unfold sort in *. cbn [fold_right].
  rewrite filter_equivb_insert. cbn [List.filter]. by rewrite IH.
Qed.

(** Two sorted permutations of each other that agree on the order within
    each class of equal elements are equal. *)
Lemma stable_unique (s1 s2 : list A) :
  Sorted (fun a b => sle a b = true) s1 -> Sorted (fun a b => sle a b = true) s2 -> s1 ≡ₚ s2 ->
  (forall z, List.filter (equivb z) s1 = List.filter (equivb z) s2) -> s1 = s2.
Proof.
  intros H1 H2. apply Sorted_StronglySorted in H1, H2; [|exact sle_trans..].
  revert s2 H2. induction H1 as [|x t1 Ht1 IH Hx]; intros s2 H2 Hp Hf.
  { by apply Permutation_nil in Hp. }
  destruct H2 as [|y t2 Ht2 Hy]; [by apply Permutation_nil_r in Hp|].
  assert (Hxy : equivb x y = true).
  { assert (Hx2 : In x (y :: t2)) by (rewrite <- Hp; left; done).
    assert (Hy1 : In y (x :: t1)) by (rewrite Hp; left; done).
    rewrite Forall_forall in Hx, Hy.
    unfold equivb. apply andb_true_iff.
    destruct Hx2 as [<-|Hx2]; [split; apply sle_refl|].
    destruct Hy1 as [<-|Hy1]; [split; apply sle_refl|].
    split; [apply Hx|apply Hy]; by apply list_elem_of_In. }
  pose proof (Hf x) as Hfx. cbn [List.filter] in Hfx. rewrite Hxy in Hfx.
  unfold equivb in Hfx at 1. rewrite sle_refl in Hfx. simpl in Hfx. injection Hfx as <- Hft.
  f_equal. apply IH; [done|by apply Permutation_cons_inv in Hp|].
  intros z. pose proof (Hf z) as Hz. simpl in Hz. by destruct (equivb z x); [injection Hz|].
Qed.

(** [sort] is the only stable sort of its input. *)
Lemma sort_unique (l l' : list A) : stableSorted l l' -> l' = sort l.
Proof.
  intros (Hp & Hs & Hf). apply stable_unique; [done|apply sort_sorted| |].
  - by rewrite Hp, sort_perm.
  - intros z. by rewrite Hf, sort_stable.
Qed.

(** Filtering a sorted list is sorting the filtered list. *)
Lemma filter_sort (p : A -> bool) (l : list A) :
  List.filter p (sort l) = sort (List.filter p l).
Proof.
  apply sort_unique. split; [|split].
  - apply List_filter_perm, sort_perm.
  - apply StronglySorted_Sorted, StronglySorted_List_filter, Sorted_StronglySorted; [exact sle_trans|].
    apply sort_sorted.
  - intros z. by rewrite !List_filter_comm with (f := equivb z), sort_stable.
Qed.
End Sort.

