(* ===== verification/JsObject.v ===== *)
(** * Plain objects and [Object.entries]

    [ProductDetail.tsx] shows [product.specifications], an object
    literal [{ 'Driver Size': '40mm', ... }], through
    [Object.entries(product.specifications).map(...)].  The order of
    [Object.entries] is ECMA-262's OrdinaryOwnPropertyKeys: first the
    keys that are array indices (the canonical decimal text of an
    integer below [2^32 - 1]) in ascending numeric order, then the other
    string keys in the order they were created.  An object literal
    creates its properties from left to right; a repeated key keeps its
    first position and takes the last value.

    An object with string values is its list of properties in creation
    order.  Proved here: the entries are a permutation of the
    properties with the array indices first and ascending; these facts
    describe the language, and the views of [DetailView.v] rely on
    them. *)

From Stdlib Require Import Sorted Ascii.
From S2P Require Import Prelude Sort.

Open Scope N_scope.

(** An object with string values: its properties in creation order. *)
Abbreviation JsObject := (list (string * string)).

Definition digitOf (c : ascii) : option N :=
  let n := N_of_ascii c in if (48 <=? n) && (n <=? 57) then Some (n - 48) else None.

Fixpoint digitsVal (s : string) (acc : N) : option N :=
  match s with
  | EmptyString => Some acc
  | String c s' => match digitOf c with Some d => digitsVal s' (acc * 10 + d) | None => None end
  end.

(** [P] is an array index: [ToString(ToUint32(P)) === P] and
    [ToUint32(P) !== 2^32 - 1]: decimal digits, no leading zero. *)
Definition arrayIndex (k : string) : option N :=
  match k with
  | EmptyString => None
  | String c rest =>
      if (Ascii.eqb c "0") && negb (rest =s? "") then None
      else match digitsVal k 0 with
           | Some n => if n <? 4294967295 then Some n else None
           | None => None
           end
  end.

Definition isIndexKey (kv : string * string) : bool :=
  match arrayIndex kv.1 with Some _ => true | None => false end.

(** [o[k] = v]: an existing property keeps its place. *)
Definition setProp (o : JsObject) (k v : string) : JsObject :=
  if existsb (fun kv => kv.1 =s? k) o
  then map (fun kv => if kv.1 =s? k then (k, v) else kv) o
  else o ++ [(k, v)].

(** The object an object literal [{ k1: v1, k2: v2, ... }] creates. *)
Definition objLiteral (kvs : list (string * string)) : JsObject :=
  fold_left (fun o kv => setProp o kv.1 kv.2) kvs [].

(** Array indices compared by value. *)
Definition byIndex (a b : string * string) : Q :=
  inject_Z (Z.of_N (default 0 (arrayIndex a.1)) - Z.of_N (default 0 (arrayIndex b.1))).

(** [Object.entries(o)] *)
Definition objectEntries (o : JsObject) : list (string * string) :=
  sort byIndex (List.filter isIndexKey o) ++ List.filter (fun kv => negb (isIndexKey kv)) o.

(** ** Lemmas *)

#[export] Instance byIndex_consistent : Consistent byIndex.
Proof.
  split; unfold byIndex; intros *; change 0%Q with (inject_Z 0);
    rewrite <- ?Zle_Qle, <- ?Zlt_Qlt; lia.
Qed.

(** [Object.entries] lists the object's properties. *)
Lemma objectEntries_perm (o : JsObject) : objectEntries o ≡ₚ o.
Proof.
  unfold objectEntries. rewrite sort_perm.
  induction o as [|kv o IH]; simpl; [done|]. destruct (isIndexKey kv); simpl; [by rewrite IH|].
  rewrite <- Permutation_middle. by rewrite IH.
Qed.

(** ** Theorems *)

(** [Object.entries] lists every property once, the array-index
    keys first in ascending numeric order, then the others in creation
    order. *)
Theorem objectEntries_order (o : JsObject) :
  objectEntries o ≡ₚ o /\
  exists idx, objectEntries o = idx ++ List.filter (fun kv => negb (isIndexKey kv)) o /\
    Forall (fun kv => isIndexKey kv = true) idx /\
    Sorted (fun a b => default 0 (arrayIndex a.1) <= default 0 (arrayIndex b.1)) idx.
Proof.
  split; [apply objectEntries_perm|].
  - eexists. split; [reflexivity|]. split.
    + apply Forall_forall. intros kv Hkv. rewrite (sort_perm byIndex _) in Hkv.
      apply list_elem_of_In, filter_In in Hkv as [_ ?]. done.
    + eapply Sorted_weaken; [|apply sort_sorted, _]. intros a b Hab.
      unfold sle, byIndex in Hab. apply Qle_bool_iff in Hab. change 0%Q with (inject_Z 0) in Hab.
      rewrite <- Zle_Qle in Hab. lia.
Qed.

(** On a literal with a repeated key and two array-index keys: the
    indices come first ascending, the repeated key keeps its first place
    and its last value; ["01"] and ["4294967295"] are not indices. *)
Example objectEntries_example :
  objectEntries (objLiteral [("b", "1"); ("2", "x"); ("a", "2"); ("1", "y"); ("b", "3")]) =
    [("1", "y"); ("2", "x"); ("b", "3"); ("a", "2")] /\
  arrayIndex "01" = None /\ arrayIndex "4294967295" = None /\ arrayIndex "4294967294" = Some 4294967294.
Proof. vm_compute. repeat split. Qed.

