(* ===== verification/DetailView.v ===== *)
(** * The product page's view

    What [pages/ProductDetail.tsx] renders from its state: the main
    image [product.images[selectedImage]], the thumbnails (the one with
    [selectedImage === index] framed), the badge, the stars
    ([renderStars]), the rating line, the price block (struck list price
    and [% OFF] badge under [{product.discount && ...}]), the quantity
    selector, the stock line, the "Add to Cart" button
    ([disabled={!product.inStock}]), and the three tabs ([Features],
    [Specifications] through [Object.entries], [Reviews] over the
    [reviews] array).  The tabs component keeps the active value,
    initially [defaultValue="features"]; the view takes it as an
    argument.

    Proved here: in every reachable state exactly one thumbnail is
    framed and it is the main image; every line of the page's cart is a
    line of this product and the drawer shows it at the page's price;
    and the initial page of [mockProduct] as computed. *)

From stdpp Require Import pretty.
From S2P Require Import Prelude Catalog Jsx Cart Handlers Drawer Header Rating DetailPage Sort JsObject.

Open Scope Z_scope.

(** An element of the [reviews] array. *)
Record Review := mkReview {
  r_id : Z;
  r_author : string;
  r_rating : Z;
  r_comment : string;
  r_date : string
}.

(** [const reviews] *)
Definition reviews : list Review := [
  mkReview 1 "John D." 5 "Amazing sound quality and comfort. Worth every penny!" "2024-01-15";
  mkReview 2 "Sarah M." 4 "Great headphones, but the case could be better." "2024-01-10";
  mkReview 3 "Mike R." 5 "Best purchase I've made this year. Highly recommend!" "2024-01-05"
]%string.

(** One review: author, [renderStars(review.rating)], date, comment. *)
Definition reviewView (r : Review) : string * list Glyph * string * string :=
  (r_author r, renderStars (inject_Z (r_rating r)), r_date r, r_comment r).

Inductive TabContent :=
| FeaturesTab (items : list string)
| SpecificationsTab (entries : list (string * string))
| ReviewsTab (items : list (string * list Glyph * string * string))
| NoTab.

(** The [<TabsTrigger value=...>]s and [defaultValue]. *)
Definition tabValues : list string := ["features"; "specifications"; "reviews"].
Definition defaultTab : string := "features".

(** The [<TabsContent>] whose [value] is the active one. *)
Definition tabContent (product : DetailProduct) (active : string) : TabContent :=
  if active =s? "features" then FeaturesTab (d_features product)
  else if active =s? "specifications" then
    SpecificationsTab (objectEntries (objLiteral (d_specifications product)))
  else if active =s? "reviews" then ReviewsTab (map reviewView reviews)
  else NoTab.

Record PageView := mkPageView {
  pv_cartBadge : option Z;              (** [<Header cartItemsCount={cartItemsCount}>] *)
  pv_mainImage : option string;         (** [src={product.images[selectedImage]}] *)
  pv_thumbs : list (string * bool);     (** [product.images.map((image, index) => ...)] *)
  pv_badge : Node string;
  pv_name : string;
  pv_stars : list Glyph;
  pv_rating : Q;                        (** [{product.rating} ({product.reviewCount} reviews)] *)
  pv_reviewCount : Z;
  pv_strike : Node string;
  pv_price : string;
  pv_discountBadge : Node Q;            (** [{product.discount}% OFF] *)
  pv_description : string;
  pv_quantity : Z;
  pv_inStockDot : bool;                 (** [bg-green-500] or [bg-red-500] *)
  pv_stockText : string;
  pv_addDisabled : bool;
  pv_tab : TabContent
}.

(** The page's markup, from its state and the active tab. *)
Definition renderDetail (product : DetailProduct) (s : DetailState) (active : string) : PageView :=
  {| pv_cartBadge := cartBadge (Detail.cartItemsCount (dp_cartItems s));
     pv_mainImage := d_images product !! dp_selectedImage s;
     pv_thumbs := imap (fun index image => (image, Nat.eqb (dp_selectedImage s) index)) (d_images product);
     pv_badge := jsxAndOpt JStr (d_badge product) (fun b => b);
     pv_name := d_name product;
     pv_stars := renderStars (d_rating product);
     pv_rating := d_rating product;
     pv_reviewCount := d_reviewCount product;
     pv_strike := jsxAndOpt JNum (d_discount product) (fun _ => toFixed2 (d_price product));
     pv_price := toFixed2 (Detail.discountedPrice product);
     pv_discountBadge := jsxAndOpt JNum (d_discount product) (fun d => d);
     pv_description := d_description product;
     pv_quantity := dp_quantity s;
     pv_inStockDot := d_inStock product;
     pv_stockText := if d_inStock product
                     then ("In Stock (" ++ pretty (d_stockCount product) ++ " available)")%string
                     else "Out of Stock"%string;
     pv_addDisabled := negb (d_inStock product);
     pv_tab := tabContent product active |}.

(** ** Lemmas *)

Lemma thumbs_none_selected (l : list string) :
  List.filter snd (imap (fun _ image => (image, false)) l) = [].
Proof. induction l as [|x l IH]; [done|]. rewrite imap_cons. exact IH. Qed.

(** The framed thumbnails: the one at [selectedImage], if any. *)
Lemma thumbs_selected (sel : nat) (l : list string) :
  List.filter snd (imap (fun index image => (image, Nat.eqb sel index)) l) =
    match l !! sel with Some x => [(x, true)] | None => [] end.
Proof.
  revert sel. induction l as [|x l IH]; intros sel; [done|]. rewrite imap_cons.
  destruct sel as [|sel]; simpl.
  - f_equal. exact (thumbs_none_selected l).
  - exact (IH sel).
Qed.

Lemma Forall_item_mapItem (p : Product) (i : string) (f : CartItem -> CartItem) (c : Cart) :
  (forall x, item (f x) = item x) -> Forall (fun it => item it = p) c ->
  Forall (fun it => item it = p) (mapItem i f c).
Proof.
  intros Hf Hc. unfold mapItem. apply Forall_map. eapply Forall_impl; [exact Hc|].
  intros it Hit. by case_match; rewrite ?Hf.
Qed.

Lemma Forall_item_addLine (p : Product) (n : Z) (c : Cart) :
  Forall (fun it => item it = p) c -> Forall (fun it => item it = p) (addLine p n c).
Proof.
  intros Hc. unfold addLine. case_match.
  - by apply Forall_item_mapItem.
  - apply Forall_app. split; [done|by constructor].
Qed.

Lemma Forall_item_dispatch (p : Product) (k : Intent) (c : Cart) (o : bool) :
  Forall (fun it => item it = p) c -> Forall (fun it => item it = p) (dispatch Detail.callbacks k c o).1.1.
Proof.
  intros Hc. destruct k as [i q|i|]; simpl; [|by apply Forall_List_filter|done].
  unfold Detail.handleUpdateQuantity. case_match; [by apply Forall_List_filter|].
  by apply Forall_item_mapItem.
Qed.

(** Every line of the product page's cart is a line of its product. *)
Lemma detail_lines (product : DetailProduct) (s : DetailState) :
  reachableDetail product s -> Forall (fun it => item it = Detail.toProduct product) (dp_cartItems s).
Proof.
  intros Hr. refine (star_inv _ (fun s => Forall (fun it => item it = Detail.toProduct product) (dp_cartItems s))
                       _ _ _ Hr (Forall_nil_2 _)).
  intros s0 s1 Hc Hs. inversion Hs as [s2 e He]; subst.
  destruct e as [index| | | | |k]; simpl; try done.
  - pose proof (Detail_add_cart product (dp_quantity s0) (dp_cartItems s0)) as Ha.
    destruct (Detail.handleAddToCart product _ _) as [c ts]. simpl in *. subst c.
    by apply Forall_item_addLine.
  - pose proof (Forall_item_dispatch _ k _ (dp_isCartOpen s0) Hc) as Hd.
    by destruct (dispatch Detail.callbacks k _ _) as [[c ts] o].
Qed.

(** ** Theorems *)

(** C15: for a product with stock and images, in every reachable state
    of the product page exactly one thumbnail is framed, it is the main
    image, and the selector shows a quantity between 1 and the stock. *)
Theorem detail_view_thumbs (product : DetailProduct) (s : DetailState) (active : string) :
  1 <= d_stockCount product -> d_images product <> [] -> reachableDetail product s ->
  exists img, pv_mainImage (renderDetail product s active) = Some img /\
    List.filter snd (pv_thumbs (renderDetail product s active)) = [(img, true)] /\
    1 <= pv_quantity (renderDetail product s active) <= d_stockCount product.
Proof.
  intros Hstock Himages Hr.
  destruct (star_inv _ (detailInv product) (detailInv_step product Hstock) _ _ Hr
              (detailInv_init product Hstock Himages)) as (Hq & Hi & _).
  apply lookup_lt_is_Some_2 in Hi as [img Himg].
  exists img. cbn [renderDetail pv_mainImage pv_thumbs pv_quantity].
  rewrite thumbs_selected, Himg. done.
Qed.

(** C16: in every reachable state of the product page, every line of
    the cart is a line of the page's product: the drawer shows it with
    the product's id and the name, price and struck price the page shows,
    and the line's image is the product's first image. *)
Theorem detail_drawer_price (product : DetailProduct) (s : DetailState) (active : string) :
  reachableDetail product s ->
  Forall (fun it => lv_id (renderLine it) = d_id product /\
                    lv_name (renderLine it) = pv_name (renderDetail product s active) /\
                    lv_price (renderLine it) = pv_price (renderDetail product s active) /\
                    lv_strikePrice (renderLine it) = pv_strike (renderDetail product s active) /\
                    image (item it) = default ""%string (d_images product !! 0%nat))
         (dp_cartItems s).
Proof.
  intros Hr. eapply Forall_impl; [exact (detail_lines product s Hr)|].
  intros it Hit. cbn [renderLine renderDetail lv_id lv_name lv_price lv_strikePrice pv_name pv_price pv_strike].
  unfold linePrice, ci_id. rewrite Hit. split_and!; try done.
  cbn. unfold Detail.firstImage. by destruct (d_images product).
Qed.

(** The product page of [mockProduct] as first rendered: the first
    image framed, the badge, four of five stars, the struck list price
    and the 20 % badge, the stock line, the features tab; the
    specifications tab lists the specifications in the literal's order
    and the reviews tab draws five, four and five stars. *)
Example detail_initial_view :
  pv_mainImage (renderDetail Catalog.Detail.mockProduct initDetail defaultTab) = head (d_images Catalog.Detail.mockProduct) /\
  map snd (pv_thumbs (renderDetail Catalog.Detail.mockProduct initDetail defaultTab)) = [true; false; false] /\
  pv_badge (renderDetail Catalog.Detail.mockProduct initDetail defaultTab) = NEl "Best Seller"%string /\
  pv_stars (renderDetail Catalog.Detail.mockProduct initDetail defaultTab) = stars 4 /\
  pv_strike (renderDetail Catalog.Detail.mockProduct initDetail defaultTab) = NEl "79.99"%string /\
  pv_price (renderDetail Catalog.Detail.mockProduct initDetail defaultTab) = "63.99"%string /\
  pv_discountBadge (renderDetail Catalog.Detail.mockProduct initDetail defaultTab) = NEl 20%Q /\
  pv_stockText (renderDetail Catalog.Detail.mockProduct initDetail defaultTab) = "In Stock (15 available)"%string /\
  pv_addDisabled (renderDetail Catalog.Detail.mockProduct initDetail defaultTab) = false /\
  pv_tab (renderDetail Catalog.Detail.mockProduct initDetail defaultTab) = FeaturesTab (d_features Catalog.Detail.mockProduct) /\
  pv_tab (renderDetail Catalog.Detail.mockProduct initDetail "specifications") =
    SpecificationsTab (d_specifications Catalog.Detail.mockProduct) /\
  (exists items, pv_tab (renderDetail Catalog.Detail.mockProduct initDetail "reviews") = ReviewsTab items /\
     map (fun x => x.1.1.2) items = [stars 5; stars 4; stars 5]).
Proof. vm_compute. repeat split; eexists; split; reflexivity. Qed.

(** ** Witnesses *)

(** Two clicks on [+], the second thumbnail, "Add to Cart", the cart. *)
Definition sampleDetailClicks : list DetailEvent :=
  [ClickPlus; ClickPlus; ClickThumb 1; ClickAddToCart; ClickCartButton].

Lemma detail_view_thumbs_witness :
  1 <= d_stockCount Catalog.Detail.mockProduct /\ d_images Catalog.Detail.mockProduct <> [] /\
  reachableDetail Catalog.Detail.mockProduct (runDetail Catalog.Detail.mockProduct sampleDetailClicks initDetail) /\
  exists img, pv_mainImage (renderDetail Catalog.Detail.mockProduct
                 (runDetail Catalog.Detail.mockProduct sampleDetailClicks initDetail) defaultTab) = Some img.
Proof.
  assert (H1 : 1 <= d_stockCount Catalog.Detail.mockProduct) by (vm_compute; discriminate).
  assert (H2 : d_images Catalog.Detail.mockProduct <> []) by (vm_compute; discriminate).
  assert (H3 : reachableDetail Catalog.Detail.mockProduct
                 (runDetail Catalog.Detail.mockProduct sampleDetailClicks initDetail))
    by apply runDetail_reachable.
  split; [exact H1|split; [exact H2|split; [exact H3|]]].
  destruct (detail_view_thumbs _ _ defaultTab H1 H2 H3) as (img & Himg & _). by exists img.
Defined.

Lemma detail_drawer_price_witness :
  reachableDetail Catalog.Detail.mockProduct (runDetail Catalog.Detail.mockProduct sampleDetailClicks initDetail) /\
  Forall (fun it => lv_price (renderLine it) = "63.99"%string)
    (dp_cartItems (runDetail Catalog.Detail.mockProduct sampleDetailClicks initDetail)).
Proof.
  assert (H : reachableDetail Catalog.Detail.mockProduct
                (runDetail Catalog.Detail.mockProduct sampleDetailClicks initDetail))
    by apply runDetail_reachable.
  split; [exact H|]. eapply Forall_impl; [exact (detail_drawer_price _ _ defaultTab H)|].
  intros it (_ & _ & -> & _). vm_compute. reflexivity.
Defined.
