(* ===== verification/Listing.v ===== *)
(** * The products page listing: sort and filter

    [pages/Products.tsx] keeps two more pieces of state, [sortBy]
    ([useState('name')]) and [filterBy] ([useState('all')]), set by two
    [<select>]s, and shows
    [sortedProducts = [...mockProducts].sort(cmp)] filtered by
    [filterBy].  The comparator compares prices or ratings by their
    difference and names by [localeCompare]; the host's collation is a
    parameter satisfying [Collator], with the code-unit order of
    [String.compare] as an instance (on the names of the mock catalog it
    orders as the root collation does).

    Proved here: the listing is the filtered catalog, each product once,
    sorted by the selected key, ties in catalog order; filtering after
    sorting is sorting after filtering; and the page with its selects
    refines the products page of [Session.v], so every cart theorem of
    the card pages holds for it. *)

From Stdlib Require Import Sorted.
From S2P Require Import Prelude Catalog Cart Handlers Drawer Session Sort.

Open Scope Z_scope.

(** [a.localeCompare(b)]: negative, zero or positive, consistently. *)
Class Collator (localeCompare : string -> string -> Z) := {
  lc_flip : forall a b, 0 < localeCompare a b -> localeCompare b a <= 0;
  lc_trans : forall a b c, localeCompare a b <= 0 -> localeCompare b c <= 0 -> localeCompare a c <= 0
}.

(** Comparison by UTF-16 code units. *)
Definition codeUnitCompare (a b : string) : Z :=
  match String.compare a b with Lt => -1 | Eq => 0 | Gt => 1 end.

(** The comparator of [sortedProducts]: the [switch (sortBy)]. *)
Definition sortCompare (localeCompare : string -> string -> Z) (sortBy : string) (a b : Product) : Q :=
  if sortBy =s? "price-low" then (price a - price b)%Q
  else if sortBy =s? "price-high" then (price b - price a)%Q
  else if sortBy =s? "rating" then (rating b - rating a)%Q
  else ⌜localeCompare (name a) (name b)⌝.

(** [const sortedProducts = [...mockProducts].sort(...)]; the spread
    copies the catalog, which is not modified. *)
Definition sortedProducts (localeCompare : string -> string -> Z) (sortBy : string)
    (cat : list Product) : list Product :=
  sort (sortCompare localeCompare sortBy) cat.

(** The callback of [sortedProducts.filter]: [product.discount] is
    tested for truthiness, [product.badge === 'New'] for equality. *)
Definition filterProduct (filterBy : string) (product : Product) : bool :=
  if filterBy =s? "all" then true
  else if filterBy =s? "discounted" then
    match discount product with Some d => num_truthy d | None => false end
  else if filterBy =s? "new" then
    match badge product with Some b => b =s? "New" | None => false end
  else true.

Definition filteredProducts (localeCompare : string -> string -> Z) (sortBy filterBy : string)
    (cat : list Product) : list Product :=
  List.filter (filterProduct filterBy) (sortedProducts localeCompare sortBy cat).

(** [filteredProducts.length === 0]: the "No products found" message. *)
Definition noneFound (localeCompare : string -> string -> Z) (sortBy filterBy : string)
    (cat : list Product) : bool :=
  Nat.eqb (length (filteredProducts localeCompare sortBy filterBy cat)) 0.

(** The [<option value=...>]s of the two selects. *)
Definition sortOptions : list string := ["name"; "price-low"; "price-high"; "rating"].
Definition filterOptions : list string := ["all"; "discounted"; "new"].

(** ** Comparators *)

#[export] Instance codeUnit_collator : Collator codeUnitCompare.
Proof.
  assert (Hle : forall a b, codeUnitCompare a b <= 0 <-> String.le a b).
  { intros a b. unfold codeUnitCompare, String.le, String.leb.
    destruct (String.compare a b); split; done || lia. }
  split.
  - intros a b Hab. apply Hle. destruct (total String.le b a) as [?|Hba]; [done|].
    apply Hle in Hba. lia.
  - intros a b c Hab Hbc. apply Hle. apply Hle in Hab, Hbc. by etrans.
Qed.

Lemma inject_Z_le_0 (z : Z) : (⌜z⌝ <= 0)%Q <-> z <= 0.
Proof. change 0%Q with ⌜0⌝. rewrite <- Zle_Qle. done. Qed.

Lemma inject_Z_lt_0 (z : Z) : (0 < ⌜z⌝)%Q <-> 0 < z.
Proof. change 0%Q with ⌜0⌝. rewrite <- Zlt_Qlt. done. Qed.

#[export] Instance sortCompare_consistent (lc : string -> string -> Z) `{!Collator lc} (sortBy : string) :
  Consistent (sortCompare lc sortBy).
Proof.
  unfold sortCompare. split.
  - intros a b. repeat case_match; rewrite ?inject_Z_lt_0, ?inject_Z_le_0; try lra. apply lc_flip.
  - intros a b c. repeat case_match; rewrite ?inject_Z_le_0; try lra. apply lc_trans.
Qed.

(** What [sle] means for each option of the sort select. *)
Lemma sle_sortCompare (lc : string -> string -> Z) (sortBy : string) (a b : Product) :
  sle (sortCompare lc sortBy) a b = true <->
  if sortBy =s? "price-low" then (price a <= price b)%Q
  else if sortBy =s? "price-high" then (price b <= price a)%Q
  else if sortBy =s? "rating" then (rating b <= rating a)%Q
  else lc (name a) (name b) <= 0.
Proof.
  unfold sle, sortCompare. rewrite Qle_bool_iff.
  repeat case_match; rewrite ?inject_Z_le_0; split; intros; lra || done.
Qed.

(** The listing sorted, as a sort of the filtered catalog. *)
Lemma filteredProducts_sort (lc : string -> string -> Z) `{!Collator lc} (sortBy filterBy : string)
    (cat : list Product) :
  filteredProducts lc sortBy filterBy cat = sort (sortCompare lc sortBy) (List.filter (filterProduct filterBy) cat).
Proof. apply filter_sort, _. Qed.

(** ** The page with its selects *)

Record ListingState := mkListingState {
  lpage : PageState;       (** [cartItems], [isCartOpen], the toasts *)
  sortBy : string;
  filterBy : string
}.

Definition initListing : ListingState := mkListingState initState "name" "all".

Inductive ListingEvent :=
| SelectSort (value : string)      (** [onChange={(e) => setSortBy(e.target.value)}] *)
| SelectFilter (value : string)    (** [onChange={(e) => setFilterBy(e.target.value)}] *)
| PageClick (e : Event).           (** a card, the header's cart button or the drawer *)

Section Page.
Context (lc : string -> string -> Z).

(** The cards on screen are those of [filteredProducts]; the selects
    offer their options; the drawer, when open, covers the page. *)
Definition listingEnabled (s : ListingState) (e : ListingEvent) : bool :=
  match e with
  | SelectSort v => negb (isCartOpen (lpage s)) && bool_decide (v ∈ sortOptions)
  | SelectFilter v => negb (isCartOpen (lpage s)) && bool_decide (v ∈ filterOptions)
  | PageClick (ClickAdd p) =>
      negb (isCartOpen (lpage s)) &&
      bool_decide (p ∈ filteredProducts lc (sortBy s) (filterBy s) Catalog.Products.mockProducts)
  | PageClick e => enabledb ProductsPage (lpage s) e
  end.

Definition listingHandle (s : ListingState) (e : ListingEvent) : ListingState :=
  match e with
  | SelectSort v => mkListingState (lpage s) v (filterBy s)
  | SelectFilter v => mkListingState (lpage s) (sortBy s) v
  | PageClick e => mkListingState (handle ProductsPage (lpage s) e) (sortBy s) (filterBy s)
  end.

Inductive listing_step : ListingState -> ListingState -> Prop :=
| listing_click s e : listingEnabled s e = true -> listing_step s (listingHandle s e).

Definition reachableListing (s : ListingState) : Prop := star listing_step initListing s.

Fixpoint runListing (evs : list ListingEvent) (s : ListingState) : ListingState :=
  match evs with
  | [] => s
  | e :: evs => runListing evs (if listingEnabled s e then listingHandle s e else s)
  end.
End Page.

Lemma runListing_reachable (lc : string -> string -> Z) (evs : list ListingEvent) (s : ListingState) :
  star (listing_step lc) s (runListing lc evs s).
Proof.
  revert s. induction evs as [|e evs IH]; intros s; simpl; [constructor|].
  destruct (listingEnabled lc s e) eqn:He; [|apply IH].
  eapply star_step; [by constructor|apply IH].
Qed.

(** Every product on screen is one of the catalog. *)
Lemma filteredProducts_elem (lc : string -> string -> Z) (sortBy filterBy : string)
    (cat : list Product) (p : Product) :
  p ∈ filteredProducts lc sortBy filterBy cat -> p ∈ cat.
Proof.
  unfold filteredProducts, sortedProducts. rewrite !list_elem_of_In, filter_In.
  intros [Hp _]. apply list_elem_of_In. rewrite <- (sort_perm (sortCompare lc sortBy) cat). by apply list_elem_of_In.
Qed.

(** A click of the listing page is a click of the products page, or
    leaves its state alone. *)
Lemma listing_step_page (lc : string -> string -> Z) (s s' : ListingState) :
  listing_step lc s s' -> lpage s' = lpage s \/ step ProductsPage (lpage s) (lpage s').
Proof.
  intros Hs. inversion Hs as [s1 e He]; subst. destruct e as [v|v|e]; [by left|by left|right].
  constructor. destruct e as [p| |k]; simpl in *; [|done|done].
  apply andb_true_iff in He as [Ho Hp]. rewrite Ho. simpl.
  apply bool_decide_eq_true in Hp. apply bool_decide_eq_true. by eapply filteredProducts_elem.
Qed.

(** The states of the listing project to states of the products page. *)
Lemma listing_page_reachable (lc : string -> string -> Z) (s : ListingState) :
  reachableListing lc s -> reachable ProductsPage (lpage s).
Proof.
  unfold reachableListing, reachable. intros Hr.
  change initState with (lpage initListing). revert Hr. generalize initListing.
  induction 1 as [s0|s0 s1 s2 Hs _ IH]; [constructor|].
  destruct (listing_step_page lc s0 s1 Hs) as [<-|Hp]; [done|]. by eapply star_step.
Qed.

(** ** Theorems *)

(** C19: Each option of the sort select orders the listing by its key:
    ascending price, descending price, descending rating, and names by
    [localeCompare] for ["name"] and any other value. *)
Theorem listing_order (lc : string -> string -> Z) `{!Collator lc} (filterBy : string) (cat : list Product) :
  Sorted (fun a b => price a <= price b)%Q (filteredProducts lc "price-low" filterBy cat) /\
  Sorted (fun a b => price b <= price a)%Q (filteredProducts lc "price-high" filterBy cat) /\
  Sorted (fun a b => rating b <= rating a)%Q (filteredProducts lc "rating" filterBy cat) /\
  (forall sortBy, sortBy ∉ ["price-low"; "price-high"; "rating"] ->
     Sorted (fun a b => lc (name a) (name b) <= 0) (filteredProducts lc sortBy filterBy cat)).
Proof.
  assert (H : forall sortBy, Sorted (fun a b => sle (sortCompare lc sortBy) a b = true)
                                    (filteredProducts lc sortBy filterBy cat)).
  { intros sortBy. rewrite filteredProducts_sort by done. apply sort_sorted, _. }
  split; [|split; [|split]]; [..|intros sortBy Hs];
    (eapply Sorted_weaken; [|apply H]); intros a b Hab%sle_sortCompare; [done..|].
  rewrite !elem_of_cons in Hs. repeat (case_match; string_cases); [naive_solver..|done].
Qed.

(** C14: The products page with its selects refines the products page of
    [Session.v]: every state it reaches projects to a reachable state of
    the card page, so the cart theorems proved there hold for it. *)
Theorem listing_refines (lc : string -> string -> Z) (s : ListingState) :
  reachableListing lc s -> reachable ProductsPage (lpage s).
Proof. apply listing_page_reachable. Qed.

(** On the mock catalog with code-unit collation: the ids shown for each
    sort option, the two filters, and that the "No products found"
    message never shows for any pair of options. *)
Example listing_mock :
  map id (sortedProducts codeUnitCompare "name" Catalog.Products.mockProducts) = ["3"; "2"; "6"; "5"; "1"; "4"] /\
  map id (sortedProducts codeUnitCompare "price-low" Catalog.Products.mockProducts) = ["5"; "6"; "4"; "3"; "1"; "2"] /\
  map id (sortedProducts codeUnitCompare "price-high" Catalog.Products.mockProducts) = ["2"; "1"; "3"; "4"; "6"; "5"] /\
  map id (sortedProducts codeUnitCompare "rating" Catalog.Products.mockProducts) = ["2"; "6"; "4"; "1"; "5"; "3"] /\
  map id (filteredProducts codeUnitCompare "name" "discounted" Catalog.Products.mockProducts) = ["3"; "1"] /\
  map id (filteredProducts codeUnitCompare "name" "new" Catalog.Products.mockProducts) = ["2"] /\
  forallb (fun sb => forallb (fun fb => negb (noneFound codeUnitCompare sb fb Catalog.Products.mockProducts))
                             filterOptions) sortOptions = true.
Proof. repeat match goal with |- _ /\ _ => split end; vm_compute; reflexivity. Qed.

(** ** Witnesses *)

Definition sampleListingClicks : list ListingEvent :=
  [SelectFilter "discounted"; SelectSort "price-high"; PageClick (ClickAdd (nth 2 Catalog.Products.mockProducts headphones));
   PageClick ClickCart].

Lemma listing_order_witness :
  Sorted (fun a b => price a <= price b)%Q (filteredProducts codeUnitCompare "price-low" "all" Catalog.Products.mockProducts).
Proof. exact (proj1 (listing_order codeUnitCompare "all" Catalog.Products.mockProducts)). Defined.

Lemma listing_refines_witness :
  reachableListing codeUnitCompare (runListing codeUnitCompare sampleListingClicks initListing) /\
  reachable ProductsPage (lpage (runListing codeUnitCompare sampleListingClicks initListing)).
Proof.
  assert (H : reachableListing codeUnitCompare (runListing codeUnitCompare sampleListingClicks initListing))
    by apply runListing_reachable.
  split; [exact H|exact (listing_refines codeUnitCompare _ H)].
Defined.
