(* ===== verification/Contact.v ===== *)
(** * The contact form

    [pages/Contact.tsx] keeps the form in one object,
    [formData = { name, email, subject, message }], updated by
    [handleInputChange] ([{ ...prev, [e.target.name]: e.target.value }])
    and reset by [handleSubmit], which also emits the toast
    "Message sent!".  The object is a finite map from field name to
    value ([gmap string string]); the inputs are the four fields of the
    markup, each [required], the second of [type="email"].  The browser
    submits the form only when every required field is non-empty and the
    email field holds an address ([validEmail], the host's check, a
    parameter).

    The page's cart, drawer and toasts are those of a static page
    ([Session.StaticPage], [cartItems={[]}] with no-op callbacks): the
    state is the form and the page state, the clicks are the form's and
    the page's, and the drawer's backdrop covers the form while it is
    open.

    Proved here: the form always has exactly the four fields; typing
    changes the typed field only, and reading it back gives the typed
    value; an enabled submit clears every field and emits one toast;
    and from every reachable state the form can be filled and sent. *)

From stdpp Require Import gmap.
From S2P Require Import Prelude Handlers Drawer Session.

Abbreviation FormData := (gmap string string).

(** The [name] attributes of the form's inputs, in markup order. *)
Definition fieldNames : list string := ["name"; "email"; "subject"; "message"].

(** [useState({ name: '', email: '', subject: '', message: '' })] *)
Definition initForm : FormData := list_to_map ((fun f => (f, ""%string)) <$> fieldNames).

(** [handleInputChange]: the change event of the input named [field]
    with value [value]. *)
Definition handleInputChange (field value : string) (prev : FormData) : FormData :=
  <[field := value]> prev.

Definition sentToast : Toast := mkToast "Message sent!" "We'll get back to you within 24 hours.".

(** [handleSubmit]: [e.preventDefault()], the toast, then
    [setFormData({ name: '', email: '', subject: '', message: '' })]. *)
Definition handleSubmit (prev : FormData) : FormData * list Toast := (initForm, [sentToast]).

(** [value={formData.<field>}]: what the input shows. *)
Definition fieldValue (form : FormData) (field : string) : string := default ""%string (form !! field).

Record ContactState := mkContactState {
  formData : FormData;
  cpage : PageState                 (** [cartItems], [isCartOpen], the toasts *)
}.

Definition contactToasts (s : ContactState) : list Toast := toasts (cpage s).

Definition initContact : ContactState := mkContactState initForm initState.

Inductive ContactEvent :=
| TypeInto (field value : string)   (** a change event of the input [field] *)
| SubmitForm                        (** the "Send Message" button *)
| ContactPage (e : Event).          (** the header's cart button or the drawer *)

Section Form.
Context (validEmail : string -> bool).

(** Constraint validation of the form: every [required] field filled,
    the [type="email"] field an address. *)
Definition formValid (form : FormData) : bool :=
  forallb (fun f => negb (String.eqb (fieldValue form f) "")) fieldNames &&
  validEmail (fieldValue form "email").

Definition contactEnabled (s : ContactState) (e : ContactEvent) : bool :=
  match e with
  | TypeInto field _ => negb (isCartOpen (cpage s)) && bool_decide (field ∈ fieldNames)
  | SubmitForm => negb (isCartOpen (cpage s)) && formValid (formData s)
  | ContactPage e => enabledb StaticPage (cpage s) e
  end.

Definition contactHandle (s : ContactState) (e : ContactEvent) : ContactState :=
  match e with
  | TypeInto field value => mkContactState (handleInputChange field value (formData s)) (cpage s)
  | SubmitForm =>
      let '(f, ts) := handleSubmit (formData s) in
      mkContactState f (mkPageState (cartItems (cpage s)) (isCartOpen (cpage s)) (toasts (cpage s) ++ ts))
  | ContactPage e => mkContactState (formData s) (handle StaticPage (cpage s) e)
  end.

Inductive contact_step : ContactState -> ContactState -> Prop :=
| contact_click s e : contactEnabled s e = true -> contact_step s (contactHandle s e).

Definition reachableContact (s : ContactState) : Prop := star contact_step initContact s.

Fixpoint runContact (evs : list ContactEvent) (s : ContactState) : ContactState :=
  match evs with
  | [] => s
  | e :: evs => runContact evs (if contactEnabled s e then contactHandle s e else s)
  end.
End Form.

(** ** Lemmas *)

Lemma dom_initForm : dom initForm = list_to_set fieldNames.
Proof. unfold initForm, fieldNames. simpl. rewrite !dom_insert_L, dom_empty_L. set_solver. Qed.

Lemma runContact_reachable (validEmail : string -> bool) (evs : list ContactEvent) (s : ContactState) :
  star (contact_step validEmail) s (runContact validEmail evs s).
Proof.
  revert s. induction evs as [|e evs IH]; intros s; simpl; [constructor|].
  destruct (contactEnabled validEmail s e) eqn:He; [|apply IH].
  eapply star_step; [by constructor|apply IH].
Qed.

Lemma contact_step_dom (validEmail : string -> bool) (s s' : ContactState) :
  dom (formData s) = list_to_set fieldNames -> contact_step validEmail s s' ->
  dom (formData s') = list_to_set fieldNames.
Proof.
  intros Hd Hs. inversion Hs as [s1 e He]; subst. destruct e as [field value| |e]; simpl in *.
  - apply andb_true_iff in He as [_ He]. apply bool_decide_eq_true in He.
    unfold handleInputChange. rewrite dom_insert_L, Hd.
    apply list_elem_of_In in He. simpl in He |- *.
    destruct He as [<-|[<-|[<-|[<-|[]]]]]; set_solver.
  - apply dom_initForm.
  - done.
Qed.

(** The static page's clicks emit no toast. *)
Lemma static_handle_toasts (ps : PageState) (e : Event) :
  toasts (handle StaticPage ps e) = toasts ps.
Proof.
  destruct e as [p| |[i q|i|]]; simpl; by rewrite ?app_nil_r.
Qed.

(** The drawer, when open, can be closed: its backdrop is enabled. *)
Lemma close_enabled (ps : PageState) :
  isCartOpen ps = true -> enabledb StaticPage ps (ClickDrawer CallClose) = true.
Proof. intros Ho. simpl. by rewrite Ho. Qed.

(** From any state, the form is reachable: the drawer closed, the form
    and the toasts unchanged. *)
Lemma contact_close_first (validEmail : string -> bool) (s : ContactState) :
  exists s0, star (contact_step validEmail) s s0 /\ isCartOpen (cpage s0) = false /\
    formData s0 = formData s /\ contactToasts s0 = contactToasts s.
Proof.
  destruct (isCartOpen (cpage s)) eqn:Ho; [|exists s; by repeat split; [constructor|..]].
  exists (contactHandle s (ContactPage (ClickDrawer CallClose))).
  split; [apply star_one; constructor; exact (close_enabled _ Ho)|].
  unfold contactToasts. simpl. by rewrite app_nil_r.
Qed.

(** The form [handleSubmit] resets to: the four fields, each empty. *)
Lemma initForm_lookup (g : string) :
  initForm !! g = if bool_decide (g ∈ fieldNames) then Some ""%string else None.
Proof.
  case_bool_decide as Hg.
  - apply list_elem_of_In in Hg. simpl in Hg. by destruct Hg as [<-|[<-|[<-|[<-|[]]]]].
  - apply not_elem_of_dom. rewrite dom_initForm. by rewrite elem_of_list_to_set.
Qed.

Lemma fieldValue_insert (form : FormData) (f g v : string) :
  fieldValue (<[f := v]> form) g = if f =s? g then v else fieldValue form g.
Proof.
  unfold fieldValue. destruct (String.eqb_spec f g) as [<-|Hne].
  - by rewrite lookup_insert_eq.
  - by rewrite lookup_insert_ne.
Qed.

(** The events that fill the four fields, [email] with [e], the others
    with ["x"]. *)
Definition fillForm (e : string) : list ContactEvent :=
  [TypeInto "name" "x"; TypeInto "email" e; TypeInto "subject" "x"; TypeInto "message" "x"].

Lemma fillForm_run (validEmail : string -> bool) (e : string) (s : ContactState) :
  isCartOpen (cpage s) = false ->
  formData (runContact validEmail (fillForm e) s) =
    <["message" := "x"]> (<["subject" := "x"]> (<["email" := e]> (<["name" := "x"]> (formData s)))) /\
  cpage (runContact validEmail (fillForm e) s) = cpage s.
Proof. intros Ho. repeat progress (simpl; rewrite ?Ho). done. Qed.

(** ** Theorems *)

(** C22: In every reachable state the form object has exactly the fields
    [name], [email], [subject] and [message], and every toast the page
    emitted is "Message sent!". *)
Theorem contact_fields (validEmail : string -> bool) (s : ContactState) :
  reachableContact validEmail s ->
  dom (formData s) = list_to_set fieldNames /\ Forall (fun t => t = sentToast) (contactToasts s).
Proof.
  intros Hr. refine (star_inv _ (fun s => dom (formData s) = list_to_set fieldNames /\
                                          Forall (fun t => t = sentToast) (contactToasts s)) _ _ _ Hr _).
  - intros s0 s1 [Hd Ht] Hs. split; [by eapply contact_step_dom|].
    inversion Hs as [s2 e He]; subst. unfold contactToasts in *.
    destruct e; simpl; [done| |by rewrite static_handle_toasts].
    apply Forall_app; split; [done|by constructor].
  - split; [apply dom_initForm|constructor].
Qed.

(** C24: From any state, closing the drawer if it is open, filling the
    four fields with a valid address and pressing "Send Message" sends
    the message: the form is cleared and the toast is emitted. *)
Theorem contact_can_send (validEmail : string -> bool) (e : string) (s : ContactState) :
  validEmail e = true -> e <> ""%string ->
  exists s', star (contact_step validEmail) s s' /\
    formData s' = initForm /\ contactToasts s' = contactToasts s ++ [sentToast].
Proof.
  intros Hv He. destruct (contact_close_first validEmail s) as (s0 & Hs0 & Ho & _ & Ht).
  set (s1 := runContact validEmail (fillForm e) s0).
  destruct (fillForm_run validEmail e s0 Ho) as [Hf1 Hp1].
  assert (Hen : contactEnabled validEmail s1 SubmitForm = true).
  { unfold s1. cbn [contactEnabled]. rewrite Hp1, Ho. unfold formValid. rewrite Hf1.
    cbn [forallb fieldNames]. rewrite !fieldValue_insert. simpl. rewrite Hv. by destruct (String.eqb_spec e ""). }
  exists (contactHandle s1 SubmitForm). split; [|split; [done|]].
  - eapply star_trans; [exact Hs0|]. eapply star_trans; [apply runContact_reachable|].
    by apply star_one; constructor.
  - unfold contactToasts in *. cbn [contactHandle handleSubmit cpage toasts]. unfold s1. by rewrite Hp1, <- Ht.
Qed.

(** ** Witnesses *)

(** An address check for the witnesses: one ["@"] that is neither first
    nor last. *)
Definition hasAt (e : string) : bool :=
  match String.index 0 "@" e with
  | Some n => negb (Nat.eqb n 0) && Nat.ltb (S n) (String.length e)
  | None => false
  end.

Lemma contact_fields_witness :
  reachableContact hasAt (runContact hasAt (fillForm "a@b" ++ [SubmitForm]) initContact) /\
  contactToasts (runContact hasAt (fillForm "a@b" ++ [SubmitForm]) initContact) = [sentToast].
Proof.
  assert (H : reachableContact hasAt (runContact hasAt (fillForm "a@b" ++ [SubmitForm]) initContact))
    by apply runContact_reachable.
  split; [exact H|]. pose proof (proj2 (contact_fields hasAt _ H)) as Ht.
  vm_compute. reflexivity.
Defined.

Lemma contact_can_send_witness :
  hasAt "a@b" = true /\ "a@b"%string <> ""%string /\
  exists s', star (contact_step hasAt) initContact s' /\
    formData s' = initForm /\ contactToasts s' = [sentToast].
Proof.
  assert (Hv : hasAt "a@b" = true) by reflexivity.
  assert (He : "a@b"%string <> ""%string) by discriminate.
  split; [exact Hv|split; [exact He|]].
  exact (contact_can_send hasAt "a@b" initContact Hv He).
Defined.
