(* ===== verification/Updates.v ===== *)
(** * The update queue of [useState] and effects inside updaters

    [setCartItems(prev => ...)] does not change the cart at once: it puts
    the updater function on the hook's queue, and React applies the
    queued updaters to the state when it renders.  React expects
    updaters to be pure and may invoke one more than once on the same
    previous state: StrictMode invokes every updater twice in
    development, and React re-runs an update that it rebases.  Only the
    last result is kept, but each invocation runs the function's body.

    The model keeps these effects visible.  [Writer] is a value paired
    with the toasts emitted while computing it (a writer monad, with
    stdpp's [MRet]/[MBind]); an updater is a [Cart -> Writer Cart].  A
    handler is the sequence of calls its body makes ([Action]): queueing
    an updater or showing a toast.  [click n h prev] runs handler [h]:
    its own toasts are emitted while it runs, then [processQueue] applies
    the queued updaters in order, each invoked [n + 1] times.

    The Store page calls [toast] inside its add updater
    (Store.tsx:88-108); Products.tsx and ProductDetail.tsx call it after
    [setCartItems].  The modules [StoreQueue], [ProductsQueue] and
    [DetailQueue] write each page's handlers as actions.  Proved here:
    with one invocation each handler is the function of [Handlers.v]
    (so the theorems about those carry over); with any number of
    invocations the cart is the same, but the Store page shows its
    "Added to cart" toast once per invocation while the other pages show
    theirs once. *)

From stdpp Require Import pretty.
From S2P Require Import Prelude Catalog Cart Handlers.

Open Scope Z_scope.

(** ** A writer monad for toasts *)

Record Writer (A : Type) := mkWriter { val : A; trace : list Toast }.
Arguments mkWriter {A} val trace.
Arguments val {A} w.
Arguments trace {A} w.

#[export] Instance writer_ret : MRet Writer := fun A a => mkWriter a [].
#[export] Instance writer_bind : MBind Writer :=
  fun A B k m => let b := k (val m) in mkWriter (val b) (trace m ++ trace b).

(** [toast({ title, description })] *)
Definition toast (t : Toast) : Writer unit := mkWriter tt [t].

Lemma val_ret {A} (a : A) : val (mret (M := Writer) a) = a.
Proof. done. Qed.

Lemma trace_ret {A} (a : A) : trace (mret (M := Writer) a) = [].
Proof. done. Qed.

Lemma val_bind {A B} (m : Writer A) (k : A -> Writer B) : val (m ≫= k) = val (k (val m)).
Proof. done. Qed.

Lemma trace_bind {A B} (m : Writer A) (k : A -> Writer B) :
  trace (m ≫= k) = trace m ++ trace (k (val m)).
Proof. done. Qed.

#[export] Hint Rewrite @val_ret @trace_ret @val_bind @trace_bind : shop.

(** The monad laws: left and right identity and associativity. *)
Lemma writer_left_id {A B} (a : A) (k : A -> Writer B) : mret a ≫= k = k a.
Proof. cbv [mbind writer_bind mret writer_ret]. simpl. by destruct (k a). Qed.

Lemma writer_right_id {A} (m : Writer A) : m ≫= mret = m.
Proof. destruct m. cbv [mbind writer_bind mret writer_ret val trace]. by rewrite app_nil_r. Qed.

Lemma writer_assoc {A B C} (m : Writer A) (k : A -> Writer B) (g : B -> Writer C) :
  (m ≫= k) ≫= g = m ≫= (fun a => k a ≫= g).
Proof. unfold mbind, writer_bind. simpl. by rewrite app_assoc. Qed.

(** ** The hook's queue *)

Definition Updater := Cart -> Writer Cart.

(** What a handler's body does, in order. *)
Inductive Action :=
| SetCartItems (u : Updater)     (** [setCartItems(prev => ...)] *)
| ShowToast (t : Toast).         (** [toast({ ... })] *)

Definition Handler := list Action.

(** The updaters a handler queues, in order. *)
Fixpoint queued (h : Handler) : list Updater :=
  match h with
  | [] => []
  | SetCartItems u :: h' => u :: queued h'
  | ShowToast _ :: h' => queued h'
  end.

(** The toasts a handler's body shows while it runs. *)
Fixpoint shown (h : Handler) : list Toast :=
  match h with
  | [] => []
  | SetCartItems _ :: h' => shown h'
  | ShowToast t :: h' => t :: shown h'
  end.

(** An updater invoked [n + 1] times on the same previous state: every
    invocation runs, the last result is kept. *)
Fixpoint invoke (n : nat) (u : Updater) (prev : Cart) : Writer Cart :=
  match n with
  | O => u prev
  | S n' => u prev ≫= fun _ => invoke n' u prev
  end.

(** The render that processes the queue: each updater gets the state the
    previous one produced. *)
Fixpoint processQueue (n : nat) (q : list Updater) (s : Cart) : Writer Cart :=
  match q with
  | [] => mret s
  | u :: q' => invoke n u s ≫= processQueue n q'
  end.

(** A click on a button whose [onClick] is the handler [h]: the new cart
    and every toast shown, in order. *)
Definition click (n : nat) (h : Handler) (prev : Cart) : Cart * list Toast :=
  let w := processQueue n (queued h) prev in (val w, shown h ++ trace w).

(** ** The pages' handlers as actions *)

Module StoreQueue.
(** The updater of [handleAddToCart]: it calls [toast] itself. *)
Definition addUpdater (product : Product) : Updater := fun prev =>
  match findItem (id product) prev with
  | Some _ => toast (Store.addedToast product true) ;; mret (mapItem (id product) (bump 1) prev)
  | None => toast (Store.addedToast product false) ;; mret (prev ++ [newLine product 1])
  end.

Definition handleAddToCart (product : Product) : Handler := [SetCartItems (addUpdater product)].

Definition handleRemoveItem (i : string) : Handler :=
  [SetCartItems (fun prev => mret (removeItem i prev));
   ShowToast (mkToast "Removed from cart" "Item has been removed from your cart")].

(** [if (quantity <= 0) { handleRemoveItem(id); return; }] *)
Definition handleUpdateQuantity (i : string) (quantity : Z) : Handler :=
  if quantity <=? 0 then handleRemoveItem i
  else [SetCartItems (fun prev => mret (mapItem i (withQuantity quantity) prev))].
End StoreQueue.

Module ProductsQueue.
Definition handleAddToCart (product : Product) : Handler :=
  [SetCartItems (fun prevItems => mret (addLine product 1 prevItems));
   ShowToast (mkToast "Added to cart" (name product ++ " has been added to your cart."))].

Definition handleUpdateQuantity (i : string) (quantity : Z) : Handler :=
  if quantity =? 0 then [SetCartItems (fun prevItems => mret (removeItem i prevItems))]
  else [SetCartItems (fun prevItems => mret (mapItem i (withQuantity quantity) prevItems))].

Definition handleRemoveItem (i : string) : Handler :=
  [SetCartItems (fun prevItems => mret (removeItem i prevItems))].
End ProductsQueue.

Module DetailQueue.
(** [handleAddToCart] with the selector's [quantity] [q]. *)
Definition handleAddToCart (product : DetailProduct) (q : Z) : Handler :=
  [SetCartItems (fun prevItems => mret (addLine (Detail.toProduct product) q prevItems));
   ShowToast (mkToast "Added to cart" (pretty q ++ " " ++ d_name product ++ " added to your cart."))].

Definition handleUpdateQuantity (i : string) (newQuantity : Z) : Handler :=
  if newQuantity =? 0 then [SetCartItems (fun prevItems => mret (removeItem i prevItems))]
  else [SetCartItems (fun prevItems => mret (mapItem i (withQuantity newQuantity) prevItems))].

Definition handleRemoveItem (i : string) : Handler :=
  [SetCartItems (fun prevItems => mret (removeItem i prevItems))].
End DetailQueue.

(** ** Lemmas *)

(** An updater that shows no toast on its input. *)
Definition silent (u : Updater) : Prop := forall s, trace (u s) = [].

Lemma invoke_val (n : nat) (u : Updater) (prev : Cart) : val (invoke n u prev) = val (u prev).
Proof. induction n as [|n IH]; [done|]. by autorewrite with shop. Qed.

Lemma invoke_trace (n : nat) (u : Updater) (prev : Cart) :
  trace (invoke n u prev) = concat (replicate (S n) (trace (u prev))).
Proof.
  induction n as [|n IH]; simpl; [by rewrite app_nil_r|].
  autorewrite with shop. by rewrite IH.
Qed.

Lemma writer_eq {A} (w1 w2 : Writer A) : val w1 = val w2 -> trace w1 = trace w2 -> w1 = w2.
Proof. destruct w1, w2; simpl. by intros -> ->. Qed.

Lemma concat_replicate_nil {A} (n : nat) : concat (replicate n (@nil A)) = [].
Proof. by induction n. Qed.

Lemma invoke_silent (n : nat) (u : Updater) (prev : Cart) :
  silent u -> invoke n u prev = u prev.
Proof.
  intros Hu. apply writer_eq; [apply invoke_val|].
  by rewrite invoke_trace, Hu, concat_replicate_nil.
Qed.

Lemma silent_ret (f : Cart -> Cart) : silent (fun s => mret (f s)).
Proof. done. Qed.

#[export] Hint Resolve silent_ret : shop.

(** The cart a queue produces does not depend on how often each updater
    is invoked. *)
Lemma processQueue_val (n : nat) (q : list Updater) (s : Cart) :
  val (processQueue n q s) = val (processQueue 0 q s).
Proof.
  revert s. induction q as [|u q IH]; intros s; [done|]. simpl.
  autorewrite with shop. by rewrite invoke_val, IH.
Qed.

Lemma processQueue_silent (n : nat) (q : list Updater) (s : Cart) :
  Forall silent q -> processQueue n q s = processQueue 0 q s.
Proof.
  intros Hq. revert s. induction Hq as [|u q Hu Hq IH]; intros s; [done|].
  cbn [processQueue invoke]. rewrite invoke_silent by done. unfold mbind, writer_bind. by rewrite IH.
Qed.

Lemma click_silent (n : nat) (h : Handler) (c : Cart) :
  Forall silent (queued h) -> click n h c = click 0 h c.
Proof. intros Hq. unfold click. cbv zeta. by rewrite processQueue_silent. Qed.

(** A handler that queues one updater. *)
Lemma click_one (n : nat) (h : Handler) (u : Updater) (c : Cart) :
  queued h = [u] -> click n h c = (val (u c), shown h ++ trace (invoke n u c)).
Proof.
  intros Hq. unfold click. cbv zeta. rewrite Hq. cbn [processQueue].
  by rewrite writer_right_id, invoke_val.
Qed.

Ltac queue_cases :=
  repeat match goal with
  | |- context [if ?b then _ else _] => destruct b
  | |- context [match findItem ?i ?c with _ => _ end] => destruct (findItem i c)
  end.

(** Every handler but the Store page's add queues silent updaters. *)
Lemma silent_handlers (p : Product) (d : DetailProduct) (q k : Z) (i : string) :
  Forall silent (queued (StoreQueue.handleUpdateQuantity i k)) /\
  Forall silent (queued (StoreQueue.handleRemoveItem i)) /\
  Forall silent (queued (ProductsQueue.handleAddToCart p)) /\
  Forall silent (queued (ProductsQueue.handleUpdateQuantity i k)) /\
  Forall silent (queued (ProductsQueue.handleRemoveItem i)) /\
  Forall silent (queued (DetailQueue.handleAddToCart d q)) /\
  Forall silent (queued (DetailQueue.handleUpdateQuantity i k)) /\
  Forall silent (queued (DetailQueue.handleRemoveItem i)).
Proof.
  unfold StoreQueue.handleUpdateQuantity, ProductsQueue.handleUpdateQuantity,
    DetailQueue.handleUpdateQuantity.
  queue_cases; split_and!; cbn [queued]; repeat (constructor || apply silent_ret).
Qed.

(** With one invocation, the Store page's add is [Store.handleAddToCart]. *)
Lemma store_add_once (p : Product) (c : Cart) :
  click 0 (StoreQueue.handleAddToCart p) c = Store.handleAddToCart p c.
Proof.
  rewrite (click_one 0 (StoreQueue.handleAddToCart p) (StoreQueue.addUpdater p) c eq_refl).
  unfold StoreQueue.addUpdater, Store.handleAddToCart. cbn [invoke]. by queue_cases.
Qed.

Lemma store_once (i : string) (q : Z) (c : Cart) :
  click 0 (StoreQueue.handleUpdateQuantity i q) c = Store.handleUpdateQuantity i q c /\
  click 0 (StoreQueue.handleRemoveItem i) c = Store.handleRemoveItem i c.
Proof.
  unfold StoreQueue.handleUpdateQuantity, Store.handleUpdateQuantity.
  split; queue_cases; reflexivity.
Qed.

Lemma products_once (p : Product) (i : string) (q : Z) (c : Cart) :
  click 0 (ProductsQueue.handleAddToCart p) c = Products.handleAddToCart p c /\
  click 0 (ProductsQueue.handleUpdateQuantity i q) c = Products.handleUpdateQuantity i q c /\
  click 0 (ProductsQueue.handleRemoveItem i) c = Products.handleRemoveItem i c.
Proof.
  unfold ProductsQueue.handleUpdateQuantity, Products.handleUpdateQuantity.
  split_and!; queue_cases; reflexivity.
Qed.

Lemma detail_once (d : DetailProduct) (q : Z) (i : string) (k : Z) (c : Cart) :
  click 0 (DetailQueue.handleAddToCart d q) c = Detail.handleAddToCart d q c /\
  click 0 (DetailQueue.handleUpdateQuantity i k) c = Detail.handleUpdateQuantity i k c /\
  click 0 (DetailQueue.handleRemoveItem i) c = Detail.handleRemoveItem i c.
Proof.
  unfold DetailQueue.handleUpdateQuantity, Detail.handleUpdateQuantity.
  split_and!; queue_cases; reflexivity.
Qed.

(** Every invocation of the Store page's add updater shows its toast. *)
Lemma store_add_invocations (n : nat) (p : Product) (c : Cart) :
  click n (StoreQueue.handleAddToCart p) c =
  (fst (Store.handleAddToCart p c), concat (replicate (S n) (snd (Store.handleAddToCart p c)))).
Proof.
  rewrite <- store_add_once.
  rewrite !(click_one _ (StoreQueue.handleAddToCart p) (StoreQueue.addUpdater p) c eq_refl).
  by rewrite invoke_trace.
Qed.

(** ** Theorems *)

(** C13: invoking updaters again, as StrictMode and rebasing do: for
    any number [n + 1] of invocations of each queued updater, the Store
    page's add gives the cart of one invocation but shows its "Added to
    cart" toast [n + 1] times (it is called inside the updater), while
    every other handler of the three pages gives its cart and shows its
    toasts exactly once. *)
Theorem updater_reinvocation (n : nat) (p : Product) (d : DetailProduct) (i : string) (q k : Z) (c : Cart) :
  click n (StoreQueue.handleAddToCart p) c =
    (fst (Store.handleAddToCart p c), concat (replicate (S n) (snd (Store.handleAddToCart p c)))) /\
  click n (StoreQueue.handleUpdateQuantity i k) c = Store.handleUpdateQuantity i k c /\
  click n (StoreQueue.handleRemoveItem i) c = Store.handleRemoveItem i c /\
  click n (ProductsQueue.handleAddToCart p) c = Products.handleAddToCart p c /\
  click n (ProductsQueue.handleUpdateQuantity i k) c = Products.handleUpdateQuantity i k c /\
  click n (ProductsQueue.handleRemoveItem i) c = Products.handleRemoveItem i c /\
  click n (DetailQueue.handleAddToCart d q) c = Detail.handleAddToCart d q c /\
  click n (DetailQueue.handleUpdateQuantity i k) c = Detail.handleUpdateQuantity i k c /\
  click n (DetailQueue.handleRemoveItem i) c = Detail.handleRemoveItem i c.
Proof.
  destruct (silent_handlers p d q k i) as (H1 & H2 & H3 & H4 & H5 & H6 & H7 & H8).
  rewrite (click_silent n _ c H1), (click_silent n _ c H2), (click_silent n _ c H3),
    (click_silent n _ c H4), (click_silent n _ c H5), (click_silent n _ c H6),
    (click_silent n _ c H7), (click_silent n _ c H8).
  destruct (store_once i k c), (products_once p i k c) as (? & ? & ?), (detail_once d q i k c) as (? & ? & ?).
  split_and!; auto using store_add_invocations.
Qed.

(** Under StrictMode ([n = 1]), adding the headphones to the empty cart
    on the Store page shows "has been added to your cart" twice; on the
    Products page once. *)
Example store_strict_mode_twice :
  click 1 (StoreQueue.handleAddToCart headphones) [] =
    ([newLine headphones 1], [Store.addedToast headphones false; Store.addedToast headphones false]) /\
  length (snd (click 1 (ProductsQueue.handleAddToCart headphones) [])) = 1%nat.
Proof. split; vm_compute; reflexivity. Qed.
