(* ===== verification/Pages.v ===== *)
(** * The static content of the pages and the store page's view

    [components/HeroSection.tsx], the arrays [teamMembers] and [values]
    of [pages/About.tsx], and [contactMethods] and [faqs] of
    [pages/Contact.tsx] hold the pages' fixed content; the pages render
    the arrays with [array.map((x, index) => <Card key={index}>...)].
    Text spread over several source lines is one JSX text: each line is
    trimmed and the lines are joined by one space, as the JSX transform
    does.  Emoji are the UTF-8 bytes of the source.

    [Module Hero], [Module About] and [Module ContactInfo] hold the data
    as records and the views as functions of them; [renderAbout] and
    [renderStore] compose the views of a whole page from the header, the
    page's own sections and the drawer, over the page state of
    [Session.v].  Proved here: what the cards show (every image is
    described by the name it shows, every card keeps its array's order);
    that in every reachable state of the store page the header's badge
    agrees with the open drawer; and that the contact form's inputs are
    controlled by [formData], showing what is typed and emptied by
    "Send Message". *)

From stdpp Require Import pretty.
From S2P Require Import Prelude Catalog Jsx Cart Handlers Drawer Header Rating CardView Categories Session Contact.

Open Scope Z_scope.

(** ** The hero section *)

Module Hero.
(** A statistic: [<div>{value}</div><div>{label}</div>]. *)
Record Stat := mkStat { st_value : string; st_label : string }.

Record HeroView := mkHeroView {
  hv_heading : string * string;       (** [Discover Amazing <span>Products</span>] *)
  hv_text : string;
  hv_buttons : list (string * option unit);  (** label and [onClick] *)
  hv_stats : list Stat;
  hv_image : string * string;         (** [src], [alt] *)
  hv_offer : string * string          (** [50%] and [OFF] *)
}.

(** [HeroSection()] *)
Definition heroSection : HeroView :=
  {| hv_heading := ("Discover Amazing", "Products");
     hv_text := "Shop from thousands of products with fast delivery, secure payments, and unbeatable prices. Your satisfaction is our priority.";
     hv_buttons := [("Shop Now", None); ("View Categories", None)];
     hv_stats := [mkStat "10K+" "Products"; mkStat "50K+" "Happy Customers"; mkStat "4.8" "Rating"];
     hv_image := ("https://images.unsplash.com/photo-1556742049-0cfed4f6a45d?auto=format&fit=crop&q=80&w=400&h=300",
                  "Featured Products");
     hv_offer := ("50%", "OFF") |}%string.
End Hero.

(** ** The about page *)

Module About.
Record TeamMember := mkTeamMember {
  tm_name : string; tm_role : string; tm_image : string; tm_description : string
}.

Definition teamMembers : list TeamMember := [
  mkTeamMember "Sarah Johnson" "CEO & Founder"
    "https://images.unsplash.com/photo-1494790108755-2616b612b692?w=300&h=300&fit=crop"
    "Visionary leader with 15+ years in e-commerce";
  mkTeamMember "Michael Chen" "CTO"
    "https://images.unsplash.com/photo-1472099645785-5658abf4ff4e?w=300&h=300&fit=crop"
    "Tech innovator driving our digital transformation";
  mkTeamMember "Emily Rodriguez" "Head of Design"
    "https://images.unsplash.com/photo-1438761681033-6461ffad8d80?w=300&h=300&fit=crop"
    "Creative mind behind our user experience"]%string.

Record Value := mkValue { v_title : string; v_description : string; v_icon : string }.

Definition values : list Value := [
  mkValue "Quality First" "We source only the finest products from trusted suppliers worldwide" "⭐";
  mkValue "Customer Focus" "Your satisfaction is our top priority in everything we do" "❤️";
  mkValue "Innovation" "Constantly evolving to bring you the latest and greatest" "🚀";
  mkValue "Sustainability" "Committed to environmentally responsible business practices" "🌱"]%string.

(** The stats section. *)
Definition stats : list Hero.Stat :=
  [Hero.mkStat "500K+" "Happy Customers"; Hero.mkStat "10K+" "Products";
   Hero.mkStat "50+" "Countries"; Hero.mkStat "99.8%" "Satisfaction Rate"]%string.

(** [<Card key={index}>] of the values section. *)
Record ValueCard := mkValueCard { vc_key : nat; vc_icon : string; vc_title : string; vc_description : string }.

(** [<Card key={index}>] of the team section: the image, the name, the
    role badge and the description. *)
Record TeamCard := mkTeamCard {
  tc_key : nat; tc_src : string; tc_alt : string; tc_title : string; tc_badge : string; tc_description : string
}.

(** [values.map((value, index) => ...)] *)
Definition renderValues : list ValueCard :=
  imap (fun index value => mkValueCard index (v_icon value) (v_title value) (v_description value)) values.

(** [teamMembers.map((member, index) => ...)] *)
Definition renderTeam : list TeamCard :=
  imap (fun index member => mkTeamCard index (tm_image member) (tm_name member) (tm_name member)
                              (tm_role member) (tm_description member)) teamMembers.

Record AboutView := mkAboutView {
  av_header : HeaderView;
  av_heading : string * string;       (** [<h1>] and the paragraph under it *)
  av_stats : list Hero.Stat;
  av_story : string * list string;    (** "Our Story" and its paragraphs *)
  av_storyImage : string * string;    (** [src], [alt] *)
  av_values : string * list ValueCard;
  av_team : string * list TeamCard;
  av_ctaText : string * string;       (** "Join Our Journey" and its paragraph *)
  av_cta : string * option unit;      (** the "Start Shopping Today" button and its [onClick] *)
  av_drawer : option DrawerView
}.

(** [About()] in page state [s]: the header gets [cartItemsCount={0}],
    the drawer the page's [cartItems] and [isCartOpen]. *)
Definition renderAbout (s : PageState) (isMenuOpen : bool) : AboutView :=
  {| av_header := renderHeader 0 isMenuOpen;
     av_heading := ("About ShopHub",
       "Founded in 2020, ShopHub has grown from a small startup to a leading online marketplace, connecting customers with quality products from around the world. Our mission is to make online shopping simple, secure, and enjoyable for everyone.");
     av_stats := stats;
     av_story := ("Our Story",
       ["What started as a passion project in a small garage has evolved into a global e-commerce platform serving millions of customers worldwide. Our founders recognized the need for a more personalized, trustworthy online shopping experience.";
        "Today, we work with thousands of sellers and brands to offer an unparalleled selection of products, from everyday essentials to unique finds you won't discover anywhere else.";
        "We're committed to innovation, sustainability, and most importantly, putting our customers first in everything we do."]);
     av_storyImage := ("https://images.unsplash.com/photo-1552664730-d307ca884978?w=600&h=400&fit=crop",
                       "Our team at work");
     av_values := ("Our Values", renderValues);
     av_team := ("Meet Our Team", renderTeam);
     av_ctaText := ("Join Our Journey",
       "Be part of our growing community of satisfied customers. Experience the difference of shopping with a company that truly cares about your experience.");
     av_cta := ("Start Shopping Today", None);
     av_drawer := Drawer.render (isCartOpen s) (cartItems s) |}%string.
End About.

(** ** The contact page's content *)

Module ContactInfo.
Record ContactMethod := mkContactMethod {
  cm_title : string; cm_description : string; cm_contact : string; cm_icon : string
}.

Definition contactMethods : list ContactMethod := [
  mkContactMethod "Email Support" "Get help via email within 24 hours" "support@shophub.com" "📧";
  mkContactMethod "Phone Support" "Speak with our team directly" "+1 (555) 123-4567" "📞";
  mkContactMethod "Live Chat" "Chat with us in real-time" "Available 9 AM - 6 PM PST" "💬";
  mkContactMethod "Visit Our Store" "Come see us in person" "123 Commerce St, San Francisco, CA" "📍"]%string.

Record Faq := mkFaq { faq_question : string; faq_answer : string }.

Definition faqs : list Faq := [
  mkFaq "What is your return policy?"
    "We offer a 30-day return policy for all items in original condition.";
  mkFaq "How long does shipping take?"
    "Standard shipping takes 3-5 business days, express shipping takes 1-2 days.";
  mkFaq "Do you ship internationally?"
    "Yes, we ship to over 50 countries worldwide with various shipping options.";
  mkFaq "How can I track my order?"
    "You will receive a tracking number via email once your order ships."]%string.

(** The rows of the "Business Hours" card: day and hours. *)
Definition businessHours : list (string * string) :=
  [("Monday - Friday", "9:00 AM - 6:00 PM PST"); ("Saturday", "10:00 AM - 4:00 PM PST");
   ("Sunday", "Closed")]%string.

(** [<Card key={index}>] of the contact methods: icon, title,
    description, contact. *)
Record MethodCard := mkMethodCard {
  mc_key : nat; mc_icon : string; mc_title : string; mc_description : string; mc_contact : string
}.

Record FaqCard := mkFaqCard { fc_key : nat; fc_title : string; fc_text : string }.

(** [contactMethods.map((method, index) => ...)] *)
Definition renderMethods : list MethodCard :=
  imap (fun index method => mkMethodCard index (cm_icon method) (cm_title method)
                              (cm_description method) (cm_contact method)) contactMethods.

(** [faqs.map((faq, index) => ...)] *)
Definition renderFaqs : list FaqCard :=
  imap (fun index faq => mkFaqCard index (faq_question faq) (faq_answer faq)) faqs.
(** An input of the form: [<label htmlFor>], its [type] ([None] for the
    [<Textarea>]), [id] and [name], [value={formData.<name>}] and
    [placeholder]. *)
Record FormField := mkFormField {
  ff_label : string * string;       (** [htmlFor] and the label's text *)
  ff_type : option string;
  ff_id : string;
  ff_name : string;
  ff_value : string;
  ff_placeholder : string
}.

(** The four inputs of [<form onSubmit={handleSubmit}>], in markup order. *)
Definition renderForm (formData : FormData) : list FormField :=
  [mkFormField ("name", "Full Name") (Some "text") "name" "name" (fieldValue formData "name") "Your full name";
   mkFormField ("email", "Email Address") (Some "email") "email" "email" (fieldValue formData "email")
     "your.email@example.com";
   mkFormField ("subject", "Subject") (Some "text") "subject" "subject" (fieldValue formData "subject")
     "What is this regarding?";
   mkFormField ("message", "Message") None "message" "message" (fieldValue formData "message")
     "Tell us how we can help you..."]%string.

Record ContactView := mkContactView {
  ctv_header : HeaderView;
  ctv_heading : string * string;             (** "Contact Us" and the paragraph under it *)
  ctv_methods : list MethodCard;
  ctv_form : string * string * list FormField * string;  (** title, text, inputs, submit label *)
  ctv_faqs : string * list FaqCard;
  ctv_hours : string * list (string * string);
  ctv_map : string * string * string * string * string;  (** title, text, icon, placeholder, address *)
  ctv_drawer : option DrawerView
}.

(** [Contact()] in state [s]. *)
Definition renderContact (s : ContactState) (isMenuOpen : bool) : ContactView :=
  {| ctv_header := renderHeader 0 isMenuOpen;
     ctv_heading := ("Contact Us",
       "Have a question, concern, or just want to say hello? We're here to help! Reach out to us using any of the methods below.");
     ctv_methods := renderMethods;
     ctv_form := ("Send us a Message",
                 "Fill out the form below and we'll get back to you as soon as possible.",
                 renderForm (formData s), "Send Message");
     ctv_faqs := ("Frequently Asked Questions", renderFaqs);
     ctv_hours := ("Business Hours", businessHours);
     ctv_map := ("Visit Our Headquarters",
                "Located in the heart of San Francisco, we welcome visitors during business hours.",
                "🗺️", "Interactive map would be displayed here",
                "123 Commerce Street, San Francisco, CA 94102");
     ctv_drawer := Drawer.render (isCartOpen (cpage s)) (cartItems (cpage s)) |}%string.
End ContactInfo.

(** ** The store page *)

Record StoreView := mkStoreView {
  sv_header : HeaderView;
  sv_hero : Hero.HeroView;
  sv_sidebar : list SidebarButton;
  sv_showing : string;
  sv_grid : list CardView;
  sv_drawer : option DrawerView
}.

(** [Store()] in page state [s]: the header gets [totalCartItems], the
    grid one card per [mockProducts] entry, the drawer the cart. *)
Definition renderStore (s : PageState) (isMenuOpen : bool) : StoreView :=
  {| sv_header := renderHeader (Store.totalCartItems (cartItems s)) isMenuOpen;
     sv_hero := Hero.heroSection;
     sv_sidebar := renderSidebar;
     sv_showing := showingText;
     sv_grid := renderGrid Catalog.Store.mockProducts;
     sv_drawer := Drawer.render (isCartOpen s) (cartItems s) |}.

(** ** Lemmas *)

(** The [i]-th team card shows the [i]-th member: the photo [member.image]
    described by the name the card shows, the role and the description. *)
Lemma renderTeam_lookup (i : nat) (m : About.TeamMember) :
  About.teamMembers !! i = Some m ->
  About.renderTeam !! i = Some (About.mkTeamCard i (About.tm_image m) (About.tm_name m) (About.tm_name m)
                                 (About.tm_role m) (About.tm_description m)).
Proof. intros Hm. unfold About.renderTeam. by rewrite list_lookup_imap, Hm. Qed.

(** The [i]-th contact card shows the [i]-th method, the [i]-th FAQ card
    the [i]-th question and its answer. *)
Lemma renderContact_lookup (i : nat) :
  ContactInfo.renderMethods !! i =
    (fun m => ContactInfo.mkMethodCard i (ContactInfo.cm_icon m) (ContactInfo.cm_title m)
                (ContactInfo.cm_description m) (ContactInfo.cm_contact m)) <$> ContactInfo.contactMethods !! i /\
  ContactInfo.renderFaqs !! i =
    (fun q => ContactInfo.mkFaqCard i (ContactInfo.faq_question q) (ContactInfo.faq_answer q)) <$> ContactInfo.faqs !! i.
Proof. split; apply list_lookup_imap. Qed.

(** The buttons of the hero section and the about page's call to action
    have no [onClick]; the about page's header never shows a badge. *)
Example static_buttons_inert (s : PageState) (o : bool) :
  Forall (fun b => b.2 = None) (Hero.hv_buttons Hero.heroSection) /\
  (About.av_cta (About.renderAbout s o)).2 = None /\
  hv_cartBadge (About.av_header (About.renderAbout s o)) = NEmpty.
Proof. split; [repeat constructor|split; [done|reflexivity]]. Qed.

(** On the store page the header's badge and the open drawer agree in
    every reachable state: the badge shows the drawer's item count when
    the drawer lists lines, and nothing when it shows the empty cart. *)
Lemma store_view_badges (s : PageState) (o : bool) (dv : DrawerView) :
  reachable StorePage s -> sv_drawer (renderStore s o) = Some dv ->
  (hv_cartBadge (sv_header (renderStore s o)) = NEl (dv_badge dv) /\ exists ls, dv_body dv = LinesBody ls) \/
  (hv_cartBadge (sv_header (renderStore s o)) = NEmpty /\ dv_body dv = EmptyBody CallClose).
Proof.
  intros Hr Hd. pose proof (star_wf StorePage initState s Hr wf_nil) as Hwf.
  cbn [renderStore sv_drawer sv_header hv_cartBadge renderHeader] in *.
  unfold Drawer.render in Hd. destruct (isCartOpen s); [|done]. injection Hd as <-. cbn [dv_badge dv_body].
  destruct (cartItems s) as [|it c] eqn:Hc; [right; split; reflexivity|left].
  assert (Hpos : 0 < totalItems (it :: c)) by (apply totalItems_pos; [done|discriminate]).
  split; [|by eexists]. unfold jsxAnd. simpl truthy. change (Store.totalCartItems (it :: c)) with (totalItems (it :: c)).
  by rewrite (proj2 (Z.ltb_lt _ _) Hpos).
Qed.

(** ** Theorems *)


(** C23: the contact form's inputs are controlled by [formData]: after
    a change event of the input named [field], the input of that name
    shows the typed value and every other input what it showed before;
    after "Send Message", every input shows the empty string and the
    form object holds exactly the four fields, each empty. *)
Theorem contact_form_roundtrip (s : ContactState) (field value : string) :
  Forall2 (fun before after => ContactInfo.ff_name after = ContactInfo.ff_name before /\
             ContactInfo.ff_value after =
               if ContactInfo.ff_name before =s? field then value else ContactInfo.ff_value before)
    (ContactInfo.renderForm (formData s))
    (ContactInfo.renderForm (formData (contactHandle s (TypeInto field value)))) /\
  Forall (fun f => ContactInfo.ff_value f = ""%string)
    (ContactInfo.renderForm (formData (contactHandle s SubmitForm))) /\
  (forall g, formData (contactHandle s SubmitForm) !! g =
             if bool_decide (g ∈ fieldNames) then Some ""%string else None).
Proof.
  cbn [contactHandle formData handleSubmit]. split; [|split; [|apply initForm_lookup]].
  - unfold handleInputChange. cbn [ContactInfo.renderForm].
    repeat constructor; cbn [ContactInfo.ff_name ContactInfo.ff_value];
      rewrite fieldValue_insert, String.eqb_sym; by destruct (_ =s? _).
  - unfold fieldValue. cbn [ContactInfo.renderForm].
    repeat constructor; cbn [ContactInfo.ff_value]; rewrite initForm_lookup; reflexivity.
Qed.
